(** * LoRa ingestion bridge: sensor node and gateway

    A shallow embedding of the two Arduino sketches of the repository,

      - [examples/lora-node/lora-node.ino]       (module [Node]),
      - the LoRa gateway sketch (lora-gateway)   (module [Gateway]),

    together with models of the three libraries the sketches are written
    against: ArduinoJson v6 (documents, [serializeJson], [deserializeJson]),
    PubSubClient (the MQTT session) and the LoRa radio driver.

    Number model.  The sketches compute with C [float] (IEEE 754 binary32)
    and [double] (binary64).  A floating-point value is carried by the
    rational number ([Q]) it holds, and every operation of the sketches
    that produces a [float] or a [double] ([* 10], [+], [/ 10.0], the
    narrowing of an assignment to a [float], ...) rounds its exact result
    to the format, to nearest, ties to even (module [Float]).  Infinities
    and NaN are not modelled; the statements that depend on a value bound
    its magnitude.  [int] is a 32-bit signed integer and is carried as [Z],
    with its range written out where the code depends on it. *)

From Stdlib Require Import ZArith QArith Qround Qabs Qpower String Ascii List
  Lia Lqa Bool.
Import ListNotations.

Set Warnings "-register-all".

Open Scope string_scope.
Open Scope Z_scope.

(* ================================================================== *)
(** * Characters and C strings *)
(* ================================================================== *)

(** The double quote character, code 34. *)
Definition dquote : ascii := "034"%char.

(** The backslash character, code 92. *)
Definition backslash : ascii := "092"%char.

Definition isDigit (c : ascii) : bool :=
  ((48 <=? nat_of_ascii c) && (nat_of_ascii c <=? 57))%nat.

Definition isAlpha (c : ascii) : bool :=
  (((65 <=? nat_of_ascii c) && (nat_of_ascii c <=? 90)) ||
   ((97 <=? nat_of_ascii c) && (nat_of_ascii c <=? 122)))%nat.

Definition digitVal (c : ascii) : Z := Z.of_nat (nat_of_ascii c) - 48.

Definition digitChar (d : Z) : ascii := ascii_of_nat (48 + Z.to_nat d).

(** [snprintf(buf, size, "%s%s", a, b)]: the two strings are written one
    after the other, cut to [size - 1] characters (the last byte of the
    buffer holds the terminator). *)
Definition snprintf_ss (size : nat) (a b : string) : string :=
  substring 0 (size - 1) (a ++ b).

(** 32-bit ranges of the target (ESP32). *)
Definition INT_MIN : Z := - 2 ^ 31.
Definition INT_MAX : Z := 2 ^ 31 - 1.

Definition in_int_range (z : Z) : bool := (INT_MIN <=? z) && (z <=? INT_MAX).

(* ================================================================== *)
(** * Binary floating point *)
(* ================================================================== *)

(** IEEE 754 rounding of a rational number to a binary format.  The
    result is again a rational: the value of the floating-point number.
    Overflow to infinity is not modelled. *)
Module Float.

(** [2^e], for any integer [e]. *)
Definition pow2 (e : Z) : Q := (2 ^ e)%Q.

(** The integer nearest to [x]; of two equally near, the even one. *)
Definition nearestEven (x : Q) : Z :=
  let f := Qfloor x in
  match (x - inject_Z f ?= 1 # 2)%Q with
  | Lt => f
  | Gt => f + 1
  | Eq => if Z.even f then f else f + 1
  end.

(** The binary exponent of a positive [x]: [2^e <= x < 2^(e+1)]. *)
Definition exponent (x : Q) : Z :=
  let e := Z.log2 (Qnum x) - Z.log2 (Z.pos (Qden x)) in
  if Qle_bool (pow2 e) x then e else e - 1.

(** Rounding to the format of [prec] significant bits whose smallest
    normal exponent is [emin]: to nearest, ties to even; below the normal
    range the spacing stays that of the smallest normal numbers. *)
Definition round (prec emin : Z) (x : Q) : Q :=
  if Qeq_bool x 0 then 0%Q
  else
    let e := Z.max (exponent (Qabs x)) emin in
    let ulp := pow2 (e - prec + 1) in
    (inject_Z (nearestEven (x / ulp)) * ulp)%Q.

(** C [float] and [double] on the ESP32. *)
Definition binary32 : Q -> Q := round 24 (-126).
Definition binary64 : Q -> Q := round 53 (-1022).

End Float.

(* ================================================================== *)
(** * ArduinoJson (v6) *)
(* ================================================================== *)

(** Model of the parts of the ArduinoJson v6 library the sketches use.  A
    document is a tree of variants; an object keeps its members in
    insertion order and looks a key up from the front.  The memory pool of a
    [StaticJsonDocument<N>] and the 63-character number buffer of the
    parser are not modelled; the writer prints numbers in positional
    notation with at most nine decimals (the exponent notation the library
    switches to for very large and very small magnitudes is not modelled).
    A [JFloat] holds the value of a [double]; the reader keeps the decimal
    value of the text it reads (the rounding of its own arithmetic is not
    modelled). *)
Module ArduinoJson.

Inductive JsonVariant : Type :=
| JNull
| JBool (b : bool)
| JInteger (n : Z)
| JFloat (x : Q)
| JString (s : string)
| JArray (elements : list JsonVariant)
| JObject (members : list (string * JsonVariant)).

Inductive DeserializationError : Type :=
| Ok | EmptyInput | IncompleteInput | InvalidInput | NoMemory
| NotSupported | TooDeep.

(** ** Access: [doc[key]] and [doc[key] = value] *)

Fixpoint lookup (key : string) (members : list (string * JsonVariant))
  : JsonVariant :=
  match members with
  | [] => JNull
  | (k, v) :: rest => if String.eqb k key then v else lookup key rest
  end.

(** [doc[key]] read: the member, or the null variant when the document is
    not an object or has no such member. *)
Definition get (doc : JsonVariant) (key : string) : JsonVariant :=
  match doc with
  | JObject members => lookup key members
  | _ => JNull
  end.

Fixpoint replace (key : string) (v : JsonVariant)
         (members : list (string * JsonVariant))
  : list (string * JsonVariant) :=
  match members with
  | [] => [(key, v)]
  | (k, w) :: rest =>
      if String.eqb k key then (k, v) :: rest
      else (k, w) :: replace key v rest
  end.

(** [doc[key] = v]: an empty document becomes an object; an existing
    member is overwritten in place, a new one is appended. *)
Definition set (doc : JsonVariant) (key : string) (v : JsonVariant)
  : JsonVariant :=
  match doc with
  | JObject members => JObject (replace key v members)
  | _ => JObject [(key, v)]
  end.

(** ** Numbers *)

Definition applySign (negative : bool) (n : Z) : Z :=
  if negative then - n else n.

(** The value [m * 10^e]. *)
Definition makeFloat (m e : Z) : Q :=
  if 0 <=? e then inject_Z (m * 10 ^ e) else Qmake m (Z.to_pos (10 ^ (- e))).

(** Reads a run of digits, accumulating their value and counting them. *)
Fixpoint readDigits (acc count : Z) (s : string) : Z * Z * string :=
  match s with
  | String c r =>
      if isDigit c then readDigits (acc * 10 + digitVal c) (count + 1) r
      else (acc, count, s)
  | EmptyString => (acc, count, s)
  end.

Definition readSign (s : string) : bool * string :=
  match s with
  | String c r =>
      if (c =? "-")%char then (true, r)
      else if (c =? "+")%char then (false, r)
      else (false, s)
  | EmptyString => (false, s)
  end.

(** The part of [parseNumber] after the sign: digits, optional fraction,
    optional exponent, and nothing after.  Digits alone give an integer,
    anything else a float. *)
Definition parseMagnitude (neg : bool) (s1 : string) : option JsonVariant :=
  match s1 with
  | EmptyString => None
  | String c _ =>
      if isDigit c || (c =? ".")%char then
        let '(mant, _, s2) := readDigits 0 0 s1 in
        match s2 with
        | EmptyString => Some (JInteger (applySign neg mant))
        | String c2 r2 =>
            let '(mant', decimals, s3) :=
              if (c2 =? ".")%char then readDigits mant 0 r2
              else (mant, 0, s2) in
            let '(expo, s4) :=
              match s3 with
              | String c3 r3 =>
                  if (c3 =? "e")%char || (c3 =? "E")%char then
                    let '(eneg, r4) := readSign r3 in
                    let '(e, _, r5) := readDigits 0 0 r4 in
                    (applySign eneg e, r5)
                  else (0, s3)
              | EmptyString => (0, s3)
              end in
            match s4 with
            | EmptyString =>
                Some (JFloat (makeFloat (applySign neg mant')
                                        (expo - decimals)))
            | String _ _ => None
            end
        end
      else None
  end.

(** [parseNumber]: an optional sign, then the magnitude. *)
Definition parseNumber (s : string) : option JsonVariant :=
  let '(neg, s1) := readSign s in parseMagnitude neg s1.

(** ** Conversions: [as<const char*>()], [as<float>()], [as<int>()] *)

(** A variant converts to a character pointer only when it holds a
    string; everything else, the null variant included, gives the null
    pointer. *)
Definition as_cstr (v : JsonVariant) : option string :=
  match v with
  | JString s => Some s
  | _ => None
  end.

Definition number_as_float (v : JsonVariant) : Q :=
  match v with
  | JInteger n => inject_Z n
  | JFloat x => x
  | _ => 0%Q
  end.

(** Truncation toward zero. *)
Definition Qtrunc (x : Q) : Z := Z.quot (Qnum x) (Zpos (Qden x)).

Definition number_as_int (v : JsonVariant) : Z :=
  match v with
  | JInteger n => if in_int_range n then n else 0
  | JFloat x => if in_int_range (Qtrunc x) then Qtrunc x else 0
  | _ => 0
  end.

Definition as_float (v : JsonVariant) : Q :=
  match v with
  | JBool b => if b then 1%Q else 0%Q
  | JString s =>
      match parseNumber s with
      | Some n => number_as_float n
      | None => 0%Q
      end
  | _ => number_as_float v
  end.

Definition as_int (v : JsonVariant) : Z :=
  match v with
  | JBool b => if b then 1 else 0
  | JString s =>
      match parseNumber s with
      | Some n => number_as_int n
      | None => 0
      end
  | _ => number_as_int v
  end.

(** ** Writer: [serializeJson] *)

Definition escapeChar (c : ascii) : option ascii :=
  if (c =? dquote)%char then Some dquote
  else if (c =? backslash)%char then Some backslash
  else if (c =? "008")%char then Some "b"%char
  else if (c =? "012")%char then Some "f"%char
  else if (c =? "010")%char then Some "n"%char
  else if (c =? "013")%char then Some "r"%char
  else if (c =? "009")%char then Some "t"%char
  else None.

Definition unescapeChar (c : ascii) : option ascii :=
  if (c =? dquote)%char then Some dquote
  else if (c =? backslash)%char then Some backslash
  else if (c =? "/")%char then Some "/"%char
  else if (c =? "b")%char then Some "008"%char
  else if (c =? "f")%char then Some "012"%char
  else if (c =? "n")%char then Some "010"%char
  else if (c =? "r")%char then Some "013"%char
  else if (c =? "t")%char then Some "009"%char
  else None.

Fixpoint escapeString (s : string) : string :=
  match s with
  | EmptyString => EmptyString
  | String c r =>
      match escapeChar c with
      | Some e => String backslash (String e (escapeString r))
      | None => String c (escapeString r)
      end
  end.

Definition writeString (s : string) : string :=
  String dquote (escapeString s ++ String dquote EmptyString).

(** The digits of [n], least significant first into the front of [acc]
    (the library fills its buffer from the end, in a do-while loop). *)
Fixpoint writeDigits (fuel : nat) (n : Z) (acc : string) : string :=
  match fuel with
  | O => acc
  | S f =>
      let acc' := String (digitChar (n mod 10)) acc in
      if n / 10 =? 0 then acc' else writeDigits f (n / 10) acc'
  end.

Definition writeUnsigned (n : Z) : string :=
  writeDigits (S (Z.to_nat (Z.log2 n))) n EmptyString.

Definition writeInteger (n : Z) : string :=
  if n <? 0 then String "-" (writeUnsigned (- n)) else writeUnsigned n.

(** Exactly [width] digits of [n], zero padded on the left. *)
Fixpoint fixedDigits (width : nat) (n : Z) : string :=
  match width with
  | O => EmptyString
  | S w => fixedDigits w (n / 10) ++ String (digitChar (n mod 10)) EmptyString
  end.

Fixpoint stripTrailingZeros (s : string) : string :=
  match s with
  | EmptyString => EmptyString
  | String c r =>
      match stripTrailingZeros r with
      | EmptyString => if (c =? "0")%char then EmptyString
                       else String c EmptyString
      | r' => String c r'
      end
  end.

(** Integral part and nine rounded decimals of a non-negative value: the
    remainder is scaled by 10^9, cut, and incremented when what is left is
    at least one half; a carry goes to the integral part. *)
Definition floatParts (a : Q) : Z * Z :=
  let integral := Qfloor a in
  let remainder := ((a - inject_Z integral) * inject_Z (10 ^ 9))%Q in
  let decimal := Qfloor (remainder + (1 # 2))%Q in
  if 10 ^ 9 <=? decimal then (integral + 1, 0) else (integral, decimal).

Definition writeFloat (x : Q) : string :=
  let '(integral, decimal) := floatParts (Qabs x) in
  (if Qnum x <? 0 then "-" else "") ++
  writeUnsigned integral ++
  (if decimal =? 0 then ""
   else String "." (stripTrailingZeros (fixedDigits 9 decimal))).

Fixpoint serialize (v : JsonVariant) : string :=
  match v with
  | JNull => "null"
  | JBool b => if b then "true" else "false"
  | JInteger n => writeInteger n
  | JFloat x => writeFloat x
  | JString s => writeString s
  | JArray elements =>
      "[" ++
      (fix elems (l : list JsonVariant) : string :=
         match l with
         | [] => ""
         | x :: r =>
             serialize x ++ match r with [] => "" | _ => "," ++ elems r end
         end) elements ++ "]"
  | JObject members =>
      "{" ++
      (fix membs (l : list (string * JsonVariant)) : string :=
         match l with
         | [] => ""
         | (k, x) :: r =>
             writeString k ++ ":" ++ serialize x ++
             match r with [] => "" | _ => "," ++ membs r end
         end) members ++ "}"
  end.

(** [serializeJson(doc, buffer)] with [char buffer[size]]: the text, cut to
    what the buffer holds besides its terminator. *)
Definition serializeJson (doc : JsonVariant) (size : nat) : string :=
  substring 0 (size - 1) (serialize doc).

(** ** Reader: [deserializeJson] *)

Inductive parsed (A : Type) : Type :=
| Done (a : A) (rest : string)
| Fail (e : DeserializationError).
Arguments Done {A} a rest.
Arguments Fail {A} e.

Definition isSpace (c : ascii) : bool :=
  (c =? " ")%char || (c =? "009")%char || (c =? "010")%char ||
  (c =? "013")%char.

Definition isQuote (c : ascii) : bool :=
  (c =? dquote)%char || (c =? "'")%char.

Definition canBeInNonQuotedString (c : ascii) : bool :=
  isDigit c || (c =? "_")%char || isAlpha c.

Definition canBeInNumber (c : ascii) : bool :=
  canBeInNonQuotedString c || (c =? "+")%char || (c =? "-")%char ||
  (c =? ".")%char.

Fixpoint skipSpaces (s : string) : string :=
  match s with
  | String c r => if isSpace c then skipSpaces r else s
  | EmptyString => s
  end.

(** The longest prefix whose characters satisfy [p], and what follows. *)
Fixpoint span (p : ascii -> bool) (s : string) : string * string :=
  match s with
  | String c r =>
      if p c then let '(a, b) := span p r in (String c a, b)
      else (EmptyString, s)
  | EmptyString => (EmptyString, s)
  end.

(** Reads up to the closing quote [stop]; the opening quote is consumed
    already. *)
Fixpoint parseQuotedString (stop : ascii) (s : string) : parsed string :=
  match s with
  | EmptyString => Fail IncompleteInput
  | String c r =>
      if (c =? stop)%char then Done EmptyString r
      else if (c =? "000")%char then Fail IncompleteInput
      else if (c =? backslash)%char then
        match r with
        | EmptyString => Fail IncompleteInput
        | String e r' =>
            if (e =? "u")%char then Fail NotSupported
            else
              match unescapeChar e with
              | None => Fail InvalidInput
              | Some c' =>
                  match parseQuotedString stop r' with
                  | Done str rest => Done (String c' str) rest
                  | Fail err => Fail err
                  end
              end
        end
      else
        match parseQuotedString stop r with
        | Done str rest => Done (String c str) rest
        | Fail err => Fail err
        end
  end.

Definition parseNonQuotedString (s : string) : parsed string :=
  match span canBeInNonQuotedString s with
  | (EmptyString, _) => Fail InvalidInput
  | (key, rest) => Done key rest
  end.

Definition parseKey (s : string) : parsed string :=
  match s with
  | String c r =>
      if isQuote c then parseQuotedString c r else parseNonQuotedString s
  | EmptyString => Fail IncompleteInput
  end.

Fixpoint skipKeyword (keyword s : string) : parsed unit :=
  match keyword with
  | EmptyString => Done tt s
  | String k keyword' =>
      match s with
      | EmptyString => Fail IncompleteInput
      | String c r =>
          if (c =? k)%char then skipKeyword keyword' r else Fail InvalidInput
      end
  end.

Definition parseLiteral (keyword : string) (v : JsonVariant) (s : string)
  : parsed JsonVariant :=
  match skipKeyword keyword s with
  | Done _ rest => Done v rest
  | Fail e => Fail e
  end.

Definition parseNumericValue (s : string) : parsed JsonVariant :=
  let '(buffer, rest) := span canBeInNumber s in
  match parseNumber buffer with
  | Some v => Done v rest
  | None => Fail InvalidInput
  end.

(** The recursive descent.  [nesting] is the library's nesting limit, one
    less in every array and object; [fuel] bounds the depth of the calls
    and is taken from the length of the input by [deserializeJson]. *)
Fixpoint parseVariant (fuel nesting : nat) (s : string) {struct fuel}
  : parsed JsonVariant :=
  match fuel with
  | O => Fail TooDeep
  | S fuel' =>
      match skipSpaces s with
      | EmptyString => Fail IncompleteInput
      | String c r =>
          if (c =? "[")%char then
            match nesting with
            | O => Fail TooDeep
            | S n =>
                match skipSpaces r with
                | EmptyString => Fail IncompleteInput
                | String c1 r1 =>
                    if (c1 =? "]")%char then Done (JArray []) r1
                    else parseElements fuel' n [] (String c1 r1)
                end
            end
          else if (c =? "{")%char then
            match nesting with
            | O => Fail TooDeep
            | S n =>
                match skipSpaces r with
                | EmptyString => Fail IncompleteInput
                | String c1 r1 =>
                    if (c1 =? "}")%char then Done (JObject []) r1
                    else parseMembers fuel' n [] (String c1 r1)
                end
            end
          else if isQuote c then
            match parseQuotedString c r with
            | Done str rest => Done (JString str) rest
            | Fail e => Fail e
            end
          else if (c =? "t")%char then
            parseLiteral "true" (JBool true) (String c r)
          else if (c =? "f")%char then
            parseLiteral "false" (JBool false) (String c r)
          else if (c =? "n")%char then
            parseLiteral "null" JNull (String c r)
          else parseNumericValue (String c r)
      end
  end

with parseElements (fuel nesting : nat) (acc : list JsonVariant)
       (s : string) {struct fuel} : parsed JsonVariant :=
  match fuel with
  | O => Fail TooDeep
  | S fuel' =>
      match parseVariant fuel' nesting s with
      | Fail e => Fail e
      | Done v rest =>
          match skipSpaces rest with
          | EmptyString => Fail IncompleteInput
          | String c r =>
              if (c =? "]")%char then Done (JArray (acc ++ [v])) r
              else if (c =? ",")%char then
                parseElements fuel' nesting (acc ++ [v]) r
              else Fail InvalidInput
          end
      end
  end

with parseMembers (fuel nesting : nat) (acc : list (string * JsonVariant))
       (s : string) {struct fuel} : parsed JsonVariant :=
  match fuel with
  | O => Fail TooDeep
  | S fuel' =>
      match parseKey s with
      | Fail e => Fail e
      | Done key rest =>
          match skipSpaces rest with
          | EmptyString => Fail IncompleteInput
          | String c r =>
              if (c =? ":")%char then
                match parseVariant fuel' nesting r with
                | Fail e => Fail e
                | Done v rest' =>
                    match skipSpaces rest' with
                    | EmptyString => Fail IncompleteInput
                    | String c' r' =>
                        if (c' =? "}")%char then
                          Done (JObject (replace key v acc)) r'
                        else if (c' =? ",")%char then
                          match skipSpaces r' with
                          | EmptyString => Fail IncompleteInput
                          | s' => parseMembers fuel' nesting
                                    (replace key v acc) s'
                          end
                        else Fail InvalidInput
                    end
                end
              else Fail InvalidInput
          end
      end
  end.

Definition NESTING_LIMIT : nat := 10.

(** Arrays, objects and strings close themselves; a number or a literal at
    the top level must be all of the input. *)
Definition isEnclosed (v : JsonVariant) : bool :=
  match v with
  | JArray _ | JObject _ | JString _ => true
  | _ => false
  end.

(** [deserializeJson(doc, input)]: the error code and the document (null on
    error).  What follows a complete array, object or string is ignored. *)
Definition deserializeJson (input : string)
  : DeserializationError * JsonVariant :=
  match skipSpaces input with
  | EmptyString => (EmptyInput, JNull)
  | _ =>
      match parseVariant (2 * String.length input + 2) NESTING_LIMIT input with
      | Fail e => (e, JNull)
      | Done v rest =>
          if isEnclosed v then (Ok, v)
          else match rest with
               | EmptyString => (Ok, v)
               | String _ _ => (InvalidInput, JNull)
               end
      end
  end.

End ArduinoJson.

(* ================================================================== *)
(** * PubSubClient *)
(* ================================================================== *)

(** Model of the MQTT client library: the session flag and, as the
    observable effect, the messages written to the broker in order.  The
    broker and the network are the environment: whether a connection
    attempt succeeds and whether the link survives a call of [loop()] are
    inputs.  The size limit of the client's packet buffer is not
    modelled. *)
Module PubSubClient.

Record t : Type := mkClient {
  is_connected : bool;
  delivered : list (string * string)
}.

(** [mqttClient.connected()] *)
Definition connected (c : t) : bool := is_connected c.

(** [mqttClient.connect(id)]: the session is up when the broker accepts. *)
Definition connect (accepted : bool) (c : t) : t * bool :=
  (mkClient accepted (delivered c), accepted).

(** [mqttClient.loop()]: keep-alive processing; a lost link ends the
    session. *)
Definition loop (link_alive : bool) (c : t) : t :=
  mkClient (is_connected c && link_alive) (delivered c).

(** [mqttClient.publish(topic, payload)]: written to the broker when the
    session is up, refused otherwise. *)
Definition publish (topic payload : string) (c : t) : t * bool :=
  if is_connected c
  then (mkClient true (delivered c ++ [(topic, payload)])%list, true)
  else (c, false).

End PubSubClient.

(* ================================================================== *)
(** * Sensor node: [examples/lora-node/lora-node.ino] *)
(* ================================================================== *)

Module Node.
Import ArduinoJson.

(** The identity configured in the sketch as it ships; it is changed for
    each node, so the functions below take the identity as an argument. *)
Definition MACHINE_ID : string := "lathe_01".

Definition SLEEP_SECONDS : Z := 30.

(** What the node does to the outside, in order. *)
Inductive Event : Type :=
| Delay (ms : Z)                            (* delay(ms) *)
| LoRaBegin (ok : bool)                     (* LoRa.begin(LORA_FREQUENCY) *)
| Restart                                   (* ESP.restart() *)
| ReadSensors (temperature vibration : Q) (rpm : Z)
                                            (* readTemperature() ... *)
| Transmit (payload : string) (ok : bool)   (* beginPacket/print/endPacket *)
| DeepSleep (seconds : Z).                  (* esp_deep_sleep_start() *)

(** What one boot finds: whether the radio hardware answers, the values
    [random] returns to the three simulated sensors, and whether the radio
    accepts the packet. *)
Record Environment : Type := mkEnv {
  radio_responds : bool;
  random_temperature : Z;     (* random(0, 100) *)
  random_vibration : Z;       (* random(0, 100) *)
  random_rpm : Z;             (* random(-100, 100) *)
  send_accepted : bool
}.

(** C [round]: the nearest integer, halfway cases away from zero. *)
Definition round (x : Q) : Z :=
  if Qle_bool 0 x then Qfloor (x + (1 # 2)) else Qceiling (x - (1 # 2)).

(** The simulated sensors; [rnd] is the value [random] returned.  The
    literals and the quotient are [double]s, narrowed to [float] by the
    assignments; the sum is a [float] sum. *)
Definition readTemperature (rnd : Z) : Q :=
  let baseTemp := Float.binary32 (Float.binary64 65) in
  let variance :=
    Float.binary32 (Float.binary64 ((inject_Z rnd - 50) / 10)) in
  Float.binary32 (baseTemp + variance).

Definition readVibration (rnd : Z) : Q :=
  let baseVibe := Float.binary32 (Float.binary64 (10 # 1000)) in
  let variance :=
    Float.binary32 (Float.binary64 ((inject_Z rnd - 50) / 10000)) in
  let x := Float.binary32 (baseVibe + variance) in
  if Qle_bool 0 x then x else 0%Q.

Definition readRPM (rnd : Z) : Z := Z.max 0 (3200 + rnd).

(** The two rounding expressions of [readAndTransmit],
    [round(temperature * 10) / 10.0] and
    [round(vibration * 1000) / 1000.0]: the product is a [float]
    product, the quotient a [double] quotient. *)
Definition round1 (temperature : Q) : Q :=
  Float.binary64
    (inject_Z (round (Float.binary32 (temperature * 10))) / 10).

Definition round3 (vibration : Q) : Q :=
  Float.binary64
    (inject_Z (round (Float.binary32 (vibration * 1000))) / 1000).

(** The compact document: [doc["id"]], [doc["t"]], [doc["v"]], [doc["r"]]
    in this order. *)
Definition compactDoc (machine_id : string) (temperature vibration : Q)
           (rpm : Z) : JsonVariant :=
  let doc := JNull in
  let doc := set doc "id" (JString machine_id) in
  let doc := set doc "t" (JFloat (round1 temperature)) in
  let doc := set doc "v" (JFloat (round3 vibration)) in
  let doc := set doc "r" (JInteger rpm) in
  doc.

(** The bytes handed to the radio: [serializeJson(doc, payload)] with
    [char payload[128]]. *)
Definition encode (machine_id : string) (temperature vibration : Q)
           (rpm : Z) : string :=
  serializeJson (compactDoc machine_id temperature vibration rpm) 128.

(** [setupLoRa]: [false] when the boot ends here. *)
Definition setupLoRa (env : Environment) : bool * list Event :=
  if radio_responds env
  then (true, [LoRaBegin true])
  else (false, [LoRaBegin false; Delay 5000; Restart]).

Definition readAndTransmit (machine_id : string) (env : Environment)
  : list Event :=
  let temperature := readTemperature (random_temperature env) in
  let vibration := readVibration (random_vibration env) in
  let rpm := readRPM (random_rpm env) in
  let payload := encode machine_id temperature vibration rpm in
  [ReadSensors temperature vibration rpm;
   Transmit payload (send_accepted env); Delay 100].

Definition enterDeepSleep : list Event :=
  [Delay 100; DeepSleep SLEEP_SECONDS].

(** [setup]: one boot, from power-up or wake-up to deep sleep or restart.
    [bootCount] lives in RTC memory; the new value is returned. *)
Definition setup (machine_id : string) (bootCount : Z) (env : Environment)
  : Z * list Event :=
  let bootCount := bootCount + 1 in
  let '(radio_ready, init) := setupLoRa env in
  if radio_ready
  then (bootCount,
        (Delay 1000 :: init ++ readAndTransmit machine_id env
           ++ enterDeepSleep)%list)
  else (bootCount, Delay 1000 :: init).

End Node.

(* ================================================================== *)
(** * Gateway: the LoRa gateway sketch *)
(* ================================================================== *)

Module Gateway.
Import ArduinoJson.

Definition MQTT_TOPIC_PREFIX : string := "factory/".

(** A received packet: the bytes read from the radio and the link quality
    the radio reports for it. *)
Record Packet : Type := mkPacket {
  payload : string;
  packetRssi : Z;
  packetSnr : Q
}.

(** The fields [handleLoRaPacket] extracts from the compact document. *)
Record CompactReading : Type := mkReading {
  machineId : string;
  temperature : Q;
  vibration : Q;
  rpm : Z
}.

Inductive Decoded : Type :=
| JsonParseError (e : DeserializationError)
| MissingMachineId
| Reading (r : CompactReading).

(** The first half of [handleLoRaPacket]: parse, extract, check the
    identity pointer.  [float temperature = rxDoc["t"]] and
    [float vibration = rxDoc["v"]] narrow what the document holds to
    [float]. *)
Definition decode (bytes : string) : Decoded :=
  let '(error, rxDoc) := deserializeJson bytes in
  match error with
  | Ok =>
      let machineId := as_cstr (get rxDoc "id") in
      let temperature := Float.binary32 (as_float (get rxDoc "t")) in
      let vibration := Float.binary32 (as_float (get rxDoc "v")) in
      let rpm := as_int (get rxDoc "r") in
      match machineId with
      | None => MissingMachineId
      | Some id => Reading (mkReading id temperature vibration rpm)
      end
  | _ => JsonParseError error
  end.

(** The canonical document, members in the order the sketch assigns
    them; [millis] is the gateway clock in milliseconds. *)
Definition canonicalDoc (r : CompactReading) (millis : Z) (rssi : Z)
           (snr : Q) : JsonVariant :=
  let txDoc := JNull in
  let txDoc := set txDoc "machine_id" (JString (machineId r)) in
  let txDoc := set txDoc "timestamp" (JInteger (millis / 1000)) in
  let txDoc := set txDoc "temperature" (JFloat (temperature r)) in
  let txDoc := set txDoc "vibration" (JFloat (vibration r)) in
  let txDoc := set txDoc "rpm" (JInteger (rpm r)) in
  let txDoc := set txDoc "rssi" (JInteger rssi) in
  let txDoc := set txDoc "snr" (JFloat snr) in
  txDoc.

(** [snprintf(topic, sizeof(topic), "%s%s", MQTT_TOPIC_PREFIX, machineId)]
    with [char topic[64]]. *)
Definition topicFor (id : string) : string :=
  snprintf_ss 64 MQTT_TOPIC_PREFIX id.

(** How [handleLoRaPacket] ends; each case prints its own line on the
    serial console. *)
Inductive Handled : Type :=
| ParseFailed (e : DeserializationError)     (* "JSON parse error: ..." *)
| MissingId                                  (* "Missing machine ID!" *)
| Published (topic message : string)         (* "Published to MQTT" *)
| PublishFailed (topic message : string).    (* "MQTT publish failed" *)

Definition handleLoRaPacket (millis : Z) (pkt : Packet)
           (mqttClient : PubSubClient.t) : PubSubClient.t * Handled :=
  let rssi := packetRssi pkt in
  let snr := packetSnr pkt in
  match decode (payload pkt) with
  | JsonParseError e => (mqttClient, ParseFailed e)
  | MissingMachineId => (mqttClient, MissingId)
  | Reading r =>
      let txDoc := canonicalDoc r millis rssi snr in
      let mqttPayload := serializeJson txDoc 512 in
      let topic := topicFor (machineId r) in
      let '(mqttClient', ok) :=
        PubSubClient.publish topic mqttPayload mqttClient in
      (mqttClient', if ok then Published topic mqttPayload
                    else PublishFailed topic mqttPayload)
  end.

(** What the gateway does to the outside, in order. *)
Inductive Event : Type :=
| Connect (ok : bool)          (* mqttClient.connect(MQTT_CLIENT_ID) *)
| Delay (ms : Z)               (* delay(ms) *)
| MqttLoop                     (* mqttClient.loop() *)
| ParsePacket (size : nat)     (* LoRa.parsePacket() *)
| Handle (h : Handled).        (* handleLoRaPacket(packetSize) *)

(** A call either returns or is still inside its loop when the recorded
    answers of the environment end. *)
Inductive Status : Type := Returned | Blocked.

(** [reconnectMQTT]: [attempts] are the answers of the broker to the
    successive connection attempts. *)
Fixpoint reconnectMQTT (attempts : list bool) (mqttClient : PubSubClient.t)
  : Status * PubSubClient.t * list Event :=
  if PubSubClient.connected mqttClient then (Returned, mqttClient, [])
  else
    match attempts with
    | [] => (Blocked, mqttClient, [])
    | accepted :: later =>
        let '(mqttClient', ok) := PubSubClient.connect accepted mqttClient in
        let '(status, final, events) := reconnectMQTT later mqttClient' in
        if ok then (status, final, Connect true :: events)
        else (status, final, Connect false :: Delay 5000 :: events)
    end.

(** What one pass of [loop] finds. *)
Record Environment : Type := mkEnv {
  attempts : list bool;      (* answers to connection attempts *)
  link_alive : bool;         (* the link survives mqttClient.loop() *)
  radio : option Packet;     (* the packet LoRa.parsePacket() finds *)
  millis : Z                 (* the clock when the packet is handled *)
}.

Definition packetSize (r : option Packet) : nat :=
  match r with
  | Some pkt => String.length (payload pkt)
  | None => 0
  end.

(** One pass of [loop]. *)
Definition loop (env : Environment) (mqttClient : PubSubClient.t)
  : Status * PubSubClient.t * list Event :=
  let '(status, mqttClient, reconnecting) :=
    if negb (PubSubClient.connected mqttClient)
    then reconnectMQTT (attempts env) mqttClient
    else (Returned, mqttClient, []) in
  match status with
  | Blocked => (Blocked, mqttClient, reconnecting)
  | Returned =>
      let mqttClient := PubSubClient.loop (link_alive env) mqttClient in
      let size := packetSize (radio env) in
      match radio env with
      | Some pkt =>
          if (0 <? size)%nat then
            let '(mqttClient, h) :=
              handleLoRaPacket (millis env) pkt mqttClient in
            (Returned, mqttClient,
             (reconnecting
                ++ [MqttLoop; ParsePacket size; Handle h; Delay 10])%list)
          else
            (Returned, mqttClient,
             (reconnecting ++ [MqttLoop; ParsePacket size; Delay 10])%list)
      | None =>
          (Returned, mqttClient,
           (reconnecting ++ [MqttLoop; ParsePacket size; Delay 10])%list)
      end
  end.

(** The sketch's main program after [setup]: [loop] again and again, one
    environment per pass. *)
Fixpoint run (envs : list Environment) (mqttClient : PubSubClient.t)
  : Status * PubSubClient.t * list Event :=
  match envs with
  | [] => (Returned, mqttClient, [])
  | env :: later =>
      let '(status, mqttClient', events) := loop env mqttClient in
      match status with
      | Blocked => (Blocked, mqttClient', events)
      | Returned =>
          let '(status', final, events') := run later mqttClient' in
          (status', final, (events ++ events')%list)
      end
  end.

End Gateway.

(* ================================================================== *)
(** * Gateway: start-up *)
(* ================================================================== *)

(** [setup], [setupWiFi] and [setupLoRa] of the gateway sketch, and the
    whole program: [setup] once, then [loop] for ever. *)
Module GatewaySetup.

Definition MQTT_BROKER : string := "192.168.1.100".
Definition MQTT_PORT : Z := 1883.

(** The radio settings made after [LoRa.begin]. *)
Record RadioConfig : Type := mkRadio {
  signalBandwidth : Z;
  spreadingFactor : Z;
  codingRate4 : Z;
  txPower : Z;
  syncWord : Z
}.

Definition LORA_FREQUENCY : Z := 915000000.

Definition radioConfig : RadioConfig := mkRadio 125000 7 5 20 18.

Inductive Event : Type :=
| Delay (ms : Z)                          (* delay(ms) *)
| WiFiBegin                               (* WiFi.mode, WiFi.begin *)
| WiFiStatus (connected : bool)           (* WiFi.status() *)
| SetServer (broker : string) (port : Z)  (* mqttClient.setServer *)
| LoRaBegin (frequency : Z) (ok : bool)   (* LoRa.begin(LORA_FREQUENCY) *)
| LoRaConfigure (config : RadioConfig)    (* setSignalBandwidth ... *)
| Main (e : Gateway.Event).               (* an event of loop() *)

(** What start-up finds: the answers of [WiFi.status()] to the successive
    polls, and whether the radio hardware answers. *)
Record Environment : Type := mkEnv {
  wifi : list bool;
  radio_responds : bool
}.

(** The waiting loop of [setupWiFi]: poll, and pause half a second after
    every poll that does not find the network. *)
Fixpoint awaitWiFi (answers : list bool) : Gateway.Status * list Event :=
  match answers with
  | [] => (Gateway.Blocked, [])
  | connected :: later =>
      if connected then (Gateway.Returned, [WiFiStatus true])
      else
        let '(status, events) := awaitWiFi later in
        (status, WiFiStatus false :: Delay 500 :: events)
  end.

Definition setupWiFi (answers : list bool) : Gateway.Status * list Event :=
  let '(status, events) := awaitWiFi answers in
  (status, WiFiBegin :: events).

(** [setupLoRa]: when [LoRa.begin] fails the sketch stays in [while (1);]. *)
Definition setupLoRa (responds : bool) : Gateway.Status * list Event :=
  if responds
  then (Gateway.Returned,
        [LoRaBegin LORA_FREQUENCY true; LoRaConfigure radioConfig])
  else (Gateway.Blocked, [LoRaBegin LORA_FREQUENCY false]).

Definition setup (env : Environment) : Gateway.Status * list Event :=
  let '(status, wifi_events) := setupWiFi (wifi env) in
  match status with
  | Gateway.Blocked => (Gateway.Blocked, Delay 1000 :: wifi_events)
  | Gateway.Returned =>
      let '(status', lora_events) := setupLoRa (radio_responds env) in
      (status',
       (Delay 1000 :: wifi_events
          ++ SetServer MQTT_BROKER MQTT_PORT :: lora_events)%list)
  end.

(** The program: [setup], then the passes of [loop]. *)
Definition main (env : Environment) (passes : list Gateway.Environment)
           (mqttClient : PubSubClient.t)
  : Gateway.Status * PubSubClient.t * list Event :=
  let '(status, events) := setup env in
  match status with
  | Gateway.Blocked => (Gateway.Blocked, mqttClient, events)
  | Gateway.Returned =>
      let '(status', final, events') := Gateway.run passes mqttClient in
      (status', final, (events ++ map Main events')%list)
  end.

End GatewaySetup.

(* ================================================================== *)
(** * Sensor node: one wake-up after another *)
(* ================================================================== *)

Module NodeLife.

(** Successive boots of the node.  A boot that ends in deep sleep is
    followed, when the timer fires, by the next boot with [bootCount]
    as it was left in RTC memory.  The record stops at a boot that ends in
    [ESP.restart()]. *)
Fixpoint cycles (machine_id : string) (bootCount : Z)
         (envs : list Node.Environment) : Z * list (list Node.Event) :=
  match envs with
  | [] => (bootCount, [])
  | env :: later =>
      let '(bootCount', events) := Node.setup machine_id bootCount env in
      if Node.radio_responds env then
        let '(final, boots) := cycles machine_id bootCount' later in
        (final, events :: boots)
      else (bootCount', [events])
  end.

End NodeLife.

(* ================================================================== *)
(** * Sample data *)
(* ================================================================== *)

Module Samples.
Import ArduinoJson Gateway.

(** A string between double quotes, as it stands in a JSON text. *)
Definition quoted (s : string) : string :=
  String dquote (s ++ String dquote EmptyString).

(** The packet of the gateway's README: lathe_01, 67.3 degrees, 0.012 g,
    3200 rpm. *)
Definition lathePayload : string :=
  "{" ++ quoted "id" ++ ":" ++ quoted "lathe_01" ++ "," ++
  quoted "t" ++ ":67.3," ++ quoted "v" ++ ":0.012," ++
  quoted "r" ++ ":3200}".

Definition lathePacket : Packet := mkPacket lathePayload (-45) (95 # 10).

(** The same packet followed by characters that do not belong to it. *)
Definition trailingPayload : string := lathePayload ++ "}}garbage".

(** A reading written with unquoted keys and single quotes. *)
Definition looseSyntaxPayload : string := "{id:'lathe_01',t:67.3,r:3200}".

(** A packet whose [id] member is a number, with no readings. *)
Definition numericIdPayload : string := "{" ++ quoted "id" ++ ":42}".

(** The [float] nearest to 67.35, a little below it. *)
Definition sample6735 : Q := 8827699 # 131072.

(** A payload that carries 67.4 degrees and 0.006 g. *)
Definition nearTiePayload : string :=
  "{" ++ quoted "id" ++ ":" ++ quoted "lathe_01" ++ "," ++
  quoted "t" ++ ":67.4," ++ quoted "v" ++ ":0.006," ++
  quoted "r" ++ ":3200}".

(** The same reading without its [id] member. *)
Definition anonymousPayload : string :=
  "{" ++ quoted "t" ++ ":67.3," ++ quoted "v" ++ ":0.012," ++
  quoted "r" ++ ":3200}".

(** The same reading with an [id] member that is the empty string. *)
Definition emptyIdPayload : string :=
  "{" ++ quoted "id" ++ ":" ++ quoted "" ++ "," ++
  quoted "t" ++ ":67.3," ++ quoted "v" ++ ":0.012," ++
  quoted "r" ++ ":3200}".

(** A packet cut off in the middle of the identity. *)
Definition truncatedPayload : string :=
  "{" ++ quoted "id" ++ ":" ++ String dquote "lathe".

(** Only the identity, no readings. *)
Definition idOnlyPayload : string :=
  "{" ++ quoted "id" ++ ":" ++ quoted "lathe_01" ++ "}".

(** An identity of 60 characters. *)
Definition longId : string :=
  "press_line_0123456789_0123456789_0123456789_0123456789_01234".

(** A reading under that identity. *)
Definition longIdPayload : string :=
  "{" ++ quoted "id" ++ ":" ++ quoted longId ++ "," ++
  quoted "t" ++ ":67.3," ++ quoted "v" ++ ":0.012," ++
  quoted "r" ++ ":3200}".

Definition connectedClient : PubSubClient.t := PubSubClient.mkClient true [].
Definition disconnectedClient : PubSubClient.t :=
  PubSubClient.mkClient false [].

(** The canonical document of the README's packet: the readings are the
    [float]s nearest to 67.3 and 0.012. *)
Definition latheCanonical (millis : Z) : JsonVariant :=
  JObject [("machine_id", JString "lathe_01");
           ("timestamp", JInteger (millis / 1000));
           ("temperature", JFloat (Float.binary32 (673 # 10)));
           ("vibration", JFloat (Float.binary32 (12 # 1000)));
           ("rpm", JInteger 3200);
           ("rssi", JInteger (-45));
           ("snr", JFloat (95 # 10))].

(** Its text, as the gateway serialises it into [mqttPayload], when the
    clock reads 12345678 ms. *)
Definition latheCanonicalText : string :=
  serializeJson (latheCanonical 12345678) 512.

(** The text with the readings as the packet's decimals give them. *)
Definition latheDecimalText : string :=
  "{" ++ quoted "machine_id" ++ ":" ++ quoted "lathe_01" ++ "," ++
  quoted "timestamp" ++ ":12345," ++
  quoted "temperature" ++ ":67.3," ++
  quoted "vibration" ++ ":0.012," ++
  quoted "rpm" ++ ":3200," ++
  quoted "rssi" ++ ":-45," ++
  quoted "snr" ++ ":9.5}".

(** Two more readings, as in the broker test script. *)
Definition millPayload : string :=
  "{" ++ quoted "id" ++ ":" ++ quoted "mill_02" ++ "," ++
  quoted "t" ++ ":71.8," ++ quoted "v" ++ ":0.018," ++
  quoted "r" ++ ":2800}".

Definition pressPayload : string :=
  "{" ++ quoted "id" ++ ":" ++ quoted "press_03" ++ "," ++
  quoted "t" ++ ":69.1," ++ quoted "v" ++ ":0.021," ++
  quoted "r" ++ ":1500}".

(** Three passes of [loop], starting with the session down.  In the first
    two the link is lost again before the packet is handled; in the third
    it holds. *)
Definition reconnectScenario : list Environment :=
  [mkEnv [true] false (Some (mkPacket millPayload (-52) (72 # 10))) 1000;
   mkEnv [false; true] false
         (Some (mkPacket pressPayload (-48) (89 # 10))) 7000;
   mkEnv [true] true (Some lathePacket) 12345678].

(** A pass during which the broker refuses three connection attempts
    while a packet waits on the radio. *)
Definition brokerDown : Environment :=
  mkEnv [false; false; false] true (Some lathePacket) 12345678.

End Samples.

(* ================================================================== *)
(** * Vocabulary of the statements *)
(* ================================================================== *)

(** ** Strings and digits *)

(** A C string holds no NUL character. *)
Fixpoint cstring (s : string) : Prop :=
  match s with
  | EmptyString => True
  | String c r => c <> "000"%char /\ cstring r
  end.

(** Every character of the string satisfies [p]. *)
Fixpoint allChars (p : ascii -> bool) (s : string) : bool :=
  match s with
  | EmptyString => true
  | String c r => p c && allChars p r
  end.

Definition startsWith (p : ascii -> bool) (s : string) : bool :=
  match s with
  | String c _ => p c
  | EmptyString => false
  end.

(** The number a string of digits denotes, continuing from [acc]. *)
Fixpoint digitsValue (acc : Z) (s : string) : Z :=
  match s with
  | EmptyString => acc
  | String c r => digitsValue (acc * 10 + digitVal c) r
  end.

(** The length of a string, as an integer. *)
Definition zlength (s : string) : Z := Z.of_nat (String.length s).

(** Case analysis on the eight bits of a character. *)
Ltac ascii_cases c := destruct c as [[] [] [] [] [] [] [] []].

(** ** JSON texts and documents *)

(** Whether an object has a member of the given name. *)
Definition hasMember (doc : ArduinoJson.JsonVariant) (key : string) : bool :=
  match doc with
  | ArduinoJson.JObject members =>
      existsb (fun kv => String.eqb (fst kv) key) members
  | _ => false
  end.

(** The text [writeFloat] produces after the sign, for an integral part
    and nine decimals. *)
Definition magnitudeText (integral decimal : Z) : string :=
  ArduinoJson.writeUnsigned integral ++
  (if decimal =? 0 then ""
   else String "." (ArduinoJson.stripTrailingZeros
                      (ArduinoJson.fixedDigits 9 decimal))).

Definition signed (negative : bool) (q : Q) : Q :=
  if negative then (- q)%Q else q.

(** A text is read as the value [v] when the parser, with any fuel and
    before either separator, reads it as [v] and stops at the separator. *)
Definition readsAs (text : string) (v : ArduinoJson.JsonVariant) : Prop :=
  forall (fuel nesting : nat) (sep : ascii) (rest : string),
    sep = ","%char \/ sep = "}"%char ->
    ArduinoJson.parseVariant (S fuel) nesting (text ++ String sep rest)
    = ArduinoJson.Done v (String sep rest).

(** ** Runs of the gateway *)

(** The message the gateway builds for a reading [r] of packet [pkt] when
    the clock reads [millis]: [serializeJson(txDoc, mqttPayload)]. *)
Definition canonicalMessage (millis : Z) (pkt : Gateway.Packet)
           (r : Gateway.CompactReading) : string :=
  ArduinoJson.serializeJson
    (Gateway.canonicalDoc r millis (Gateway.packetRssi pkt)
       (Gateway.packetSnr pkt)) 512.

(** The status and the session a run ends with, without the events. *)
Definition outcome (x : Gateway.Status * PubSubClient.t * list Gateway.Event)
  : Gateway.Status * PubSubClient.t := fst x.

(** The same pass of [loop] with nothing on the radio. *)
Definition withoutPacket (env : Gateway.Environment) : Gateway.Environment :=
  Gateway.mkEnv (Gateway.attempts env) (Gateway.link_alive env) None
                (Gateway.millis env).

(** The message a pass of [loop] has for the broker: the canonical
    message of the packet on the radio, when there is a packet and it
    decodes to a reading. *)
Definition forwarded (env : Gateway.Environment) : list (string * string) :=
  match Gateway.radio env with
  | Some pkt =>
      if (0 <? String.length (Gateway.payload pkt))%nat then
        match Gateway.decode (Gateway.payload pkt) with
        | Gateway.Reading r =>
            [(Gateway.topicFor (Gateway.machineId r),
              canonicalMessage (Gateway.millis env) pkt r)]
        | _ => []
        end
      else []
  | None => []
  end.

(** What a pass adds to the broker's log: its message when the session is
    up at the time the packet is handled, nothing otherwise. *)
Definition published (env : Gateway.Environment) : list (string * string) :=
  if Gateway.link_alive env then forwarded env else [].

(** The events of [n] refused connection attempts. *)
Fixpoint refusals (n : nat) : list Gateway.Event :=
  match n with
  | O => []
  | S k => Gateway.Connect false :: Gateway.Delay 5000 :: refusals k
  end.

(** The time a list of events spends in [delay]. *)
Fixpoint delayed (events : list Gateway.Event) : Z :=
  match events with
  | [] => 0
  | Gateway.Delay ms :: rest => ms + delayed rest
  | _ :: rest => delayed rest
  end.

(** Whether the radio is looked at in a list of events. *)
Definition pollsRadio (events : list Gateway.Event) : bool :=
  existsb (fun e => match e with
                    | Gateway.ParsePacket _ | Gateway.Handle _ => true
                    | _ => false
                    end) events.

(** ** What the node sends *)

(** The number of tenths and the number of thousandths the node sends for
    a sample: [round(temperature * 10)] and [round(vibration * 1000)],
    the products taken in [float]. *)
Definition tenths (temperature : Q) : Z :=
  Node.round (Float.binary32 (temperature * 10)).

Definition thousandths (vibration : Q) : Z :=
  Node.round (Float.binary32 (vibration * 1000)).

(** The decimal text of [k] tenths: the sign, the digits of the integral
    part and, unless it is zero, one decimal. *)
Definition oneDecimal (k : Z) : string :=
  (if k <? 0 then "-" else "") ++
  ArduinoJson.writeUnsigned (Z.abs k / 10) ++
  (if Z.abs k mod 10 =? 0 then ""
   else String "." (String (digitChar (Z.abs k mod 10)) "")).

(** The decimal text of [m] thousandths: at most three decimals, without
    trailing zeros. *)
Definition threeDecimals (m : Z) : string :=
  (if m <? 0 then "-" else "") ++
  ArduinoJson.writeUnsigned (Z.abs m / 1000) ++
  (if Z.abs m mod 1000 =? 0 then ""
   else String "." (ArduinoJson.stripTrailingZeros
                      (ArduinoJson.fixedDigits 3 (Z.abs m mod 1000)))).

(** The text of the compact document that carries [k] tenths and [m]
    thousandths. *)
Definition compactText (id : string) (k m rpm : Z) : string :=
  String "{"
    (ArduinoJson.writeString "id" ++ String ":"
    (ArduinoJson.writeString id ++ String ","
    (ArduinoJson.writeString "t" ++ String ":"
    (oneDecimal k ++ String ","
    (ArduinoJson.writeString "v" ++ String ":"
    (threeDecimals m ++ String ","
    (ArduinoJson.writeString "r" ++ String ":"
    (ArduinoJson.writeInteger rpm ++ String "}" "")))))))).

(** ** Boots of the node *)

(** How many packets a list of node events hands to the radio. *)
Fixpoint transmissions (events : list Node.Event) : nat :=
  match events with
  | [] => 0
  | Node.Transmit _ _ :: rest => S (transmissions rest)
  | _ :: rest => transmissions rest
  end.

(** The time a list of node events spends in [delay], in milliseconds. *)
Fixpoint awake (events : list Node.Event) : Z :=
  match events with
  | [] => 0
  | Node.Delay ms :: rest => ms + awake rest
  | _ :: rest => awake rest
  end.

(** The time a list of node events spends in deep sleep, in seconds. *)
Fixpoint asleep (events : list Node.Event) : Z :=
  match events with
  | [] => 0
  | Node.DeepSleep seconds :: rest => seconds + asleep rest
  | _ :: rest => asleep rest
  end.

(** The values [random(low, high)] can return. *)
Definition random_range (low high rnd : Z) : Prop := low <= rnd < high.

(** The same values, listed. *)
Definition randomValues (low high : Z) : list Z :=
  map (fun n => low + Z.of_nat n) (seq 0 (Z.to_nat (high - low))).

(** ** Start-up of the gateway *)

(** The time a list of start-up events spends in [delay]. *)
Fixpoint startupDelay (events : list GatewaySetup.Event) : Z :=
  match events with
  | [] => 0
  | GatewaySetup.Delay ms :: rest => ms + startupDelay rest
  | _ :: rest => startupDelay rest
  end.

(** Whether a list of start-up events reaches [loop]. *)
Definition reachesLoop (events : list GatewaySetup.Event) : bool :=
  existsb (fun e => match e with
                    | GatewaySetup.Main _ => true
                    | _ => false
                    end) events.

(** Whether a connection to the broker is attempted in a list of events. *)
Definition attemptsConnect (events : list Gateway.Event) : bool :=
  existsb (fun e => match e with
                    | Gateway.Connect _ => true
                    | _ => false
                    end) events.

(** [n] refused polls of the network, each followed by its pause. *)
Fixpoint waits (n : nat) : list GatewaySetup.Event :=
  match n with
  | O => []
  | S k =>
      GatewaySetup.WiFiStatus false :: GatewaySetup.Delay 500 :: waits k
  end.

(** The number of refusals before the first accepted attempt (or the end
    of the list). *)
Fixpoint leadingRefusals (attempts : list bool) : nat :=
  match attempts with
  | false :: later => S (leadingRefusals later)
  | _ => O
  end.

(** ** Inputs cut short *)

(** A parse that gives an error. *)
Definition rejected {A : Type} (p : ArduinoJson.parsed A) : Prop :=
  match p with
  | ArduinoJson.Fail e => e <> ArduinoJson.Ok
  | ArduinoJson.Done _ _ => False
  end.

(** A parse that gives an error or uses up its input. *)
Definition endsInput {A : Type} (p : ArduinoJson.parsed A) : Prop :=
  match p with
  | ArduinoJson.Fail e => e <> ArduinoJson.Ok
  | ArduinoJson.Done _ rest => rest = ""
  end.

(** A text of which no beginning, the whole included, is read as a value
    with something left over. *)
Definition cutSafe (text : string) : Prop :=
  forall (j fuel nesting : nat),
    endsInput (ArduinoJson.parseVariant fuel nesting (substring 0 j text)).

(* ================================================================== *)
(** * Strings *)
(* ================================================================== *)

Lemma substring_whole (s : string) (n : nat) :
  (String.length s <= n)%nat -> substring 0 n s = s.
Proof.
  revert n; induction s as [|c s IH]; intros [|n] H; simpl in *;
    try reflexivity; try lia.
  f_equal; apply IH; lia.
Qed.

Lemma substring_length_le (s : string) (n : nat) :
  (String.length (substring 0 n s) <= n)%nat.
Proof.
  revert n; induction s as [|c s IH]; intros [|n]; simpl; try lia.
  specialize (IH n); lia.
Qed.

Lemma substring_short_length (s : string) (n : nat) :
  (n <= String.length s)%nat -> String.length (substring 0 n s) = n.
Proof.
  revert n; induction s as [|c s IH]; intros [|n] H; simpl in *;
    try reflexivity; try lia.
  f_equal; apply IH; lia.
Qed.

Lemma append_length (a b : string) :
  String.length (a ++ b) = (String.length a + String.length b)%nat.
Proof. induction a; simpl; congruence. Qed.

Lemma substring_append (a b : string) (n : nat) :
  substring 0 (String.length a + n) (a ++ b) = a ++ substring 0 n b.
Proof. induction a; simpl; congruence. Qed.

Lemma append_inj_left (a b c : string) : a ++ b = a ++ c -> b = c.
Proof. induction a; simpl; intros H; [assumption | injection H; auto]. Qed.

(* ================================================================== *)
(** * Node: radio initialisation *)
(* ================================================================== *)

(** C8.  When [LoRa.begin] fails the boot consists of the one
    initialisation attempt, the five second pause and [ESP.restart()]:
    initialisation is not tried again in place, and in that boot no sensor
    is read, nothing is encoded or transmitted, and deep sleep is not
    entered. *)
Theorem radio_init_failure_restarts :
  forall (machine_id : string) (bootCount : Z) (env : Node.Environment),
    Node.radio_responds env = false ->
    Node.setup machine_id bootCount env =
      (bootCount + 1,
       [Node.Delay 1000; Node.LoRaBegin false; Node.Delay 5000;
        Node.Restart]).
Proof.
  intros machine_id bootCount env H.
  unfold Node.setup, Node.setupLoRa. rewrite H. reflexivity.
Qed.

Lemma radio_init_failure_restarts_witness :
  Node.radio_responds (Node.mkEnv false 73 52 (-40) true) = false /\
  Node.setup Node.MACHINE_ID 7 (Node.mkEnv false 73 52 (-40) true) =
    (8, [Node.Delay 1000; Node.LoRaBegin false; Node.Delay 5000;
         Node.Restart]).
Proof.
  split; [reflexivity|].
  apply (radio_init_failure_restarts Node.MACHINE_ID 7
           (Node.mkEnv false 73 52 (-40) true)).
  reflexivity.
Defined.

(** The other branch, for comparison: when the radio answers, the boot
    reads the sensors, transmits once and goes to deep sleep for
    [SLEEP_SECONDS]. *)
Lemma radio_init_success_boot (machine_id : string) (bootCount : Z)
      (env : Node.Environment) :
  Node.radio_responds env = true ->
  exists (t v : Q) (rpm : Z),
    Node.setup machine_id bootCount env =
      (bootCount + 1,
       [Node.Delay 1000; Node.LoRaBegin true;
        Node.ReadSensors t v rpm;
        Node.Transmit (Node.encode machine_id t v rpm)
                      (Node.send_accepted env);
        Node.Delay 100; Node.Delay 100; Node.DeepSleep 30]).
Proof.
  intros H. unfold Node.setup, Node.setupLoRa. rewrite H.
  eexists; eexists; eexists. reflexivity.
Qed.

(* ================================================================== *)
(** * Gateway: one packet *)
(* ================================================================== *)

Section HandleLoRaPacket.
Import ArduinoJson Gateway.

Variable millis : Z.
Variable pkt : Packet.
Variable mqttClient : PubSubClient.t.

Lemma handle_parse_error (e : DeserializationError) :
  decode (payload pkt) = JsonParseError e ->
  handleLoRaPacket millis pkt mqttClient = (mqttClient, ParseFailed e).
Proof. intros H; unfold handleLoRaPacket; rewrite H; reflexivity. Qed.

Lemma handle_missing_id :
  decode (payload pkt) = MissingMachineId ->
  handleLoRaPacket millis pkt mqttClient = (mqttClient, MissingId).
Proof. intros H; unfold handleLoRaPacket; rewrite H; reflexivity. Qed.

Lemma handle_reading_connected (r : CompactReading) :
  decode (payload pkt) = Reading r ->
  PubSubClient.connected mqttClient = true ->
  handleLoRaPacket millis pkt mqttClient =
    (PubSubClient.mkClient true
       (PubSubClient.delivered mqttClient
          ++ [(topicFor (machineId r), canonicalMessage millis pkt r)])%list,
     Published (topicFor (machineId r)) (canonicalMessage millis pkt r)).
Proof.
  intros H Hc; unfold handleLoRaPacket, PubSubClient.publish.
  rewrite H. unfold PubSubClient.connected in Hc. rewrite Hc. reflexivity.
Qed.

Lemma handle_reading_disconnected (r : CompactReading) :
  decode (payload pkt) = Reading r ->
  PubSubClient.connected mqttClient = false ->
  handleLoRaPacket millis pkt mqttClient =
    (mqttClient, PublishFailed (topicFor (machineId r))
                              (canonicalMessage millis pkt r)).
Proof.
  intros H Hc; unfold handleLoRaPacket, PubSubClient.publish.
  rewrite H. unfold PubSubClient.connected in Hc. rewrite Hc. reflexivity.
Qed.

End HandleLoRaPacket.

Lemma decode_error (bytes : string) (e : ArduinoJson.DeserializationError)
      (doc : ArduinoJson.JsonVariant) :
  ArduinoJson.deserializeJson bytes = (e, doc) ->
  e <> ArduinoJson.Ok ->
  Gateway.decode bytes = Gateway.JsonParseError e.
Proof.
  intros H Hne; unfold Gateway.decode; rewrite H.
  destruct e; try reflexivity. contradiction.
Qed.

Lemma decode_ok (bytes : string) (doc : ArduinoJson.JsonVariant) :
  ArduinoJson.deserializeJson bytes = (ArduinoJson.Ok, doc) ->
  Gateway.decode bytes =
    match ArduinoJson.as_cstr (ArduinoJson.get doc "id") with
    | None => Gateway.MissingMachineId
    | Some id =>
        Gateway.Reading
          (Gateway.mkReading id
             (Float.binary32 (ArduinoJson.as_float (ArduinoJson.get doc "t")))
             (Float.binary32 (ArduinoJson.as_float (ArduinoJson.get doc "v")))
             (ArduinoJson.as_int (ArduinoJson.get doc "r")))
    end.
Proof. intros H; unfold Gateway.decode; rewrite H; reflexivity. Qed.

Lemma lookup_absent (key : string)
      (members : list (string * ArduinoJson.JsonVariant)) :
  existsb (fun kv => String.eqb (fst kv) key) members = false ->
  ArduinoJson.lookup key members = ArduinoJson.JNull.
Proof.
  induction members as [|[k v] rest IH]; simpl; [reflexivity|].
  destruct (String.eqb k key); simpl; [discriminate | exact IH].
Qed.

Lemma get_absent (doc : ArduinoJson.JsonVariant) (key : string) :
  hasMember doc key = false -> ArduinoJson.get doc key = ArduinoJson.JNull.
Proof.
  destruct doc; simpl; try reflexivity. apply lookup_absent.
Qed.

Lemma decode_lathe :
  Gateway.decode Samples.lathePayload =
    Gateway.Reading
      (Gateway.mkReading "lathe_01" (Float.binary32 (673 # 10))
         (Float.binary32 (12 # 1000)) 3200).
Proof. vm_compute. reflexivity. Qed.

(** C2, as the sketch has it.  The README's packet, received with rssi
    -45 and snr 9.5 while the session is up: the gateway publishes, on
    factory/lathe_01, the serialised document whose members are
    machine_id lathe_01, timestamp the gateway clock in seconds,
    temperature, vibration, rpm 3200, rssi -45 and snr 9.5, in this
    order.  The two readings pass through [float] variables: the
    document holds the [float]s nearest to 67.3 and 0.012, which are
    4410573/65536 = 67.30000305175781... and 6442451/536870912 =
    0.012000000104..., within 3.1e-6 and 1.1e-10 of the decimals. *)
Theorem lathe_packet_end_to_end :
  forall (millis : Z) (mqttClient : PubSubClient.t),
    PubSubClient.connected mqttClient = true ->
    Gateway.handleLoRaPacket millis Samples.lathePacket mqttClient =
      (PubSubClient.mkClient true
         (PubSubClient.delivered mqttClient
            ++ [("factory/lathe_01",
                 ArduinoJson.serializeJson (Samples.latheCanonical millis)
                                           512)])%list,
       Gateway.Published "factory/lathe_01"
         (ArduinoJson.serializeJson (Samples.latheCanonical millis) 512)) /\
    (Float.binary32 (673 # 10) == 4410573 # 65536)%Q /\
    (Float.binary32 (12 # 1000) == 6442451 # 536870912)%Q /\
    (Qabs (Float.binary32 (673 # 10) - (673 # 10)) <= 1 # 300000)%Q /\
    (Qabs (Float.binary32 (12 # 1000) - (12 # 1000)) <= 1 # 9000000000)%Q.
Proof.
  intros millis mqttClient Hc.
  rewrite (handle_reading_connected millis Samples.lathePacket mqttClient
             _ decode_lathe Hc).
  split; [reflexivity|].
  split; [vm_compute; reflexivity|]. split; [vm_compute; reflexivity|].
  split; apply Qle_bool_iff; vm_compute; reflexivity.
Qed.

Lemma lathe_packet_end_to_end_witness :
  PubSubClient.connected Samples.connectedClient = true /\
  Gateway.handleLoRaPacket 12345678 Samples.lathePacket
                           Samples.connectedClient =
    (PubSubClient.mkClient true
       [("factory/lathe_01", Samples.latheCanonicalText)],
     Gateway.Published "factory/lathe_01" Samples.latheCanonicalText).
Proof.
  split; [reflexivity|].
  exact (proj1 (lathe_packet_end_to_end 12345678 Samples.connectedClient
                  eq_refl)).
Defined.

(** C2, as stated, fails: the published temperature and vibration are
    not 67.3 and 0.012 but the [float]s nearest to them, and the message
    is not the one that carries the decimals. *)
Lemma lathe_readings_are_not_the_decimals :
  exists (r : Gateway.CompactReading) (message : string),
    Gateway.decode Samples.lathePayload = Gateway.Reading r /\
    ~ (Gateway.temperature r == 673 # 10)%Q /\
    ~ (Gateway.vibration r == 12 # 1000)%Q /\
    Gateway.handleLoRaPacket 12345678 Samples.lathePacket
      Samples.connectedClient =
      (PubSubClient.mkClient true [("factory/lathe_01", message)],
       Gateway.Published "factory/lathe_01" message) /\
    message <> Samples.latheDecimalText.
Proof.
  eexists. exists Samples.latheCanonicalText.
  split; [exact decode_lathe|].
  cbn [Gateway.temperature Gateway.vibration].
  split; [intros H; apply Qeq_bool_iff in H; vm_compute in H; discriminate H|].
  split; [intros H; apply Qeq_bool_iff in H; vm_compute in H; discriminate H|].
  split; [vm_compute; reflexivity|].
  intros H. vm_compute in H. discriminate H.
Qed.

Lemma canonicalDoc_members (r : Gateway.CompactReading) (millis rssi : Z)
      (snr : Q) :
  Gateway.canonicalDoc r millis rssi snr =
    ArduinoJson.JObject
      [("machine_id", ArduinoJson.JString (Gateway.machineId r));
       ("timestamp", ArduinoJson.JInteger (millis / 1000));
       ("temperature", ArduinoJson.JFloat (Gateway.temperature r));
       ("vibration", ArduinoJson.JFloat (Gateway.vibration r));
       ("rpm", ArduinoJson.JInteger (Gateway.rpm r));
       ("rssi", ArduinoJson.JInteger rssi);
       ("snr", ArduinoJson.JFloat snr)].
Proof. reflexivity. Qed.

(* ================================================================== *)
(** * Gateway: topic derivation *)
(* ================================================================== *)

Lemma topicFor_short (id : string) :
  (String.length id <= 55)%nat ->
  Gateway.topicFor id = "factory" ++ "/" ++ id.
Proof.
  intros H. unfold Gateway.topicFor, snprintf_ss, Gateway.MQTT_TOPIC_PREFIX.
  apply substring_whole. rewrite append_length. simpl. lia.
Qed.

Lemma topicFor_cut (id : string) :
  Gateway.topicFor id = "factory/" ++ substring 0 55 id.
Proof.
  unfold Gateway.topicFor, snprintf_ss, Gateway.MQTT_TOPIC_PREFIX.
  exact (substring_append "factory/" id 55).
Qed.

Lemma topicFor_length (id : string) :
  (String.length (Gateway.topicFor id) <= 63)%nat.
Proof.
  unfold Gateway.topicFor, snprintf_ss. apply substring_length_le.
Qed.

(** C5, as the sketch has it.  For a packet that decodes to a reading
    whose identity leaves room in the topic buffer (at most 55
    characters; the 1 to 32 bytes of the data model do), the gateway
    publishes on the topic made of the prefix factory, a slash and the
    identity as it was received, character for character.  A longer
    identity is validated all the same and its topic is cut. *)
Theorem topic_is_prefix_slash_identity :
  forall (millis : Z) (pkt : Gateway.Packet) (mqttClient : PubSubClient.t)
         (r : Gateway.CompactReading),
    Gateway.decode (Gateway.payload pkt) = Gateway.Reading r ->
    (String.length (Gateway.machineId r) <= 55)%nat ->
    PubSubClient.connected mqttClient = true ->
    exists message : string,
      Gateway.handleLoRaPacket millis pkt mqttClient =
        (PubSubClient.mkClient true
           (PubSubClient.delivered mqttClient
              ++ [(("factory" ++ "/" ++ Gateway.machineId r)%string,
                   message)])%list,
         Gateway.Published ("factory" ++ "/" ++ Gateway.machineId r) message).
Proof.
  intros millis pkt mqttClient r Hd Hlen Hc.
  rewrite (handle_reading_connected millis pkt mqttClient r Hd Hc).
  rewrite (topicFor_short _ Hlen). eexists; reflexivity.
Qed.

Lemma topic_is_prefix_slash_identity_witness :
  exists message : string,
    Gateway.handleLoRaPacket 12345678 Samples.lathePacket
                             Samples.connectedClient =
      (PubSubClient.mkClient true [("factory/lathe_01", message)],
       Gateway.Published "factory/lathe_01" message).
Proof.
  exact (topic_is_prefix_slash_identity 12345678 Samples.lathePacket
           Samples.connectedClient
           (Gateway.mkReading "lathe_01" (Float.binary32 (673 # 10))
              (Float.binary32 (12 # 1000)) 3200)
           decode_lathe
           (proj1 (Nat.leb_le 8 55) eq_refl) eq_refl).
Defined.

(** C5, as stated, fails: a packet with an identity of 60 characters is
    validated like any other, and the topic it is published on is not the
    prefix followed by that identity. *)
Lemma long_identity_is_not_the_topic :
  exists (r : Gateway.CompactReading) (topic message : string),
    Gateway.decode Samples.longIdPayload = Gateway.Reading r /\
    Gateway.machineId r = Samples.longId /\
    Gateway.handleLoRaPacket 12345678
      (Gateway.mkPacket Samples.longIdPayload (-45) (95 # 10))
      Samples.connectedClient =
      (PubSubClient.mkClient true [(topic, message)],
       Gateway.Published topic message) /\
    topic <> "factory" ++ "/" ++ Gateway.machineId r.
Proof.
  eexists. eexists. eexists.
  split; [vm_compute; reflexivity|].
  split; [reflexivity|].
  split; [vm_compute; reflexivity|].
  intros H. vm_compute in H. discriminate H.
Qed.

(** C10.  The topic never exceeds 63 characters.  An identity longer than
    the 55 characters left after the prefix is cut to its first 55
    characters, so the topic does not hold the whole identity; nothing
    fails, and the message goes out under the shortened topic. *)
Theorem topic_is_cut_to_buffer :
  forall (id : string),
    (String.length (Gateway.topicFor id) <= 63)%nat /\
    ((55 < String.length id)%nat ->
       Gateway.topicFor id = "factory/" ++ substring 0 55 id /\
       String.length (Gateway.topicFor id) = 63%nat /\
       Gateway.topicFor id <> "factory/" ++ id) /\
    (forall (millis : Z) (pkt : Gateway.Packet)
            (mqttClient : PubSubClient.t) (r : Gateway.CompactReading),
        Gateway.decode (Gateway.payload pkt) = Gateway.Reading r ->
        Gateway.machineId r = id ->
        PubSubClient.connected mqttClient = true ->
        exists message : string,
          snd (Gateway.handleLoRaPacket millis pkt mqttClient) =
            Gateway.Published (Gateway.topicFor id) message).
Proof.
  intros id. split; [apply topicFor_length|]. split.
  - intros Hlong. rewrite topicFor_cut.
    assert (Hl : String.length (substring 0 55 id) = 55%nat)
      by (apply substring_short_length; lia).
    split; [reflexivity|]. split.
    + rewrite append_length, Hl. reflexivity.
    + intros Heq. apply append_inj_left in Heq.
      rewrite <- Heq in Hlong at 1. lia.
  - intros millis pkt mqttClient r Hd Hid Hc.
    rewrite (handle_reading_connected millis pkt mqttClient r Hd Hc).
    subst id. eexists; reflexivity.
Qed.

Lemma topic_is_cut_to_buffer_witness :
  (55 < String.length Samples.longId)%nat /\
  Gateway.topicFor Samples.longId =
    "factory/press_line_0123456789_0123456789_0123456789_0123456789_" /\
  String.length (Gateway.topicFor Samples.longId) = 63%nat /\
  Gateway.topicFor Samples.longId <> "factory/" ++ Samples.longId.
Proof.
  split; [apply Nat.ltb_lt; reflexivity|].
  exact (proj1 (proj2 (topic_is_cut_to_buffer Samples.longId))
               (proj1 (Nat.ltb_lt 55 60) eq_refl)).
Defined.

(* ================================================================== *)
(** * Gateway: packets that are turned away *)
(* ================================================================== *)

Lemma loop_without_handled_packet (env : Gateway.Environment)
      (mqttClient : PubSubClient.t) (pkt : Gateway.Packet) :
  Gateway.radio env = Some pkt ->
  (forall c, fst (Gateway.handleLoRaPacket (Gateway.millis env) pkt c) = c) ->
  outcome (Gateway.loop env mqttClient) =
  outcome (Gateway.loop (withoutPacket env) mqttClient).
Proof.
  intros Hr Hsame. unfold Gateway.loop, outcome. simpl. rewrite Hr.
  destruct (if negb (PubSubClient.connected mqttClient)
            then Gateway.reconnectMQTT (Gateway.attempts env) mqttClient
            else (Gateway.Returned, mqttClient, []))
    as [[status c] events].
  destruct status; [|reflexivity].
  destruct (0 <? Gateway.packetSize (Some pkt))%nat; [|reflexivity].
  specialize (Hsame (PubSubClient.loop (Gateway.link_alive env) c)).
  destruct (Gateway.handleLoRaPacket (Gateway.millis env) pkt
              (PubSubClient.loop (Gateway.link_alive env) c)) as [c' h].
  simpl in Hsame. subst c'. reflexivity.
Qed.

Lemma run_cons_outcome (env1 env2 : Gateway.Environment)
      (later : list Gateway.Environment) (mqttClient : PubSubClient.t) :
  outcome (Gateway.loop env1 mqttClient) =
  outcome (Gateway.loop env2 mqttClient) ->
  outcome (Gateway.run (env1 :: later) mqttClient) =
  outcome (Gateway.run (env2 :: later) mqttClient).
Proof.
  unfold outcome; simpl.
  destruct (Gateway.loop env1 mqttClient) as [[s1 c1] e1].
  destruct (Gateway.loop env2 mqttClient) as [[s2 c2] e2].
  simpl. intros H; injection H as -> ->.
  destruct s2; [|reflexivity].
  destruct (Gateway.run later c2) as [[s c] e]. reflexivity.
Qed.

(** C3, as the sketch has it.  A packet is turned away when the JSON
    parser reports an error, and when the [id] member is absent, null or
    not a string.  The parser is lenient: it stops at the end of the first
    value, reads single-quoted strings and unquoted keys, and so reports
    no error for some texts that are not valid JSON; and the empty string
    is an identity like any other.  Neither is turned away.  A packet that
    is turned away leaves the MQTT session as it was, nothing published,
    and the passes of [loop] that follow go on exactly as if that pass had
    found no packet. *)
Theorem bad_packet_is_discarded :
  forall (pkt : Gateway.Packet) (error : ArduinoJson.DeserializationError)
         (rxDoc : ArduinoJson.JsonVariant),
    ArduinoJson.deserializeJson (Gateway.payload pkt) = (error, rxDoc) ->
    error <> ArduinoJson.Ok \/
    hasMember rxDoc "id" = false \/
    ArduinoJson.as_cstr (ArduinoJson.get rxDoc "id") = None ->
    (forall (millis : Z) (mqttClient : PubSubClient.t),
        Gateway.handleLoRaPacket millis pkt mqttClient =
          (mqttClient,
           match error with
           | ArduinoJson.Ok => Gateway.MissingId
           | _ => Gateway.ParseFailed error
           end)) /\
    (forall (env : Gateway.Environment) (later : list Gateway.Environment)
            (mqttClient : PubSubClient.t),
        Gateway.radio env = Some pkt ->
        outcome (Gateway.run (env :: later) mqttClient) =
        outcome (Gateway.run (withoutPacket env :: later) mqttClient)).
Proof.
  intros pkt error rxDoc Hparse Hbad.
  assert (Hhandle : forall millis mqttClient,
             Gateway.handleLoRaPacket millis pkt mqttClient =
               (mqttClient,
                match error with
                | ArduinoJson.Ok => Gateway.MissingId
                | _ => Gateway.ParseFailed error
                end)).
  { intros millis mqttClient.
    assert (Hnone : error = ArduinoJson.Ok ->
                    ArduinoJson.as_cstr (ArduinoJson.get rxDoc "id") = None).
    { intros ->. destruct Hbad as [Hne | [Habs | Hn]];
        [contradiction | rewrite (get_absent _ _ Habs); reflexivity
        | exact Hn]. }
    destruct error;
      try (apply handle_parse_error;
           apply (decode_error _ _ rxDoc Hparse); discriminate).
    apply handle_missing_id. rewrite (decode_ok _ _ Hparse).
    rewrite (Hnone eq_refl). reflexivity. }
  split; [exact Hhandle|].
  intros env later mqttClient Hr.
  apply run_cons_outcome.
  apply (loop_without_handled_packet env mqttClient pkt Hr).
  intros c. rewrite Hhandle. reflexivity.
Qed.

(** A truncated packet and one without identity, each followed by the
    README's packet: only the latter is published. *)
Lemma bad_packet_is_discarded_witness :
  (Gateway.handleLoRaPacket 12345678
     (Gateway.mkPacket Samples.truncatedPayload (-45) (95 # 10))
     Samples.connectedClient =
     (Samples.connectedClient,
      Gateway.ParseFailed ArduinoJson.IncompleteInput)) /\
  (Gateway.handleLoRaPacket 12345678
     (Gateway.mkPacket Samples.anonymousPayload (-45) (95 # 10))
     Samples.connectedClient =
     (Samples.connectedClient, Gateway.MissingId)) /\
  outcome
    (Gateway.run
       [Gateway.mkEnv [] true
          (Some (Gateway.mkPacket Samples.truncatedPayload (-45) (95 # 10)))
          12345000;
        Gateway.mkEnv [] true
          (Some (Gateway.mkPacket Samples.anonymousPayload (-45) (95 # 10)))
          12345100;
        Gateway.mkEnv [] true (Some Samples.lathePacket) 12345678]
       Samples.connectedClient) =
    (Gateway.Returned,
     PubSubClient.mkClient true
       [("factory/lathe_01", Samples.latheCanonicalText)]).
Proof.
  split; [|split].
  - exact (proj1 (bad_packet_is_discarded
                    (Gateway.mkPacket Samples.truncatedPayload (-45) (95 # 10))
                    ArduinoJson.IncompleteInput ArduinoJson.JNull
                    eq_refl
                    (or_introl
                       (fun H : ArduinoJson.IncompleteInput = ArduinoJson.Ok =>
                          eq_ind ArduinoJson.IncompleteInput
                            (fun e => match e with
                                      | ArduinoJson.Ok => False
                                      | _ => True
                                      end) I ArduinoJson.Ok H)))
                 12345678 Samples.connectedClient).
  - exact (proj1 (bad_packet_is_discarded
                    (Gateway.mkPacket Samples.anonymousPayload (-45) (95 # 10))
                    ArduinoJson.Ok
                    (ArduinoJson.JObject
                       [("t", ArduinoJson.JFloat (673 # 10));
                        ("v", ArduinoJson.JFloat (12 # 1000));
                        ("r", ArduinoJson.JInteger 3200)])
                    eq_refl (or_intror (or_introl eq_refl)))
                 12345678 Samples.connectedClient).
  - reflexivity.
Defined.

(** C3, as stated, fails twice.  A packet whose [id] member is the empty
    string is decoded to a reading and published, on the bare prefix.
    And payloads that are not valid JSON are decoded and published like
    valid ones: the README's packet followed by stray characters, and a
    reading written with unquoted keys and single quotes. *)
Lemma accepted_packets_are_published :
  (exists (r : Gateway.CompactReading) (message : string),
     Gateway.decode Samples.emptyIdPayload = Gateway.Reading r /\
     Gateway.machineId r = "" /\
     Gateway.handleLoRaPacket 12345678
       (Gateway.mkPacket Samples.emptyIdPayload (-45) (95 # 10))
       Samples.connectedClient =
       (PubSubClient.mkClient true [("factory/", message)],
        Gateway.Published "factory/" message)) /\
  (ArduinoJson.deserializeJson Samples.trailingPayload
     = ArduinoJson.deserializeJson Samples.lathePayload /\
   Gateway.handleLoRaPacket 12345678
     (Gateway.mkPacket Samples.trailingPayload (-45) (95 # 10))
     Samples.connectedClient =
     (PubSubClient.mkClient true
        [("factory/lathe_01", Samples.latheCanonicalText)],
      Gateway.Published "factory/lathe_01" Samples.latheCanonicalText)) /\
  (exists message : string,
     fst (ArduinoJson.deserializeJson Samples.looseSyntaxPayload)
       = ArduinoJson.Ok /\
     Gateway.handleLoRaPacket 12345678
       (Gateway.mkPacket Samples.looseSyntaxPayload (-45) (95 # 10))
       Samples.connectedClient =
       (PubSubClient.mkClient true [("factory/lathe_01", message)],
        Gateway.Published "factory/lathe_01" message)).
Proof.
  split; [|split].
  - eexists. eexists. split; [vm_compute; reflexivity|].
    split; [reflexivity|]. vm_compute. reflexivity.
  - split; vm_compute; reflexivity.
  - eexists. split; vm_compute; reflexivity.
Qed.

(* ================================================================== *)
(** * Gateway: readings with members missing *)
(* ================================================================== *)

(** C9, as the sketch has it.  A packet that parses and whose [id]
    member holds a string (the only case in which [rxDoc["id"]] converts
    to a non-null character pointer) is not turned away, whatever else it
    holds: the gateway builds the canonical document for it, in which each
    of [t], [v], [r] the packet lacks is zero, and hands it to
    [mqttClient.publish], which delivers it when the session is up and
    refuses it when it is not. *)
Theorem missing_readings_default_to_zero :
  forall (millis : Z) (pkt : Gateway.Packet) (mqttClient : PubSubClient.t)
         (rxDoc : ArduinoJson.JsonVariant) (id : string),
    ArduinoJson.deserializeJson (Gateway.payload pkt)
      = (ArduinoJson.Ok, rxDoc) ->
    ArduinoJson.as_cstr (ArduinoJson.get rxDoc "id") = Some id ->
    exists (t v : Q) (r : Z),
      let message :=
        ArduinoJson.serializeJson
          (ArduinoJson.JObject
             [("machine_id", ArduinoJson.JString id);
              ("timestamp", ArduinoJson.JInteger (millis / 1000));
              ("temperature", ArduinoJson.JFloat t);
              ("vibration", ArduinoJson.JFloat v);
              ("rpm", ArduinoJson.JInteger r);
              ("rssi", ArduinoJson.JInteger (Gateway.packetRssi pkt));
              ("snr", ArduinoJson.JFloat (Gateway.packetSnr pkt))]) 512 in
      Gateway.handleLoRaPacket millis pkt mqttClient =
        (if PubSubClient.connected mqttClient
         then (PubSubClient.mkClient true
                 (PubSubClient.delivered mqttClient
                    ++ [(Gateway.topicFor id, message)])%list,
               Gateway.Published (Gateway.topicFor id) message)
         else (mqttClient,
               Gateway.PublishFailed (Gateway.topicFor id) message)) /\
      (hasMember rxDoc "t" = false -> t = 0%Q) /\
      (hasMember rxDoc "v" = false -> v = 0%Q) /\
      (hasMember rxDoc "r" = false -> r = 0).
Proof.
  intros millis pkt mqttClient rxDoc id Hparse Hid.
  exists (Float.binary32 (ArduinoJson.as_float (ArduinoJson.get rxDoc "t"))),
         (Float.binary32 (ArduinoJson.as_float (ArduinoJson.get rxDoc "v"))),
         (ArduinoJson.as_int (ArduinoJson.get rxDoc "r")).
  cbv zeta. split; [|repeat split].
  - pose proof (decode_ok _ _ Hparse) as Hd. rewrite Hid in Hd.
    destruct (PubSubClient.connected mqttClient) eqn:Hc.
    + rewrite (handle_reading_connected millis pkt mqttClient _ Hd Hc).
      reflexivity.
    + rewrite (handle_reading_disconnected millis pkt mqttClient _ Hd Hc).
      reflexivity.
  - intros H. rewrite (get_absent _ _ H). reflexivity.
  - intros H. rewrite (get_absent _ _ H). reflexivity.
  - intros H. rewrite (get_absent _ _ H). reflexivity.
Qed.

(** A packet that carries nothing but its identity, with the session
    up. *)
Lemma missing_readings_default_to_zero_witness :
  exists (t v : Q) (r : Z),
    Gateway.handleLoRaPacket 12345678
      (Gateway.mkPacket Samples.idOnlyPayload (-45) (95 # 10))
      Samples.connectedClient =
      (PubSubClient.mkClient true
         [("factory/lathe_01",
           ArduinoJson.serializeJson
             (ArduinoJson.JObject
                [("machine_id", ArduinoJson.JString "lathe_01");
                 ("timestamp", ArduinoJson.JInteger 12345);
                 ("temperature", ArduinoJson.JFloat t);
                 ("vibration", ArduinoJson.JFloat v);
                 ("rpm", ArduinoJson.JInteger r);
                 ("rssi", ArduinoJson.JInteger (-45));
                 ("snr", ArduinoJson.JFloat (95 # 10))]) 512)],
       Gateway.Published "factory/lathe_01"
         (ArduinoJson.serializeJson
            (ArduinoJson.JObject
               [("machine_id", ArduinoJson.JString "lathe_01");
                ("timestamp", ArduinoJson.JInteger 12345);
                ("temperature", ArduinoJson.JFloat t);
                ("vibration", ArduinoJson.JFloat v);
                ("rpm", ArduinoJson.JInteger r);
                ("rssi", ArduinoJson.JInteger (-45));
                ("snr", ArduinoJson.JFloat (95 # 10))]) 512)) /\
    t = 0%Q /\ v = 0%Q /\ r = 0.
Proof.
  destruct (missing_readings_default_to_zero 12345678
              (Gateway.mkPacket Samples.idOnlyPayload (-45) (95 # 10))
              Samples.connectedClient
              (ArduinoJson.JObject [("id", ArduinoJson.JString "lathe_01")])
              "lathe_01" eq_refl eq_refl)
    as (t & v & r & Hpub & Ht & Hv & Hr).
  exists t, v, r. split; [exact Hpub|].
  split; [exact (Ht eq_refl)|]. split; [exact (Hv eq_refl)|exact (Hr eq_refl)].
Defined.

(** C9, as stated, fails: a packet that is valid JSON and has an [id]
    member that is not null, the number 42, but no readings, is turned
    away as having no identity; nothing is published. *)
Lemma numeric_identity_is_discarded :
  ArduinoJson.deserializeJson Samples.numericIdPayload =
    (ArduinoJson.Ok,
     ArduinoJson.JObject [("id", ArduinoJson.JInteger 42)]) /\
  Gateway.handleLoRaPacket 12345678
    (Gateway.mkPacket Samples.numericIdPayload (-45) (95 # 10))
    Samples.connectedClient =
    (Samples.connectedClient, Gateway.MissingId).
Proof. split; vm_compute; reflexivity. Qed.

(* ================================================================== *)
(** * Gateway: the MQTT session and the main loop *)
(* ================================================================== *)

Lemma reconnect_connected (attempts : list bool) (c : PubSubClient.t) :
  PubSubClient.connected c = true ->
  Gateway.reconnectMQTT attempts c = (Gateway.Returned, c, []).
Proof. intros H; destruct attempts; simpl; rewrite H; reflexivity. Qed.

(** [reconnectMQTT] writes nothing to the broker; when it returns the
    session is up, and while it has not returned the session is down. *)
Lemma reconnect_session (attempts : list bool) (c : PubSubClient.t) :
  forall status c' events,
    Gateway.reconnectMQTT attempts c = (status, c', events) ->
    PubSubClient.delivered c' = PubSubClient.delivered c /\
    PubSubClient.connected c' =
      match status with Gateway.Returned => true | Gateway.Blocked => false end.
Proof.
  revert c; induction attempts as [|a later IH]; intros c status c' events.
  - simpl. destruct (PubSubClient.connected c) eqn:Hc;
      intros H; injection H as <- <- <-; auto.
  - simpl. destruct (PubSubClient.connected c) eqn:Hc.
    + intros H; injection H as <- <- <-; auto.
    + destruct (Gateway.reconnectMQTT later (PubSubClient.mkClient a
                  (PubSubClient.delivered c))) as [[s f] e] eqn:Hrec.
      apply IH in Hrec. simpl in Hrec.
      destruct a; intros H; injection H as <- <- <-; exact Hrec.
Qed.

Lemma handle_delivers (millis : Z) (pkt : Gateway.Packet)
      (c : PubSubClient.t) :
  PubSubClient.delivered (fst (Gateway.handleLoRaPacket millis pkt c)) =
    (PubSubClient.delivered c ++
       if PubSubClient.connected c then
         match Gateway.decode (Gateway.payload pkt) with
         | Gateway.Reading r =>
             [(Gateway.topicFor (Gateway.machineId r),
               ArduinoJson.serializeJson
                 (Gateway.canonicalDoc r millis (Gateway.packetRssi pkt)
                    (Gateway.packetSnr pkt)) 512)]
         | _ => []
         end
       else [])%list /\
  PubSubClient.connected (fst (Gateway.handleLoRaPacket millis pkt c)) =
    PubSubClient.connected c.
Proof.
  unfold Gateway.handleLoRaPacket, PubSubClient.publish,
    PubSubClient.connected.
  destruct (Gateway.decode (Gateway.payload pkt));
    destruct (PubSubClient.is_connected c) eqn:Hc; simpl;
    rewrite ?app_nil_r; auto.
Qed.

(** One pass: what it adds to the broker's log, and the session after. *)
Lemma loop_delivers (env : Gateway.Environment) (c : PubSubClient.t) :
  forall status c' events,
    Gateway.loop env c = (status, c', events) ->
    match status with
    | Gateway.Returned =>
        PubSubClient.delivered c' =
          (PubSubClient.delivered c ++ published env)%list /\
        PubSubClient.connected c' = Gateway.link_alive env
    | Gateway.Blocked =>
        PubSubClient.delivered c' = PubSubClient.delivered c /\
        PubSubClient.connected c' = false
    end.
Proof.
  intros status c' events. unfold Gateway.loop.
  destruct (if negb (PubSubClient.connected c)
            then Gateway.reconnectMQTT (Gateway.attempts env) c
            else (Gateway.Returned, c, [])) as [[s1 c1] e1] eqn:Hre.
  assert (H1 : PubSubClient.delivered c1 = PubSubClient.delivered c /\
               PubSubClient.connected c1 =
                 match s1 with
                 | Gateway.Returned => true
                 | Gateway.Blocked => false
                 end).
  { destruct (PubSubClient.connected c) eqn:Hc; simpl in Hre.
    - injection Hre as <- <- <-; auto.
    - exact (reconnect_session _ _ _ _ _ Hre). }
  destruct H1 as [Hd1 Hc1].
  destruct s1.
  - assert (Hl : PubSubClient.connected
                   (PubSubClient.loop (Gateway.link_alive env) c1)
                 = Gateway.link_alive env)
      by (unfold PubSubClient.loop, PubSubClient.connected in *; simpl;
          rewrite Hc1; reflexivity).
    assert (Hdl : PubSubClient.delivered
                    (PubSubClient.loop (Gateway.link_alive env) c1)
                  = PubSubClient.delivered c) by exact Hd1.
    unfold published, forwarded, Gateway.packetSize.
    destruct (Gateway.radio env) as [pkt|].
    + destruct (0 <? String.length (Gateway.payload pkt))%nat.
      * pose proof (handle_delivers (Gateway.millis env) pkt
                      (PubSubClient.loop (Gateway.link_alive env) c1))
          as [Hhd Hhc].
        destruct (Gateway.handleLoRaPacket (Gateway.millis env) pkt
                    (PubSubClient.loop (Gateway.link_alive env) c1))
          as [c2 h].
        cbn [fst] in Hhd, Hhc. intros H; injection H as <- <- <-.
        rewrite Hhd, Hhc, Hl, Hdl. auto.
      * intros H; injection H as <- <- <-. rewrite Hl, Hdl.
        destruct (Gateway.link_alive env); rewrite app_nil_r; auto.
    + intros H; injection H as <- <- <-. rewrite Hl, Hdl.
      destruct (Gateway.link_alive env); rewrite app_nil_r; auto.
  - intros H; injection H as <- <- <-. auto.
Qed.

(** The broker's log after any number of passes: the log before, then,
    pass by pass, what each completed pass published. *)
Lemma run_delivers (envs : list Gateway.Environment) :
  forall (c : PubSubClient.t) status c' events,
    Gateway.run envs c = (status, c', events) ->
    exists completed pending : list Gateway.Environment,
      envs = (completed ++ pending)%list /\
      (status = Gateway.Returned -> pending = []) /\
      (status = Gateway.Blocked ->
         pending <> [] /\ PubSubClient.connected c' = false) /\
      PubSubClient.delivered c' =
        (PubSubClient.delivered c ++ flat_map published completed)%list.
Proof.
  induction envs as [|env later IH]; intros c status c' events.
  - simpl. intros H; injection H as <- <- <-.
    exists [], []. simpl. rewrite app_nil_r.
    split; [reflexivity|]. split; [reflexivity|].
    split; [discriminate | reflexivity].
  - simpl. destruct (Gateway.loop env c) as [[s1 c1] e1] eqn:Hloop.
    pose proof (loop_delivers env c _ _ _ Hloop) as H1.
    destruct s1.
    + destruct (Gateway.run later c1) as [[s2 c2] e2] eqn:Hrun.
      intros H; injection H as <- <- <-.
      destruct (IH _ _ _ _ Hrun) as (done & pending & -> & Hr & Hb & Hd).
      exists (env :: done), pending. destruct H1 as [Hd1 _].
      split; [reflexivity|]. split; [exact Hr|]. split; [exact Hb|].
      rewrite Hd, Hd1. simpl. rewrite app_assoc. reflexivity.
    + intros H; injection H as <- <- <-. destruct H1 as [Hd1 Hc1].
      exists [], (env :: later). simpl. rewrite app_nil_r.
      split; [reflexivity|]. split; [discriminate|].
      split; [split; [discriminate | exact Hc1] | exact Hd1].
Qed.

Lemma attemptsConnect_app (a b : list Gateway.Event) :
  attemptsConnect (a ++ b) = attemptsConnect a || attemptsConnect b.
Proof. unfold attemptsConnect. apply existsb_app. Qed.

Lemma reconnect_accepts (attempts : list bool) (log : list (string * string)) :
  In true attempts ->
  exists events,
    Gateway.reconnectMQTT attempts (PubSubClient.mkClient false log) =
      (Gateway.Returned, PubSubClient.mkClient true log, events) /\
    attemptsConnect events = true.
Proof.
  induction attempts as [|a later IH]; intros H; [destruct H|].
  cbn [Gateway.reconnectMQTT PubSubClient.connected
       PubSubClient.is_connected PubSubClient.connect
       PubSubClient.delivered].
  destruct a.
  - rewrite reconnect_connected by reflexivity.
    eexists. split; reflexivity.
  - destruct H as [H|H]; [discriminate H|].
    destruct (IH H) as (ev & He & Hc). rewrite He.
    eexists. split; reflexivity.
Qed.

Lemma loop_after_reconnect (env : Gateway.Environment)
      (log : list (string * string)) :
  In true (Gateway.attempts env) ->
  Gateway.link_alive env = true ->
  exists events,
    Gateway.loop env (PubSubClient.mkClient false log) =
      (Gateway.Returned,
       PubSubClient.mkClient true (log ++ forwarded env)%list, events) /\
    attemptsConnect events = true.
Proof.
  intros Hacc Ha. unfold Gateway.loop, forwarded.
  cbn [PubSubClient.connected PubSubClient.is_connected negb].
  destruct (reconnect_accepts _ log Hacc) as (ev & He & Hc). rewrite He.
  cbn [PubSubClient.loop PubSubClient.is_connected PubSubClient.delivered
       andb].
  rewrite Ha. unfold Gateway.packetSize.
  destruct (Gateway.radio env) as [pkt|].
  - destruct (0 <? String.length (Gateway.payload pkt))%nat.
    + unfold Gateway.handleLoRaPacket.
      destruct (Gateway.decode (Gateway.payload pkt)) as [e| |r].
      * eexists. rewrite app_nil_r, attemptsConnect_app, Hc.
        split; reflexivity.
      * eexists. rewrite app_nil_r, attemptsConnect_app, Hc.
        split; reflexivity.
      * cbn [PubSubClient.publish PubSubClient.is_connected
             PubSubClient.delivered].
        eexists. rewrite attemptsConnect_app, Hc. split; reflexivity.
    + eexists. rewrite app_nil_r, attemptsConnect_app, Hc.
      split; reflexivity.
  - eexists. rewrite app_nil_r, attemptsConnect_app, Hc. split; reflexivity.
Qed.

(** C4, as the sketch has it.  Nothing reaches the broker while the
    session is down.  [handleLoRaPacket] does not test the session: for a
    packet that decodes to a reading it calls [mqttClient.publish] all the
    same, and the client refuses the call; the session stays exactly as it
    was, so the reading is dropped, not kept for later.  After any run,
    the broker's log is the log before the run followed, pass by pass, by
    the message of each completed pass whose session was up when its
    packet was handled; a run that is still blocked in [reconnectMQTT] has
    the session down.  And because [loop] reconnects before it looks at
    the radio, a packet that waits on the radio while the gateway
    reconnects is handled once the session is up, and published. *)
Theorem publish_only_while_connected :
  forall (envs : list Gateway.Environment) (mqttClient : PubSubClient.t)
         (status : Gateway.Status) (final : PubSubClient.t)
         (events : list Gateway.Event),
    Gateway.run envs mqttClient = (status, final, events) ->
    (forall (millis : Z) (pkt : Gateway.Packet) (c : PubSubClient.t),
        PubSubClient.connected c = false ->
        fst (Gateway.handleLoRaPacket millis pkt c) = c /\
        (forall topic message,
            snd (Gateway.handleLoRaPacket millis pkt c)
              <> Gateway.Published topic message) /\
        (forall r : Gateway.CompactReading,
            Gateway.decode (Gateway.payload pkt) = Gateway.Reading r ->
            snd (Gateway.handleLoRaPacket millis pkt c) =
              Gateway.PublishFailed (Gateway.topicFor (Gateway.machineId r))
                (canonicalMessage millis pkt r))) /\
    (exists completed pending : list Gateway.Environment,
        envs = (completed ++ pending)%list /\
        (status = Gateway.Returned -> pending = []) /\
        (status = Gateway.Blocked ->
           pending <> [] /\ PubSubClient.connected final = false) /\
        PubSubClient.delivered final =
          (PubSubClient.delivered mqttClient
             ++ flat_map published completed)%list) /\
    (forall (env : Gateway.Environment) (log : list (string * string)),
        In true (Gateway.attempts env) ->
        Gateway.link_alive env = true ->
        exists waited : list Gateway.Event,
          Gateway.loop env (PubSubClient.mkClient false log) =
            (Gateway.Returned,
             PubSubClient.mkClient true (log ++ forwarded env)%list,
             waited)).
Proof.
  intros envs mqttClient status final events Hrun. split; [|split].
  - intros millis pkt c Hc. split; [|split].
    + unfold Gateway.handleLoRaPacket, PubSubClient.publish.
      unfold PubSubClient.connected in Hc. rewrite Hc.
      destruct (Gateway.decode (Gateway.payload pkt)); reflexivity.
    + intros topic message.
      unfold Gateway.handleLoRaPacket, PubSubClient.publish.
      unfold PubSubClient.connected in Hc. rewrite Hc.
      destruct (Gateway.decode (Gateway.payload pkt)); discriminate.
    + intros r Hd.
      rewrite (handle_reading_disconnected millis pkt c r Hd Hc).
      reflexivity.
  - exact (run_delivers envs mqttClient status final events Hrun).
  - intros env log Hacc Ha.
    destruct (loop_after_reconnect env log Hacc Ha) as (ev & He & _).
    exists ev. exact He.
Qed.

(** The reconnect scenario: two readings handled with the session down
    are dropped, the third is published; one message in all. *)
Lemma publish_only_while_connected_witness :
  PubSubClient.delivered
    (snd (fst (Gateway.run Samples.reconnectScenario
                           Samples.disconnectedClient))) =
    [("factory/lathe_01", Samples.latheCanonicalText)] /\
  exists completed pending : list Gateway.Environment,
    Samples.reconnectScenario = (completed ++ pending)%list /\
    (Gateway.Returned = Gateway.Returned -> pending = []) /\
    (Gateway.Returned = Gateway.Blocked ->
       pending <> [] /\
       PubSubClient.connected
         (snd (fst (Gateway.run Samples.reconnectScenario
                                Samples.disconnectedClient))) = false) /\
    PubSubClient.delivered
      (snd (fst (Gateway.run Samples.reconnectScenario
                             Samples.disconnectedClient))) =
      ([] ++ flat_map published completed)%list.
Proof.
  split; [reflexivity|].
  exact (proj1 (proj2 (publish_only_while_connected
                  Samples.reconnectScenario Samples.disconnectedClient
                  Gateway.Returned
                  (snd (fst (Gateway.run Samples.reconnectScenario
                                         Samples.disconnectedClient)))
                  (snd (Gateway.run Samples.reconnectScenario
                                    Samples.disconnectedClient))
                  eq_refl))).
Defined.

(** C4, as stated, fails twice.  With the session down the README's
    packet is still handed to [mqttClient.publish]: the handler ends in
    the branch of a refused call, so a publish call did occur.  And a
    packet that waits on the radio while the broker refuses a connection
    is not dropped: once the next attempt is accepted it is handled and
    delivered. *)
Lemma publish_is_called_without_session :
  Gateway.handleLoRaPacket 12345678 Samples.lathePacket
    Samples.disconnectedClient =
    (Samples.disconnectedClient,
     Gateway.PublishFailed "factory/lathe_01" Samples.latheCanonicalText) /\
  exists waited : list Gateway.Event,
    Gateway.loop
      (Gateway.mkEnv [false; true] true (Some Samples.lathePacket) 12345678)
      Samples.disconnectedClient =
      (Gateway.Returned,
       PubSubClient.mkClient true
         [("factory/lathe_01", Samples.latheCanonicalText)],
       waited) /\
    delayed waited = 5010.
Proof.
  split; [vm_compute; reflexivity|].
  eexists. split; [vm_compute; reflexivity|]. reflexivity.
Qed.

(* ================================================================== *)
(** * Gateway: reception while the broker is away *)
(* ================================================================== *)

Lemma reconnect_refused (n : nat) (later : list bool) (c : PubSubClient.t) :
  PubSubClient.connected c = false ->
  Gateway.reconnectMQTT (repeat false n ++ later) c =
    let '(status, final, events) := Gateway.reconnectMQTT later c in
    (status, final, (refusals n ++ events)%list).
Proof.
  intros Hc. induction n as [|n IH].
  - simpl. destruct (Gateway.reconnectMQTT later c) as [[s f] e].
    reflexivity.
  - cbn [repeat app Gateway.reconnectMQTT]. rewrite Hc.
    assert (Hsame : PubSubClient.mkClient false (PubSubClient.delivered c)
                    = c).
    { destruct c as [b d]. unfold PubSubClient.connected in Hc.
      simpl in *. subst b. reflexivity. }
    cbn [PubSubClient.connect]. rewrite Hsame, IH.
    destruct (Gateway.reconnectMQTT later c) as [[s f] e]. reflexivity.
Qed.

Lemma refusals_quiet (n : nat) :
  pollsRadio (refusals n) = false /\
  delayed (refusals n) = 5000 * Z.of_nat n.
Proof.
  induction n as [|n [IHp IHd]]; [split; reflexivity|].
  split; [exact IHp|].
  cbn [refusals delayed]. rewrite IHd. lia.
Qed.

(** C6, as the sketch has it.  [reconnectMQTT] runs inside [loop], before
    the radio is looked at.  With the session down, a pass whose first [n]
    connection attempts are refused spends [n] times five seconds in
    [delay] without a look at the radio: if no attempt succeeds the pass
    is still in [reconnectMQTT], session unchanged, the packet on the
    radio untouched; the radio is polled only after an attempt has
    succeeded. *)
Theorem reconnect_blocks_reception :
  forall (n : nat) (later : list bool) (env : Gateway.Environment)
         (mqttClient : PubSubClient.t),
    PubSubClient.connected mqttClient = false ->
    Gateway.attempts env = (repeat false n ++ later)%list ->
    (later = [] ->
       Gateway.loop env mqttClient
         = (Gateway.Blocked, mqttClient, refusals n)) /\
    (forall rest : list bool, later = true :: rest ->
       exists (final : PubSubClient.t) (after : list Gateway.Event),
         Gateway.loop env mqttClient =
           (Gateway.Returned, final,
            (refusals n
               ++ Gateway.Connect true :: Gateway.MqttLoop
               :: Gateway.ParsePacket (Gateway.packetSize (Gateway.radio env))
               :: after)%list)) /\
    pollsRadio (refusals n) = false /\
    delayed (refusals n) = 5000 * Z.of_nat n.
Proof.
  intros n later env mqttClient Hc Hatt.
  split; [|split; [|apply refusals_quiet]].
  - intros ->. unfold Gateway.loop. rewrite Hc, Hatt. cbn [negb].
    rewrite (reconnect_refused n [] mqttClient Hc).
    cbn [Gateway.reconnectMQTT]. rewrite Hc, app_nil_r. reflexivity.
  - intros rest ->. unfold Gateway.loop. rewrite Hc, Hatt. cbn [negb].
    rewrite (reconnect_refused n (true :: rest) mqttClient Hc).
    cbn [Gateway.reconnectMQTT PubSubClient.connect]. rewrite Hc.
    rewrite (reconnect_connected rest
               (PubSubClient.mkClient true
                  (PubSubClient.delivered mqttClient)) eq_refl).
    destruct (Gateway.radio env) as [pkt|].
    + destruct (0 <? Gateway.packetSize (Some pkt))%nat.
      * destruct (Gateway.handleLoRaPacket (Gateway.millis env) pkt _)
          as [c2 h].
        eexists; eexists. rewrite <- app_assoc. reflexivity.
      * eexists; eexists. rewrite <- app_assoc. reflexivity.
    + eexists; eexists. rewrite <- app_assoc. reflexivity.
Qed.

Lemma reconnect_blocks_reception_witness :
  Gateway.loop Samples.brokerDown Samples.disconnectedClient =
    (Gateway.Blocked, Samples.disconnectedClient,
     [Gateway.Connect false; Gateway.Delay 5000;
      Gateway.Connect false; Gateway.Delay 5000;
      Gateway.Connect false; Gateway.Delay 5000]).
Proof.
  exact (proj1 (reconnect_blocks_reception 3 [] Samples.brokerDown
                  Samples.disconnectedClient eq_refl eq_refl) eq_refl).
Defined.

(** C6, as stated, fails: with the session down and the broker refusing
    three attempts in a row, fifteen seconds pass in which the packet that
    waits on the radio is neither polled nor handled. *)
Lemma reception_stalls_while_broker_is_down :
  Gateway.radio Samples.brokerDown = Some Samples.lathePacket /\
  exists events : list Gateway.Event,
    Gateway.loop Samples.brokerDown Samples.disconnectedClient =
      (Gateway.Blocked, Samples.disconnectedClient, events) /\
    pollsRadio events = false /\
    delayed events = 15000.
Proof.
  split; [reflexivity|].
  eexists. split; [vm_compute; reflexivity|]. split; reflexivity.
Qed.

(* ================================================================== *)
(** * Binary floating point *)
(* ================================================================== *)

Lemma pow2_pos (e : Z) : (0 < Float.pow2 e)%Q.
Proof. apply Qpower_0_lt. reflexivity. Qed.

Lemma pow2_add (a b : Z) :
  (Float.pow2 (a + b) == Float.pow2 a * Float.pow2 b)%Q.
Proof. apply Qpower_plus. discriminate. Qed.

Lemma pow2_le (a b : Z) : a <= b -> (Float.pow2 a <= Float.pow2 b)%Q.
Proof. intros H. apply Qpower_le_compat_l; [exact H|discriminate]. Qed.

Lemma pow2_nat (n : Z) :
  0 <= n -> (Float.pow2 n == inject_Z (2 ^ n))%Q.
Proof. intros H. unfold Float.pow2. rewrite Zpower_Qpower by exact H. reflexivity. Qed.

Lemma Qfloor_unique (x : Q) (z : Z) :
  (inject_Z z <= x)%Q -> (x < inject_Z (z + 1))%Q -> Qfloor x = z.
Proof.
  intros Hlo Hhi.
  pose proof (Qfloor_le x) as H1. pose proof (Qlt_floor x) as H2.
  assert (A : (inject_Z z < inject_Z (Qfloor x + 1))%Q)
    by (eapply Qle_lt_trans; eassumption).
  assert (B : (inject_Z (Qfloor x) < inject_Z (z + 1))%Q)
    by (eapply Qle_lt_trans; eassumption).
  rewrite <- Zlt_Qlt in A, B. lia.
Qed.

Lemma nearestEven_error (x : Q) :
  (Qabs (inject_Z (Float.nearestEven x) - x) <= 1 # 2)%Q.
Proof.
  unfold Float.nearestEven.
  pose proof (Qfloor_le x) as H1. pose proof (Qlt_floor x) as H2.
  rewrite inject_Z_plus in H2. change (inject_Z 1) with 1%Q in H2.
  apply Qabs_Qle_condition.
  destruct (x - inject_Z (Qfloor x) ?= 1 # 2)%Q eqn:Hc.
  - apply Qeq_alt in Hc. destruct (Z.even (Qfloor x)).
    + generalize dependent (inject_Z (Qfloor x)). intros f. intros. split; lra.
    + rewrite inject_Z_plus. change (inject_Z 1) with 1%Q.
      generalize dependent (inject_Z (Qfloor x)). intros f. intros. split; lra.
  - apply Qlt_alt in Hc.
    generalize dependent (inject_Z (Qfloor x)). intros f. intros. split; lra.
  - apply Qgt_alt in Hc. rewrite inject_Z_plus. change (inject_Z 1) with 1%Q.
    generalize dependent (inject_Z (Qfloor x)). intros f. intros. split; lra.
Qed.

Lemma nearestEven_comp (x y : Q) :
  (x == y)%Q -> Float.nearestEven x = Float.nearestEven y.
Proof.
  intros H. unfold Float.nearestEven.
  rewrite (Qfloor_comp _ _ H).
  assert (Hc : (x - inject_Z (Qfloor y) ?= 1 # 2)%Q
               = (y - inject_Z (Qfloor y) ?= 1 # 2)%Q)
    by (rewrite H; reflexivity).
  rewrite Hc. reflexivity.
Qed.

(** The exponent brackets the value. *)
Lemma exponent_spec (x : Q) :
  (0 < x)%Q ->
  (Float.pow2 (Float.exponent x) <= x)%Q /\
  (x < Float.pow2 (Float.exponent x + 1))%Q.
Proof.
  intros Hx. destruct x as [n d]. unfold Float.exponent. cbn [Qnum Qden].
  assert (Hn : 0 < n) by (unfold Qlt in Hx; cbn in Hx; lia).
  set (a := Z.log2 n). set (b := Z.log2 (Z.pos d)).
  assert (Ha0 : 0 <= a) by apply Z.log2_nonneg.
  assert (Hb0 : 0 <= b) by apply Z.log2_nonneg.
  destruct (Z.log2_spec n Hn) as [Ha1 Ha2]. fold a in Ha1, Ha2.
  destruct (Z.log2_spec (Z.pos d) ltac:(lia)) as [Hb1 Hb2].
  fold b in Hb1, Hb2.
  assert (Hlow : (Float.pow2 (a - b - 1) <= n # d)%Q).
  { replace (a - b - 1) with (a + - (b + 1)) by lia.
    rewrite pow2_add. unfold Float.pow2 at 2. rewrite Qpower_opp.
    fold (Float.pow2 (b + 1)). rewrite (pow2_nat a), (pow2_nat (b + 1)) by lia.
    apply Qle_shift_div_r.
    - change 0%Q with (inject_Z 0). rewrite <- Zlt_Qlt. lia.
    - unfold Qle, Qmult, inject_Z. cbn [Qnum Qden].
      rewrite ?Pos2Z.inj_mul. nia. }
  assert (Hhigh : (n # d < Float.pow2 (a - b + 1))%Q).
  { replace (a - b + 1) with ((a + 1) + - b) by lia.
    rewrite pow2_add. unfold Float.pow2 at 2. rewrite Qpower_opp.
    fold (Float.pow2 b). rewrite (pow2_nat (a + 1)), (pow2_nat b) by lia.
    apply Qlt_shift_div_l.
    - change 0%Q with (inject_Z 0). rewrite <- Zlt_Qlt. lia.
    - unfold Qlt, Qmult, inject_Z. cbn [Qnum Qden].
      rewrite ?Pos2Z.inj_mul. nia. }
  destruct (Qle_bool (Float.pow2 (a - b)) (n # d)) eqn:Hc.
  - apply Qle_bool_iff in Hc. split; assumption.
  - split.
    + exact Hlow.
    + replace (a - b - 1 + 1) with (a - b) by lia.
      apply Qnot_le_lt. intros H. apply Qle_bool_iff in H. congruence.
Qed.

Lemma exponent_unique (x : Q) (e : Z) :
  (Float.pow2 e <= x)%Q -> (x < Float.pow2 (e + 1))%Q ->
  Float.exponent x = e.
Proof.
  intros Hlo Hhi.
  assert (Hx : (0 < x)%Q) by (eapply Qlt_le_trans; [apply pow2_pos|exact Hlo]).
  destruct (exponent_spec x Hx) as [Elo Ehi].
  set (e' := Float.exponent x) in *.
  assert (A : (Float.pow2 e < Float.pow2 (e' + 1))%Q)
    by (eapply Qle_lt_trans; eassumption).
  assert (B : (Float.pow2 e' < Float.pow2 (e + 1))%Q)
    by (eapply Qle_lt_trans; eassumption).
  apply Qpower_lt_compat_l_inv in A; [|reflexivity].
  apply Qpower_lt_compat_l_inv in B; [|reflexivity].
  lia.
Qed.

Lemma exponent_comp (x y : Q) :
  (0 < x)%Q -> (x == y)%Q -> Float.exponent x = Float.exponent y.
Proof.
  intros Hx H. destruct (exponent_spec x Hx) as [Elo Ehi].
  symmetry. apply exponent_unique; rewrite <- H; assumption.
Qed.

Lemma float_round_comp (prec emin : Z) (x y : Q) :
  (x == y)%Q -> (Float.round prec emin x == Float.round prec emin y)%Q.
Proof.
  intros H. unfold Float.round.
  assert (Hz : Qeq_bool x 0 = Qeq_bool y 0).
  { destruct (Qeq_bool x 0) eqn:Hx; destruct (Qeq_bool y 0) eqn:Hy;
      try reflexivity.
    - apply Qeq_bool_iff in Hx. rewrite H in Hx.
      apply Qeq_bool_iff in Hx. congruence.
    - apply Qeq_bool_iff in Hy. rewrite <- H in Hy.
      apply Qeq_bool_iff in Hy. congruence. }
  rewrite Hz. destruct (Qeq_bool y 0) eqn:Hy; [reflexivity|].
  assert (Hpos : (0 < Qabs x)%Q).
  { apply Qnot_le_lt. intros Hle.
    assert (Hx0 : (Qabs x == 0)%Q)
      by (apply Qle_antisym; [exact Hle|apply Qabs_nonneg]).
    assert (Hx : (x == 0)%Q).
    { apply Qabs_Qle_condition in Hle. destruct Hle.
      apply Qle_antisym; assumption. }
    rewrite H in Hx. apply Qeq_bool_iff in Hx. congruence. }
  assert (He : Float.exponent (Qabs x) = Float.exponent (Qabs y)).
  { apply exponent_comp; [exact Hpos|]. rewrite H. reflexivity. }
  rewrite He. cbv zeta.
  set (ulp := Float.pow2 _).
  assert (Hn : Float.nearestEven (x / ulp) = Float.nearestEven (y / ulp)).
  { apply nearestEven_comp. rewrite H. reflexivity. }
  rewrite Hn. reflexivity.
Qed.

(** Rounding moves a value by at most half a unit in the last place: a
    relative error of [2^-prec], or [2^(emin - prec)] below the normal
    range. *)
Lemma float_round_error (prec emin : Z) (x : Q) :
  (Qabs (Float.round prec emin x - x)
   <= Qabs x * Float.pow2 (- prec) + Float.pow2 (emin - prec))%Q.
Proof.
  unfold Float.round.
  pose proof (pow2_pos (- prec)) as Hp. pose proof (pow2_pos (emin - prec)) as Ht.
  pose proof (Qabs_nonneg x) as Hax.
  destruct (Qeq_bool x 0) eqn:Hz.
  - apply Qeq_bool_iff in Hz.
    assert (H0 : (Qabs (0 - x) == 0)%Q) by (rewrite Hz; reflexivity).
    rewrite H0. 
    apply Qle_trans with (0 * Float.pow2 (- prec) + 0)%Q; [discriminate|].
    apply Qplus_le_compat; [|apply Qlt_le_weak; exact Ht].
    apply Qmult_le_compat_r; [exact Hax|apply Qlt_le_weak; exact Hp].
  - cbv zeta.
    assert (Hpos : (0 < Qabs x)%Q).
    { apply Qnot_le_lt. intros Hle.
      apply Qabs_Qle_condition in Hle. destruct Hle as [H1 H2].
      assert (Hx : (x == 0)%Q) by (apply Qle_antisym; assumption).
      apply Qeq_bool_iff in Hx. congruence. }
    destruct (exponent_spec (Qabs x) Hpos) as [Elo _].
    set (ex := Float.exponent (Qabs x)) in *.
    set (e := Z.max ex emin).
    set (u := Float.pow2 (e - prec + 1)).
    assert (Hu : (0 < u)%Q) by apply pow2_pos.
    assert (Hhalf : (u * (1 # 2) == Float.pow2 (e - prec))%Q).
    { unfold u. replace (e - prec + 1) with ((e - prec) + 1) by lia.
      rewrite pow2_add. change (Float.pow2 1) with 2%Q. field. }
    pose proof (nearestEven_error (x / u)) as Hn.
    set (N := inject_Z (Float.nearestEven (x / u))) in *.
    assert (Hd : (N * u - x == (N - x / u) * u)%Q)
      by (field; intros H; rewrite H in Hu; discriminate).
    rewrite Hd, Qabs_Qmult, (Qabs_pos u) by (apply Qlt_le_weak; exact Hu).
    apply Qle_trans with ((1 # 2) * u)%Q.
    { apply Qmult_le_compat_r; [exact Hn|apply Qlt_le_weak; exact Hu]. }
    rewrite Qmult_comm, Hhalf.
    destruct (Z.le_gt_cases emin ex) as [Hnorm|Hsub].
    + assert (He : e = ex) by (unfold e; lia). rewrite He.
      replace (ex - prec) with (ex + - prec) by lia. rewrite pow2_add.
      apply Qle_trans with (Qabs x * Float.pow2 (- prec) + 0)%Q.
      * rewrite Qplus_0_r.
        apply Qmult_le_compat_r; [exact Elo|apply Qlt_le_weak; exact Hp].
      * apply Qplus_le_compat; [apply Qle_refl|apply Qlt_le_weak; exact Ht].
    + assert (He : e = emin) by (unfold e; lia). rewrite He.
      apply Qle_trans with (0 + Float.pow2 (emin - prec))%Q.
      * rewrite Qplus_0_l. apply Qle_refl.
      * apply Qplus_le_compat; [|apply Qle_refl].
        apply Qmult_le_0_compat; [exact Hax|apply Qlt_le_weak; exact Hp].
Qed.

Lemma binary32_error (x : Q) :
  (Qabs (Float.binary32 x - x)
   <= Qabs x * (1 # 16777216)
      + (1 # 1000000000000000000000000000000))%Q.
Proof.
  pose proof (float_round_error 24 (-126) x) as H.
  eapply Qle_trans; [exact H|].
  apply Qplus_le_compat.
  - apply Qmult_le_compat_nonneg.
    + split; [apply Qabs_nonneg|apply Qle_refl].
    + split; [apply Qlt_le_weak, pow2_pos|].
      apply Qle_bool_iff. vm_compute. reflexivity.
  - apply Qle_bool_iff. vm_compute. reflexivity.
Qed.

Lemma binary64_error (x : Q) :
  (Qabs (Float.binary64 x - x)
   <= Qabs x * (1 # 9007199254740992)
      + (1 # 1000000000000000000000000000000))%Q.
Proof.
  pose proof (float_round_error 53 (-1022) x) as H.
  eapply Qle_trans; [exact H|].
  apply Qplus_le_compat.
  - apply Qmult_le_compat_nonneg.
    + split; [apply Qabs_nonneg|apply Qle_refl].
    + split; [apply Qlt_le_weak, pow2_pos|].
      apply Qle_bool_iff. vm_compute. reflexivity.
  - apply Qle_bool_iff. vm_compute. reflexivity.
Qed.

Lemma binary32_comp (x y : Q) :
  (x == y)%Q -> (Float.binary32 x == Float.binary32 y)%Q.
Proof. apply float_round_comp. Qed.

Lemma binary64_comp (x y : Q) :
  (x == y)%Q -> (Float.binary64 x == Float.binary64 y)%Q.
Proof. apply float_round_comp. Qed.

(* ================================================================== *)
(** * Node: rounding *)
(* ================================================================== *)

Lemma round_error (x : Q) :
  (Qabs (inject_Z (Node.round x) - x) <= 1 # 2)%Q.
Proof.
  unfold Node.round. apply Qabs_Qle_condition.
  destruct (Qle_bool 0 x).
  - pose proof (Qfloor_le (x + (1 # 2))) as H1.
    pose proof (Qlt_floor (x + (1 # 2))) as H2.
    rewrite inject_Z_plus in H2. change (inject_Z 1) with 1%Q in H2.
    generalize dependent (inject_Z (Qfloor (x + (1 # 2)))).
    intros F H1 H2. split; lra.
  - pose proof (Qle_ceiling (x - (1 # 2))) as H1.
    pose proof (Qceiling_lt (x - (1 # 2))) as H2.
    unfold Z.sub in H2. rewrite inject_Z_plus, inject_Z_opp in H2.
    change (inject_Z 1) with 1%Q in H2.
    generalize dependent (inject_Z (Qceiling (x - (1 # 2)))).
    intros F H1 H2. split; lra.
Qed.

Lemma Qfloor_half (f : Z) : Qfloor (inject_Z f + (1 # 2)) = f.
Proof.
  unfold Qfloor, Qplus, inject_Z. cbn [Qnum Qden].
  change (Z.pos (1 * 2)) with 2.
  symmetry. apply (Z.div_unique _ 2 f 1); lia.
Qed.

Lemma round_bound (x : Q) (b : Z) :
  (Qabs x <= inject_Z b)%Q -> Z.abs (Node.round x) <= b.
Proof.
  intros Hx. apply Qabs_Qle_condition in Hx as [Hlo Hhi].
  unfold Node.round. destruct (Qle_bool 0 x) eqn:Hs.
  - apply Qle_bool_iff in Hs.
    assert (H0 : 0 <= Qfloor (x + (1 # 2))).
    { change 0 with (Qfloor 0). apply Qfloor_resp_le. lra. }
    assert (H1 : Qfloor (x + (1 # 2)) <= Qfloor (inject_Z b + (1 # 2)))
      by (apply Qfloor_resp_le; lra).
    rewrite Qfloor_half in H1. lia.
  - assert (Hneg : (x < 0)%Q).
    { apply Qnot_le_lt. intros Hle. apply Qle_bool_iff in Hle. congruence. }
    assert (H0 : Qceiling (x - (1 # 2)) <= 0).
    { change 0 with (Qceiling 0). apply Qceiling_resp_le. lra. }
    assert (H1 : Qceiling (inject_Z (- b) - (1 # 2)) <= Qceiling (x - (1 # 2))).
    { apply Qceiling_resp_le. rewrite inject_Z_opp. lra. }
    assert (H2 : Qceiling (inject_Z (- b) - (1 # 2)) = - b).
    { unfold Qceiling. 
      assert (He : (- (inject_Z (- b) - (1 # 2)) == inject_Z b + (1 # 2))%Q)
        by (rewrite inject_Z_opp; lra).
      rewrite (Qfloor_comp _ _ He), Qfloor_half. reflexivity. }
    lia.
Qed.

Lemma Qabs_bounds (x : Q) :
  (x <= Qabs x)%Q /\ (- x <= Qabs x)%Q /\ (0 <= Qabs x)%Q.
Proof.
  split; [apply Qle_Qabs|]. split; [|apply Qabs_nonneg].
  rewrite <- (Qabs_opp x). apply Qle_Qabs.
Qed.

Lemma Qmake_scaled (n : Z) (d : positive) :
  (n # d == inject_Z n * (1 # d))%Q.
Proof.
  unfold Qeq, Qmult, inject_Z. cbn [Qnum Qden].
  rewrite ?Pos2Z.inj_mul. lia.
Qed.

(** The value the node sends is within half a tenth of the sample, up to
    the rounding of the [float] product. *)
Lemma tenths_error (t : Q) :
  (Qabs ((tenths t # 10) - t)
   <= (1 # 20) + Qabs t * (1 # 16777216)
      + (1 # 1000000000000000000000000000000))%Q.
Proof.
  unfold tenths.
  pose proof (binary32_error (t * 10)) as Hp.
  pose proof (round_error (Float.binary32 (t * 10))) as Hk.
  rewrite Qabs_Qmult in Hp. change (Qabs 10) with 10%Q in Hp.
  rewrite (Qmake_scaled _ 10).
  pose proof (Qabs_nonneg t) as Ha.
  apply Qabs_Qle_condition in Hp, Hk. apply Qabs_Qle_condition.
  generalize dependent (inject_Z (Node.round (Float.binary32 (t * 10)))).
  generalize dependent (Float.binary32 (t * 10)).
  generalize dependent (Qabs t). intros. split; lra.
Qed.

Lemma thousandths_error (v : Q) :
  (Qabs ((thousandths v # 1000) - v)
   <= (1 # 2000) + Qabs v * (1 # 16777216)
      + (1 # 1000000000000000000000000000000))%Q.
Proof.
  unfold thousandths.
  pose proof (binary32_error (v * 1000)) as Hp.
  pose proof (round_error (Float.binary32 (v * 1000))) as Hk.
  rewrite Qabs_Qmult in Hp. change (Qabs 1000) with 1000%Q in Hp.
  rewrite (Qmake_scaled _ 1000).
  pose proof (Qabs_nonneg v) as Ha.
  apply Qabs_Qle_condition in Hp, Hk. apply Qabs_Qle_condition.
  generalize dependent (inject_Z (Node.round (Float.binary32 (v * 1000)))).
  generalize dependent (Float.binary32 (v * 1000)).
  generalize dependent (Qabs v). intros. split; lra.
Qed.

(* ================================================================== *)
(** * ArduinoJson: digits *)
(* ================================================================== *)

Lemma string_app_assoc (a b c : string) : (a ++ b) ++ c = a ++ (b ++ c).
Proof. induction a; simpl; congruence. Qed.

Lemma string_app_nil (a : string) : a ++ "" = a.
Proof. induction a; simpl; congruence. Qed.

Lemma digitChar_spec (d : Z) :
  0 <= d <= 9 ->
  isDigit (digitChar d) = true /\ digitVal (digitChar d) = d /\
  ((digitChar d =? "0")%char = (d =? 0)).
Proof.
  intros H.
  assert (Hd : d = 0 \/ d = 1 \/ d = 2 \/ d = 3 \/ d = 4 \/ d = 5 \/
               d = 6 \/ d = 7 \/ d = 8 \/ d = 9) by lia.
  repeat (destruct Hd as [-> | Hd]; [repeat split; reflexivity|]).
  subst d; repeat split; reflexivity.
Qed.

Lemma allChars_app (p : ascii -> bool) (a b : string) :
  allChars p (a ++ b) = allChars p a && allChars p b.
Proof.
  induction a as [|c a IH]; simpl; [reflexivity|].
  rewrite IH, andb_assoc. reflexivity.
Qed.

Lemma allChars_weaken (p q : ascii -> bool) (s : string) :
  (forall c, p c = true -> q c = true) ->
  allChars p s = true -> allChars q s = true.
Proof.
  intros Hpq. induction s as [|c s IH]; simpl; [reflexivity|].
  intros H. apply andb_true_iff in H as [Hc Hs].
  rewrite (Hpq c Hc), (IH Hs). reflexivity.
Qed.

Lemma digitsValue_app (acc : Z) (a b : string) :
  digitsValue acc (a ++ b) = digitsValue (digitsValue acc a) b.
Proof. revert acc; induction a as [|c a IH]; intros acc; simpl; auto. Qed.

Lemma digitsValue_shift (acc : Z) (s : string) :
  digitsValue acc s = acc * 10 ^ zlength s + digitsValue 0 s.
Proof.
  unfold zlength. revert acc; induction s as [|c s IH]; intros acc.
  - simpl. lia.
  - cbn [digitsValue String.length]. rewrite IH, (IH (0 * 10 + digitVal c)).
    rewrite Nat2Z.inj_succ, Z.pow_succ_r by lia. ring.
Qed.

Lemma zlength_app (a b : string) : zlength (a ++ b) = zlength a + zlength b.
Proof. unfold zlength. rewrite append_length. lia. Qed.

Lemma zlength_nonneg (s : string) : 0 <= zlength s.
Proof. unfold zlength; lia. Qed.

(** Reading digits: the run ends where the digits end. *)
Lemma readDigits_run (s rest : string) (acc count : Z) :
  allChars isDigit s = true ->
  startsWith isDigit rest = false ->
  ArduinoJson.readDigits acc count (s ++ rest) =
    (digitsValue acc s, count + zlength s, rest).
Proof.
  unfold zlength. intros Hs Hrest.
  revert acc count; induction s as [|c s IH]; intros acc count.
  - simpl. rewrite Z.add_0_r.
    destruct rest as [|c r]; [reflexivity|].
    simpl in *. rewrite Hrest. reflexivity.
  - simpl in Hs. apply andb_true_iff in Hs as [Hc Hs].
    cbn [append ArduinoJson.readDigits digitsValue String.length].
    rewrite Hc, (IH Hs). f_equal. f_equal. lia.
Qed.

Lemma fixedDigits_spec (width : nat) (n : Z) :
  0 <= n ->
  allChars isDigit (ArduinoJson.fixedDigits width n) = true /\
  String.length (ArduinoJson.fixedDigits width n) = width /\
  digitsValue 0 (ArduinoJson.fixedDigits width n) = n mod 10 ^ Z.of_nat width.
Proof.
  revert n; induction width as [|w IH]; intros n Hn.
  - simpl. rewrite Z.mod_1_r. auto.
  - cbn [ArduinoJson.fixedDigits].
    assert (Hq : 0 <= n / 10) by (apply Z.div_pos; lia).
    destruct (IH (n / 10) Hq) as (Ha & Hl & Hv).
    assert (Hm : 0 <= n mod 10 <= 9) by (pose proof (Z.mod_pos_bound n 10); lia).
    destruct (digitChar_spec _ Hm) as (Hd & Hdv & _).
    split; [|split].
    + rewrite allChars_app, Ha. cbn [allChars andb]. rewrite Hd. reflexivity.
    + rewrite append_length, Hl. cbn [String.length]. lia.
    + rewrite digitsValue_app. cbn [digitsValue]. rewrite Hv, Hdv.
      rewrite Nat2Z.inj_succ, Z.pow_succ_r by lia.
      rewrite Z.rem_mul_r by lia.
      lia.
Qed.

Lemma writeDigits_acc (fuel : nat) (n : Z) (acc : string) :
  ArduinoJson.writeDigits fuel n acc =
  ArduinoJson.writeDigits fuel n "" ++ acc.
Proof.
  revert n acc; induction fuel as [|f IH]; intros n acc; [reflexivity|].
  cbn [ArduinoJson.writeDigits]. destruct (n / 10 =? 0); [reflexivity|].
  rewrite IH, (IH _ (String _ "")), string_app_assoc. reflexivity.
Qed.

Lemma writeDigits_spec (fuel : nat) (n : Z) :
  0 <= n < 10 ^ Z.of_nat fuel ->
  allChars isDigit (ArduinoJson.writeDigits fuel n "") = true /\
  digitsValue 0 (ArduinoJson.writeDigits fuel n "") = n /\
  (fuel <> O ->
   startsWith isDigit (ArduinoJson.writeDigits fuel n "") = true).
Proof.
  revert n; induction fuel as [|f IH]; intros n Hn.
  - simpl in *. repeat split; [lia | congruence].
  - cbn [ArduinoJson.writeDigits].
    assert (Hm : 0 <= n mod 10 <= 9)
      by (pose proof (Z.mod_pos_bound n 10); lia).
    destruct (digitChar_spec _ Hm) as (Hd & Hdv & _).
    pose proof (Z.div_mod n 10 ltac:(lia)) as Hdm.
    destruct (n / 10 =? 0) eqn:Hq.
    + apply Z.eqb_eq in Hq. cbn [allChars digitsValue startsWith andb].
      rewrite Hd, Hdv. repeat split. lia.
    + rewrite writeDigits_acc.
      assert (Hn' : 0 <= n / 10 < 10 ^ Z.of_nat f).
      { split; [apply Z.div_pos; lia|].
        apply Z.div_lt_upper_bound; [lia|].
        rewrite Nat2Z.inj_succ, Z.pow_succ_r in Hn by lia. lia. }
      destruct (IH _ Hn') as (Ha & Hv & Hs).
      split; [|split].
      * rewrite allChars_app, Ha. cbn [allChars andb]. rewrite Hd.
        reflexivity.
      * rewrite digitsValue_app, Hv. cbn [digitsValue]. rewrite Hdv. lia.
      * intros _. destruct f as [|f'].
        -- cbn [ArduinoJson.writeDigits append startsWith]. exact Hd.
        -- specialize (Hs ltac:(discriminate)).
           destruct (ArduinoJson.writeDigits (S f') (n / 10) "");
             [discriminate | exact Hs].
Qed.

Lemma writeUnsigned_spec (n : Z) :
  0 <= n ->
  allChars isDigit (ArduinoJson.writeUnsigned n) = true /\
  digitsValue 0 (ArduinoJson.writeUnsigned n) = n /\
  startsWith isDigit (ArduinoJson.writeUnsigned n) = true.
Proof.
  intros Hn. unfold ArduinoJson.writeUnsigned.
  assert (Hb : 0 <= n < 10 ^ Z.of_nat (S (Z.to_nat (Z.log2 n)))).
  { split; [exact Hn|].
    rewrite Nat2Z.inj_succ, Z2Nat.id by apply Z.log2_nonneg.
    destruct (Z.eq_dec n 0) as [-> | Hnz]; [reflexivity|].
    pose proof (Z.log2_spec n ltac:(lia)) as [_ Hlt].
    eapply Z.lt_le_trans; [exact Hlt|].
    apply Z.pow_le_mono_l. lia. }
  destruct (writeDigits_spec _ _ Hb) as (Ha & Hv & Hs).
  split; [exact Ha|]. split; [exact Hv|]. apply Hs. discriminate.
Qed.

Lemma digitsValue_cons (c : ascii) (r : string) :
  digitsValue 0 (String c r) = digitVal c * 10 ^ zlength r + digitsValue 0 r.
Proof. cbn [digitsValue]. rewrite digitsValue_shift. ring. Qed.

Lemma zlength_cons (c : ascii) (r : string) :
  zlength (String c r) = zlength r + 1.
Proof. unfold zlength; cbn [String.length]; lia. Qed.

Lemma stripTrailingZeros_spec (s : string) :
  allChars isDigit s = true ->
  allChars isDigit (ArduinoJson.stripTrailingZeros s) = true /\
  zlength (ArduinoJson.stripTrailingZeros s) <= zlength s /\
  digitsValue 0 s =
    digitsValue 0 (ArduinoJson.stripTrailingZeros s)
    * 10 ^ (zlength s - zlength (ArduinoJson.stripTrailingZeros s)).
Proof.
  induction s as [|c r IH]; intros Hs.
  - simpl. repeat split; reflexivity.
  - cbn [allChars] in Hs. apply andb_true_iff in Hs as [Hc Hr].
    destruct (IH Hr) as (Ha & Hl & Hv).
    cbn [ArduinoJson.stripTrailingZeros].
    pose proof (zlength_nonneg r) as Hr0.
    rewrite (digitsValue_cons c r), (zlength_cons c r).
    destruct (ArduinoJson.stripTrailingZeros r) as [|c1 r1] eqn:Hstrip.
    + change (digitsValue 0 "") with 0 in Hv. rewrite Z.mul_0_l in Hv.
      rewrite Hv, Z.add_0_r.
      destruct (c =? "0")%char eqn:Hz.
      * apply Ascii.eqb_eq in Hz. subst c.
        change (zlength "") with 0. change (digitsValue 0 "") with 0.
        change (digitVal "0") with 0.
        repeat split; lia.
      * rewrite (digitsValue_cons c ""), (zlength_cons c "").
        change (zlength "") with 0. change (digitsValue 0 "") with 0.
        cbn [allChars andb]. rewrite Hc.
        repeat split; [lia|].
        replace (zlength r + 1 - (0 + 1)) with (zlength r) by lia.
        rewrite Z.pow_0_r. ring.
    + set (s' := String c1 r1) in *.
      rewrite (digitsValue_cons c s'), (zlength_cons c s').
      cbn [allChars]. rewrite Hc, Ha.
      pose proof (zlength_nonneg s') as Hs0.
      repeat split; [lia|].
      rewrite Hv.
      replace (zlength r + 1 - (zlength s' + 1))
        with (zlength r - zlength s') by lia.
      replace (zlength r) with (zlength s' + (zlength r - zlength s')) at 1
        by lia.
      rewrite Z.pow_add_r by lia. ring.
Qed.

(* ================================================================== *)
(** * ArduinoJson: numbers written and read back *)
(* ================================================================== *)

(** The parts of a value that has no more than nine decimals. *)
Lemma floatParts_scaled (a : Q) (N : Z) :
  0 <= N ->
  (a == N # 1000000000)%Q ->
  ArduinoJson.floatParts a = (N / 10 ^ 9, N mod 10 ^ 9).
Proof.
  intros HN Ha. unfold ArduinoJson.floatParts.
  assert (Hi : Qfloor a = N / 10 ^ 9).
  { rewrite (Qfloor_comp _ _ Ha). reflexivity. }
  rewrite Hi.
  assert (Hr : ((a - inject_Z (N / 10 ^ 9)) * inject_Z (10 ^ 9) + (1 # 2)
                == inject_Z (N mod 10 ^ 9) + (1 # 2))%Q).
  { rewrite Ha. rewrite Z.mod_eq by lia.
    change (10 ^ 9) with 1000000000.
    generalize (N / 1000000000). intros q.
    unfold Qeq, Qminus, Qplus, Qmult, Qopp, inject_Z. cbn [Qnum Qden].
    lia. }
  rewrite (Qfloor_comp _ _ Hr), Qfloor_half.
  pose proof (Z.mod_pos_bound N (10 ^ 9) ltac:(lia)) as Hb.
  destruct (10 ^ 9 <=? N mod 10 ^ 9) eqn:Hle; [apply Z.leb_le in Hle; lia|].
  reflexivity.
Qed.

Lemma digit_is_plain (c : ascii) :
  isDigit c = true ->
  (c =? "-")%char = false /\ (c =? "+")%char = false /\
  (c =? ".")%char = false /\ (c =? "e")%char = false /\
  (c =? "E")%char = false /\
  ArduinoJson.canBeInNumber c = true /\ ArduinoJson.isSpace c = false /\
  (c =? "[")%char = false /\ (c =? "{")%char = false /\
  ArduinoJson.isQuote c = false /\
  (c =? "t")%char = false /\ (c =? "f")%char = false /\
  (c =? "n")%char = false.
Proof.
  ascii_cases c; intros H;
    try (cbv in H; discriminate H); repeat split; reflexivity.
Qed.

Lemma writeFloat_text (x : Q) :
  ArduinoJson.writeFloat x =
    (if Qnum x <? 0 then "-" else "") ++
    magnitudeText (fst (ArduinoJson.floatParts (Qabs x)))
                  (snd (ArduinoJson.floatParts (Qabs x))).
Proof.
  unfold ArduinoJson.writeFloat, magnitudeText.
  destruct (ArduinoJson.floatParts (Qabs x)) as [i d]. reflexivity.
Qed.

Lemma startsWith_cons (p : ascii -> bool) (s : string) :
  startsWith p s = true -> exists c r, s = String c r /\ p c = true.
Proof. destruct s as [|c r]; simpl; [discriminate | eauto]. Qed.

Lemma parseMagnitude_text (neg : bool) (i f : Z) :
  0 <= i -> 0 <= f < 10 ^ 9 ->
  exists v : ArduinoJson.JsonVariant,
    ArduinoJson.parseMagnitude neg (magnitudeText i f) = Some v /\
    (ArduinoJson.number_as_float v
       == signed neg (inject_Z i + (f # 1000000000)))%Q /\
    ArduinoJson.as_float v = ArduinoJson.number_as_float v /\
    ArduinoJson.as_int v = ArduinoJson.number_as_int v /\
    (f = 0 -> v = ArduinoJson.JInteger (ArduinoJson.applySign neg i)).
Proof.
  intros Hi Hf. unfold magnitudeText.
  destruct (writeUnsigned_spec i Hi) as (Ua & Uv & Us).
  destruct (ArduinoJson.writeUnsigned i) as [|c0 U'] eqn:HU;
    [discriminate Us|].
  cbn [startsWith] in Us.
  set (F := if f =? 0 then "" else String "." _).
  assert (HF : startsWith isDigit F = false)
    by (unfold F; destruct (f =? 0); reflexivity).
  unfold ArduinoJson.parseMagnitude. cbn [append]. rewrite Us. cbn [orb].
  change (String c0 (U' ++ F)) with (String c0 U' ++ F).
  rewrite (readDigits_run (String c0 U') F 0 0 Ua HF), Uv.
  unfold F. destruct (f =? 0) eqn:Hz.
  - apply Z.eqb_eq in Hz. subst f.
    eexists. split; [reflexivity|]. cbn [ArduinoJson.number_as_float].
    split; [|repeat split; reflexivity].
    unfold signed, ArduinoJson.applySign.
    destruct neg; [rewrite inject_Z_opp|]; lra.
  - apply Z.eqb_neq in Hz.
    destruct (fixedDigits_spec 9 f ltac:(lia)) as (Da & Dl & Dv).
    destruct (stripTrailingZeros_spec _ Da) as (Sa & Sl & Sv).
    set (D := ArduinoJson.stripTrailingZeros (ArduinoJson.fixedDigits 9 f))
      in *.
    assert (Hlen9 : zlength (ArduinoJson.fixedDigits 9 f) = 9)
      by (unfold zlength; rewrite Dl; reflexivity).
    rewrite Hlen9 in *.
    rewrite Z.mod_small in Dv by (change (Z.of_nat 9) with 9; lia).
    rewrite Dv in Sv.
    pose proof (zlength_nonneg D) as HD0.
    assert (HDpos : 1 <= zlength D).
    { destruct D as [|cd rd] eqn:HD.
      - change (digitsValue 0 "") with 0 in Sv. lia.
      - rewrite zlength_cons. pose proof (zlength_nonneg rd). lia. }
    change (String "." D) with (String "." D).
    cbn [Ascii.eqb Bool.eqb].
    change ("."%char =? "."%char)%char with true. cbv iota.
    pose proof (readDigits_run D "" i 0 Sa eq_refl) as HR.
    rewrite string_app_nil in HR. rewrite HR.
    eexists. split; [reflexivity|].
    split; [|repeat split; try reflexivity; intros; contradiction].
    cbn [ArduinoJson.number_as_float]. unfold ArduinoJson.makeFloat.
    destruct (0 <=? 0 - (0 + zlength D)) eqn:He;
      [apply Z.leb_le in He; lia|].
    rewrite digitsValue_shift.
    replace (- (0 - (0 + zlength D))) with (zlength D) by lia.
    set (L := zlength D) in *. set (d := digitsValue 0 D) in *.
    assert (Hp : 0 < 10 ^ L) by (apply Z.pow_pos_nonneg; lia).
    assert (H9 : 1000000000 = 10 ^ L * 10 ^ (9 - L)).
    { rewrite <- Z.pow_add_r by lia. replace (L + (9 - L)) with 9 by lia.
      reflexivity. }
    unfold signed, ArduinoJson.applySign.
    destruct neg; unfold Qeq, Qplus, Qopp, inject_Z; cbn [Qnum Qden];
      rewrite Z2Pos.id by exact Hp; rewrite Sv;
      change (Z.pos (1 * 1000000000)) with 1000000000; rewrite H9; ring.
Qed.

Lemma Qabs_signed (x : Q) : (x == signed (Qnum x <? 0) (Qabs x))%Q.
Proof.
  destruct x as [n d]. unfold signed, Qabs, Qeq, Qopp. cbn [Qnum Qden].
  destruct (n <? 0) eqn:Hn; [apply Z.ltb_lt in Hn | apply Z.ltb_ge in Hn];
    cbn [Qnum Qden]; lia.
Qed.

Lemma signed_comp (neg : bool) (a b : Q) :
  (a == b)%Q -> (signed neg a == signed neg b)%Q.
Proof. intros H; destruct neg; simpl; rewrite H; reflexivity. Qed.

Lemma digits_are_number_chars (s : string) :
  allChars isDigit s = true -> allChars ArduinoJson.canBeInNumber s = true.
Proof.
  apply allChars_weaken. intros c Hc.
  destruct (digit_is_plain c Hc) as (_ & _ & _ & _ & _ & H & _). exact H.
Qed.

Lemma magnitudeText_chars (i f : Z) :
  0 <= i -> 0 <= f ->
  startsWith isDigit (magnitudeText i f) = true /\
  allChars ArduinoJson.canBeInNumber (magnitudeText i f) = true.
Proof.
  intros Hi Hf. unfold magnitudeText.
  destruct (writeUnsigned_spec i Hi) as (Ua & _ & Us).
  split.
  - destruct (ArduinoJson.writeUnsigned i); [discriminate Us | exact Us].
  - rewrite allChars_app, (digits_are_number_chars _ Ua).
    destruct (f =? 0); [reflexivity|].
    destruct (fixedDigits_spec 9 f Hf) as (Da & _ & _).
    destruct (stripTrailingZeros_spec _ Da) as (Sa & _ & _).
    cbn [allChars andb]. rewrite (digits_are_number_chars _ Sa).
    reflexivity.
Qed.

Lemma readSign_digit (s : string) :
  startsWith isDigit s = true -> ArduinoJson.readSign s = (false, s).
Proof.
  destruct s as [|c r]; [discriminate|]. cbn [startsWith]. intros Hc.
  destruct (digit_is_plain c Hc) as (Hm & Hp & _).
  unfold ArduinoJson.readSign. rewrite Hm, Hp. reflexivity.
Qed.

(** A value of at most nine decimals, written by [writeFloat], is read
    back by [parseNumber] as the same value. *)
Lemma parseNumber_writeFloat (x : Q) (N : Z) :
  0 <= N ->
  (Qabs x == N # 1000000000)%Q ->
  exists v : ArduinoJson.JsonVariant,
    ArduinoJson.parseNumber (ArduinoJson.writeFloat x) = Some v /\
    (ArduinoJson.as_float v == x)%Q /\
    allChars ArduinoJson.canBeInNumber (ArduinoJson.writeFloat x) = true /\
    startsWith (fun c => isDigit c || (c =? "-")%char)
               (ArduinoJson.writeFloat x) = true.
Proof.
  intros HN Hx. rewrite writeFloat_text, (floatParts_scaled _ N HN Hx).
  cbn [fst snd].
  pose proof (Z.mod_pos_bound N (10 ^ 9) ltac:(lia)) as Hf.
  assert (Hi : 0 <= N / 10 ^ 9) by (apply Z.div_pos; lia).
  destruct (magnitudeText_chars _ _ Hi (proj1 Hf)) as [Hstart Hchars].
  destruct (parseMagnitude_text (Qnum x <? 0) _ _ Hi Hf)
    as (v & Hv & Hval & Hasf & _).
  exists v. split; [|split; [|split]].
  - unfold ArduinoJson.parseNumber.
    destruct (Qnum x <? 0).
    + cbn [append ArduinoJson.readSign Ascii.eqb Bool.eqb]. exact Hv.
    + cbn [append]. rewrite (readSign_digit _ Hstart). exact Hv.
  - rewrite Hasf, Hval. rewrite (Qabs_signed x) at 2.
    apply signed_comp. rewrite Hx.
    pose proof (Z.div_mod N (10 ^ 9) ltac:(lia)) as Hdm.
    change (10 ^ 9) with 1000000000 in *.
    unfold Qeq, Qplus, inject_Z. cbn [Qnum Qden]. lia.
  - destruct (Qnum x <? 0); cbn [append allChars]; [|exact Hchars].
    rewrite Hchars. reflexivity.
  - destruct (Qnum x <? 0); cbn [append startsWith]; [reflexivity|].
    destruct (magnitudeText _ _) as [|c r]; [discriminate|].
    cbn [startsWith] in *. rewrite Hstart. reflexivity.
Qed.

Lemma parseNumber_writeInteger (n : Z) :
  ArduinoJson.parseNumber (ArduinoJson.writeInteger n)
    = Some (ArduinoJson.JInteger n) /\
  allChars ArduinoJson.canBeInNumber (ArduinoJson.writeInteger n) = true /\
  startsWith (fun c => isDigit c || (c =? "-")%char)
             (ArduinoJson.writeInteger n) = true.
Proof.
  unfold ArduinoJson.writeInteger, ArduinoJson.parseNumber.
  destruct (n <? 0) eqn:Hn; [apply Z.ltb_lt in Hn | apply Z.ltb_ge in Hn].
  - destruct (writeUnsigned_spec (- n) ltac:(lia)) as (Ua & Uv & Us).
    cbn [ArduinoJson.readSign Ascii.eqb Bool.eqb allChars startsWith].
    rewrite (digits_are_number_chars _ Ua).
    split; [|split; reflexivity].
    destruct (ArduinoJson.writeUnsigned (- n)) as [|c0 U'] eqn:HU;
      [discriminate Us|].
    cbn [startsWith] in Us. unfold ArduinoJson.parseMagnitude.
    rewrite Us. cbn [orb].
    pose proof (readDigits_run (String c0 U') "" 0 0 Ua eq_refl) as HR.
    rewrite string_app_nil in HR. rewrite HR, Uv.
    unfold ArduinoJson.applySign. f_equal. f_equal. lia.
  - destruct (writeUnsigned_spec n Hn) as (Ua & Uv & Us).
    rewrite (readSign_digit _ Us), (digits_are_number_chars _ Ua).
    split; [|split; [reflexivity|]].
    + destruct (ArduinoJson.writeUnsigned n) as [|c0 U'] eqn:HU;
        [discriminate Us|].
      cbn [startsWith] in Us. unfold ArduinoJson.parseMagnitude.
      rewrite Us. cbn [orb].
      pose proof (readDigits_run (String c0 U') "" 0 0 Ua eq_refl) as HR.
      rewrite string_app_nil in HR. rewrite HR, Uv. reflexivity.
    + destruct (ArduinoJson.writeUnsigned n) as [|c0 U'];
        [discriminate Us|].
      cbn [startsWith] in *. rewrite Us. reflexivity.
Qed.

Lemma Qnum_sign_comp (x y : Q) : (x == y)%Q -> (Qnum x <? 0) = (Qnum y <? 0).
Proof.
  unfold Qeq. intros H.
  destruct (Qnum x <? 0) eqn:Hx; destruct (Qnum y <? 0) eqn:Hy;
    try reflexivity;
    [apply Z.ltb_lt in Hx; apply Z.ltb_ge in Hy
    |apply Z.ltb_ge in Hx; apply Z.ltb_lt in Hy]; nia.
Qed.

Lemma floatParts_comp (a b : Q) :
  (a == b)%Q -> ArduinoJson.floatParts a = ArduinoJson.floatParts b.
Proof.
  intros H. unfold ArduinoJson.floatParts.
  rewrite (Qfloor_comp _ _ H).
  assert (Hr : ((a - inject_Z (Qfloor b)) * inject_Z (10 ^ 9) + (1 # 2)
                == (b - inject_Z (Qfloor b)) * inject_Z (10 ^ 9) + (1 # 2))%Q)
    by (rewrite H; reflexivity).
  rewrite (Qfloor_comp _ _ Hr). reflexivity.
Qed.

(** The text of a number depends on its value only. *)
Lemma writeFloat_comp (x y : Q) :
  (x == y)%Q -> ArduinoJson.writeFloat x = ArduinoJson.writeFloat y.
Proof.
  intros H. unfold ArduinoJson.writeFloat.
  assert (Ha : (Qabs x == Qabs y)%Q) by (rewrite H; reflexivity).
  rewrite (floatParts_comp _ _ Ha), (Qnum_sign_comp _ _ H). reflexivity.
Qed.

(** The parts of a value that is within half a unit of the ninth decimal
    of a number of at most nine decimals: those of that number. *)
Lemma floatParts_near (a : Q) (N : Z) :
  0 <= N -> (0 <= a)%Q ->
  (Qabs (a - (N # 1000000000)) < 1 # 2000000000)%Q ->
  ArduinoJson.floatParts a = (N / 10 ^ 9, N mod 10 ^ 9).
Proof.
  intros HN Ha Hnear.
  pose proof (Z.div_mod N (10 ^ 9) ltac:(lia)) as Hdm.
  pose proof (Z.mod_pos_bound N (10 ^ 9) ltac:(lia)) as Hf.
  set (i := N / 10 ^ 9) in *. set (f := N mod 10 ^ 9) in *.
  clearbody i f. change (10 ^ 9) with 1000000000 in *.
  assert (HNq : (N # 1000000000
                 == inject_Z i + inject_Z f * (1 # 1000000000))%Q).
  { subst N. unfold Qeq, Qplus, Qmult, inject_Z. cbn [Qnum Qden].
    rewrite ?Pos2Z.inj_mul. lia. }
  rewrite HNq in Hnear.
  assert (Hnear' : (- (1 # 2000000000)
                    < a - (inject_Z i + inject_Z f * (1 # 1000000000)) /\
                    a - (inject_Z i + inject_Z f * (1 # 1000000000))
                    < 1 # 2000000000)%Q).
  { apply Qabs_Qlt_condition. exact Hnear. }
  clear Hnear HNq. destruct Hnear' as [Hlo Hhi].
  assert (Hf0 : (0 <= inject_Z f)%Q)
    by (change 0%Q with (inject_Z 0); rewrite <- Zle_Qle; lia).
  assert (Hf9 : (inject_Z f <= 999999999)%Q)
    by (change 999999999%Q with (inject_Z 999999999);
        rewrite <- Zle_Qle; lia).
  unfold ArduinoJson.floatParts. cbv zeta.
  change (10 ^ 9) with 1000000000.
  change (inject_Z 1000000000) with 1000000000%Q.
  destruct (Z.eq_dec f 0) as [Hz|Hnz].
  - subst f. change (inject_Z 0) with 0%Q in *.
    destruct (Qlt_le_dec a (inject_Z i)) as [Hbelow|Habove].
    + assert (Hi : Qfloor a = i - 1).
      { apply Qfloor_unique.
        - unfold Z.sub. rewrite inject_Z_plus, inject_Z_opp.
          change (inject_Z 1) with 1%Q.
          generalize dependent (inject_Z i). intros. lra.
        - replace (i - 1 + 1) with i by lia. exact Hbelow. }
      rewrite Hi.
      assert (Hd : Qfloor ((a - inject_Z (i - 1)) * 1000000000 + (1 # 2))
                   = 1000000000).
      { apply Qfloor_unique.
        - unfold Z.sub. rewrite inject_Z_plus, inject_Z_opp.
          change (inject_Z 1) with 1%Q.
          change (inject_Z 1000000000) with 1000000000%Q.
          generalize dependent (inject_Z i). intros. lra.
        - unfold Z.sub. rewrite inject_Z_plus, inject_Z_opp.
          change (inject_Z 1) with 1%Q.
          change (inject_Z (1000000000 + 1)) with 1000000001%Q.
          generalize dependent (inject_Z i). intros. lra. }
      rewrite Hd. change (1000000000 <=? 1000000000) with true. cbv iota.
      f_equal. lia.
    + assert (Hi : Qfloor a = i).
      { apply Qfloor_unique; [exact Habove|].
        rewrite inject_Z_plus. change (inject_Z 1) with 1%Q.
        generalize dependent (inject_Z i). intros. lra. }
      rewrite Hi.
      assert (Hd : Qfloor ((a - inject_Z i) * 1000000000 + (1 # 2)) = 0).
      { apply Qfloor_unique.
        - change (inject_Z 0) with 0%Q.
          generalize dependent (inject_Z i). intros. lra.
        - change (inject_Z (0 + 1)) with 1%Q.
          generalize dependent (inject_Z i). intros. lra. }
      rewrite Hd. reflexivity.
  - assert (Hf1 : (1 <= inject_Z f)%Q)
      by (change 1%Q with (inject_Z 1); rewrite <- Zle_Qle; lia).
    assert (Hi : Qfloor a = i).
    { apply Qfloor_unique.
      - generalize dependent (inject_Z i). generalize dependent (inject_Z f).
        intros. lra.
      - rewrite inject_Z_plus. change (inject_Z 1) with 1%Q.
        generalize dependent (inject_Z i). generalize dependent (inject_Z f).
        intros. lra. }
    rewrite Hi.
    assert (Hd : Qfloor ((a - inject_Z i) * 1000000000 + (1 # 2)) = f).
    { apply Qfloor_unique.
      - generalize dependent (inject_Z i). generalize dependent (inject_Z f).
        intros. lra.
      - rewrite inject_Z_plus. change (inject_Z 1) with 1%Q.
        generalize dependent (inject_Z i). generalize dependent (inject_Z f).
        intros. lra. }
    rewrite Hd.
    destruct (1000000000 <=? f) eqn:Hc; [apply Z.leb_le in Hc; lia|].
    reflexivity.
Qed.

(** A value close enough to a non-zero one has its sign. *)
Lemma sign_near (x y : Q) :
  (Qabs (x - y) < Qabs y)%Q -> (Qnum x <? 0) = (Qnum y <? 0).
Proof.
  intros H.
  assert (Hx : (x == signed (Qnum x <? 0) (Qabs x))%Q) by apply Qabs_signed.
  assert (Hy : (y == signed (Qnum y <? 0) (Qabs y))%Q) by apply Qabs_signed.
  pose proof (Qabs_nonneg x) as Hax. pose proof (Qabs_nonneg y) as Hay.
  apply Qabs_Qlt_condition in H. destruct H as [H1 H2].
  destruct (Qnum x <? 0); destruct (Qnum y <? 0); try reflexivity;
    cbn [signed] in Hx, Hy; exfalso;
    generalize dependent (Qabs x); generalize dependent (Qabs y);
    intros; lra.
Qed.

(** Such a value is written with the digits of that number. *)
Lemma writeFloat_near (x y : Q) (N : Z) :
  0 <= N ->
  (Qabs y == N # 1000000000)%Q ->
  (Qabs (x - y) < 1 # 2000000000)%Q ->
  (Qnum x <? 0) = (Qnum y <? 0) ->
  ArduinoJson.writeFloat x = ArduinoJson.writeFloat y.
Proof.
  intros HN Hy Hnear Hsign.
  rewrite !writeFloat_text, Hsign.
  rewrite (floatParts_scaled _ N HN Hy).
  rewrite (floatParts_near (Qabs x) N HN (Qabs_nonneg x)); [reflexivity|].
  rewrite <- Hy.
  eapply Qle_lt_trans; [|exact Hnear].
  apply Qabs_Qle_condition. split.
  - pose proof (Qabs_triangle_reverse y x) as H.
    assert (He : (Qabs (y - x) == Qabs (x - y))%Q).
    { rewrite <- (Qabs_opp (y - x)).
      assert (Ho : (- (y - x) == x - y)%Q) by ring.
      rewrite Ho. reflexivity. }
    rewrite He in H.
    generalize dependent (Qabs (x - y)). generalize dependent (Qabs x).
    generalize dependent (Qabs y). intros. lra.
  - apply Qabs_triangle_reverse.
Qed.

(* ================================================================== *)
(** * ArduinoJson: strings and objects written and read back *)
(* ================================================================== *)

Lemma writeString_app (s rest : string) :
  ArduinoJson.writeString s ++ rest =
  String dquote (ArduinoJson.escapeString s ++ String dquote rest).
Proof.
  unfold ArduinoJson.writeString. cbn [append].
  rewrite string_app_assoc. reflexivity.
Qed.

Lemma parseQuotedString_escape (s rest : string) :
  cstring s ->
  ArduinoJson.parseQuotedString dquote
    (ArduinoJson.escapeString s ++ String dquote rest)
  = ArduinoJson.Done s rest.
Proof.
  induction s as [|c s IH]; intros Hs.
  - reflexivity.
  - destruct Hs as [Hc Hs]. specialize (IH Hs).
    ascii_cases c;
      try (exfalso; apply Hc; reflexivity);
      simpl; rewrite IH; reflexivity.
Qed.

Lemma number_start_is_plain (c : ascii) :
  isDigit c || (c =? "-")%char = true ->
  ArduinoJson.isSpace c = false /\
  (c =? "[")%char = false /\ (c =? "{")%char = false /\
  ArduinoJson.isQuote c = false /\
  (c =? "t")%char = false /\ (c =? "f")%char = false /\
  (c =? "n")%char = false.
Proof.
  ascii_cases c; intros H;
    try (cbv in H; discriminate H); repeat split; reflexivity.
Qed.

Lemma span_run (p : ascii -> bool) (s : string) (sep : ascii)
      (rest : string) :
  allChars p s = true -> p sep = false ->
  ArduinoJson.span p (s ++ String sep rest) = (s, String sep rest).
Proof.
  intros Hs Hsep. induction s as [|c s IH].
  - simpl. rewrite Hsep. reflexivity.
  - cbn [allChars] in Hs. apply andb_true_iff in Hs as [Hc Hs].
    cbn [append ArduinoJson.span]. rewrite Hc, (IH Hs). reflexivity.
Qed.

Lemma parseVariant_string (fuel nesting : nat) (s rest : string) :
  cstring s ->
  ArduinoJson.parseVariant (S fuel) nesting
    (ArduinoJson.writeString s ++ rest)
  = ArduinoJson.Done (ArduinoJson.JString s) rest.
Proof.
  intros Hs. rewrite writeString_app.
  cbn [ArduinoJson.parseVariant ArduinoJson.skipSpaces].
  change (ArduinoJson.isSpace dquote) with false. cbv iota.
  change (dquote =? "[")%char with false.
  change (dquote =? "{")%char with false.
  change (ArduinoJson.isQuote dquote) with true. cbv iota.
  rewrite (parseQuotedString_escape s rest Hs). reflexivity.
Qed.

Lemma parseVariant_number (fuel nesting : nat) (text : string)
      (sep : ascii) (rest : string) :
  startsWith (fun c => isDigit c || (c =? "-")%char) text = true ->
  allChars ArduinoJson.canBeInNumber text = true ->
  ArduinoJson.canBeInNumber sep = false ->
  ArduinoJson.parseVariant (S fuel) nesting (text ++ String sep rest) =
    match ArduinoJson.parseNumber text with
    | Some v => ArduinoJson.Done v (String sep rest)
    | None => ArduinoJson.Fail ArduinoJson.InvalidInput
    end.
Proof.
  intros Hstart Hchars Hsep.
  destruct text as [|c0 text']; [discriminate Hstart|].
  cbn [startsWith] in Hstart.
  destruct (number_start_is_plain c0 Hstart)
    as (Hsp & Hb & Hc & Hq & Ht & Hf & Hn).
  cbn [append ArduinoJson.parseVariant ArduinoJson.skipSpaces].
  rewrite Hsp, Hb, Hc, Hq, Ht, Hf, Hn.
  unfold ArduinoJson.parseNumericValue.
  change (String c0 (text' ++ String sep rest))
    with (String c0 text' ++ String sep rest).
  rewrite (span_run _ _ _ _ Hchars Hsep). reflexivity.
Qed.

Lemma parseKey_writeString (key rest : string) :
  cstring key ->
  ArduinoJson.parseKey (ArduinoJson.writeString key ++ rest)
  = ArduinoJson.Done key rest.
Proof.
  intros Hk. rewrite writeString_app. unfold ArduinoJson.parseKey.
  change (ArduinoJson.isQuote dquote) with true. cbv iota.
  apply parseQuotedString_escape. exact Hk.
Qed.

(** One member of an object: key, colon, a value that is read up to a
    separator, and what the separator decides. *)
Lemma parseMembers_member (fuel nesting : nat)
      (acc : list (string * ArduinoJson.JsonVariant))
      (key text : string) (v : ArduinoJson.JsonVariant) (sep : ascii)
      (rest : string) :
  cstring key ->
  ArduinoJson.parseVariant fuel nesting (text ++ String sep rest)
    = ArduinoJson.Done v (String sep rest) ->
  ArduinoJson.isSpace sep = false ->
  ArduinoJson.parseMembers (S fuel) nesting acc
    (ArduinoJson.writeString key ++ String ":" (text ++ String sep rest)) =
    if (sep =? "}")%char then
      ArduinoJson.Done
        (ArduinoJson.JObject (ArduinoJson.replace key v acc)) rest
    else if (sep =? ",")%char then
      match ArduinoJson.skipSpaces rest with
      | EmptyString => ArduinoJson.Fail ArduinoJson.IncompleteInput
      | String c r =>
          ArduinoJson.parseMembers fuel nesting
            (ArduinoJson.replace key v acc) (String c r)
      end
    else ArduinoJson.Fail ArduinoJson.InvalidInput.
Proof.
  intros Hk Hv Hsep.
  cbn [ArduinoJson.parseMembers].
  rewrite (parseKey_writeString key _ Hk).
  cbn [ArduinoJson.skipSpaces].
  change (ArduinoJson.isSpace ":") with false. cbv iota.
  change (":" =? ":")%char with true. cbv iota.
  rewrite Hv. cbn [ArduinoJson.skipSpaces]. rewrite Hsep.
  reflexivity.
Qed.

Lemma serialize_compactDoc (id : string) (t v : Q) (r : Z) :
  ArduinoJson.serialize (Node.compactDoc id t v r) =
    String "{"
      (ArduinoJson.writeString "id" ++ String ":"
      (ArduinoJson.writeString id ++ String ","
      (ArduinoJson.writeString "t" ++ String ":"
      (ArduinoJson.writeFloat (Node.round1 t) ++ String ","
      (ArduinoJson.writeString "v" ++ String ":"
      (ArduinoJson.writeFloat (Node.round3 v) ++ String ","
      (ArduinoJson.writeString "r" ++ String ":"
      (ArduinoJson.writeInteger r ++ String "}" "")))))))).
Proof.
  unfold Node.compactDoc.
  cbn [ArduinoJson.set ArduinoJson.replace String.eqb Ascii.eqb Bool.eqb
       ArduinoJson.serialize].
  repeat first [ rewrite string_app_assoc | rewrite string_app_nil
               | progress cbn [append] ].
  reflexivity.
Qed.

Lemma readsAs_string (s : string) :
  cstring s -> readsAs (ArduinoJson.writeString s) (ArduinoJson.JString s).
Proof. intros Hs fuel nesting sep rest _. apply parseVariant_string, Hs. Qed.

Lemma readsAs_number (text : string) (v : ArduinoJson.JsonVariant) :
  ArduinoJson.parseNumber text = Some v ->
  allChars ArduinoJson.canBeInNumber text = true ->
  startsWith (fun c => isDigit c || (c =? "-")%char) text = true ->
  readsAs text v.
Proof.
  intros Hp Hc Hs fuel nesting sep rest Hsep.
  rewrite (parseVariant_number fuel nesting text sep rest Hs Hc),  Hp;
    [reflexivity|].
  destruct Hsep as [-> | ->]; reflexivity.
Qed.

Lemma parseMembers_next (fuel nesting : nat)
      (acc : list (string * ArduinoJson.JsonVariant))
      (key text : string) (v : ArduinoJson.JsonVariant)
      (key' rest : string) :
  cstring key -> readsAs text v ->
  ArduinoJson.parseMembers (S (S fuel)) nesting acc
    (ArduinoJson.writeString key ++ String ":"
       (text ++ String "," (ArduinoJson.writeString key' ++ rest))) =
  ArduinoJson.parseMembers (S fuel) nesting
    (ArduinoJson.replace key v acc) (ArduinoJson.writeString key' ++ rest).
Proof.
  intros Hk Hv.
  rewrite (parseMembers_member (S fuel) nesting acc key text v ","%char
             (ArduinoJson.writeString key' ++ rest) Hk
             (Hv fuel nesting ","%char _ (or_introl eq_refl)) eq_refl).
  change ("," =? "}")%char with false. change ("," =? ",")%char with true.
  cbv iota. rewrite writeString_app. reflexivity.
Qed.

Lemma parseMembers_last (fuel nesting : nat)
      (acc : list (string * ArduinoJson.JsonVariant))
      (key text : string) (v : ArduinoJson.JsonVariant) (rest : string) :
  cstring key -> readsAs text v ->
  ArduinoJson.parseMembers (S (S fuel)) nesting acc
    (ArduinoJson.writeString key ++ String ":" (text ++ String "}" rest)) =
  ArduinoJson.Done (ArduinoJson.JObject (ArduinoJson.replace key v acc)) rest.
Proof.
  intros Hk Hv.
  rewrite (parseMembers_member (S fuel) nesting acc key text v "}"%char
             rest Hk (Hv fuel nesting "}"%char _ (or_intror eq_refl))
             eq_refl).
  reflexivity.
Qed.

Lemma parseVariant_object (fuel nesting : nat) (key rest : string) :
  ArduinoJson.parseVariant (S fuel) (S nesting)
    (String "{" (ArduinoJson.writeString key ++ rest)) =
  ArduinoJson.parseMembers fuel nesting []
    (ArduinoJson.writeString key ++ rest).
Proof. rewrite writeString_app. reflexivity. Qed.

(** An object of four members, each value one that is read back. *)
Lemma parse_four_members (fuel nesting : nat)
      (k1 k2 k3 k4 t1 t2 t3 t4 : string)
      (v1 v2 v3 v4 : ArduinoJson.JsonVariant) :
  cstring k1 -> cstring k2 -> cstring k3 -> cstring k4 ->
  readsAs t1 v1 -> readsAs t2 v2 -> readsAs t3 v3 -> readsAs t4 v4 ->
  ArduinoJson.parseVariant (6 + fuel) (S nesting)
    (String "{"
      (ArduinoJson.writeString k1 ++ String ":" (t1 ++ String ","
      (ArduinoJson.writeString k2 ++ String ":" (t2 ++ String ","
      (ArduinoJson.writeString k3 ++ String ":" (t3 ++ String ","
      (ArduinoJson.writeString k4 ++ String ":" (t4 ++ String "}" "")))))))))
  = ArduinoJson.Done
      (ArduinoJson.JObject
         (ArduinoJson.replace k4 v4
            (ArduinoJson.replace k3 v3
               (ArduinoJson.replace k2 v2
                  (ArduinoJson.replace k1 v1 []))))) "".
Proof.
  intros K1 K2 K3 K4 R1 R2 R3 R4.
  change (6 + fuel)%nat with (S (S (S (S (S (S fuel)))))).
  rewrite parseVariant_object.
  rewrite (parseMembers_next _ _ _ k1 t1 v1 k2 _ K1 R1).
  rewrite (parseMembers_next _ _ _ k2 t2 v2 k3 _ K2 R2).
  rewrite (parseMembers_next _ _ _ k3 t3 v3 k4 _ K3 R3).
  apply (parseMembers_last _ _ _ k4 t4 v4 "" K4 R4).
Qed.

(* ================================================================== *)
(** * ArduinoJson: the parser's fuel *)
(* ================================================================== *)

Section ParserFuel.
Import ArduinoJson.

Lemma skipSpaces_length (s : string) :
  (String.length (skipSpaces s) <= String.length s)%nat.
Proof.
  induction s as [|c r IH]; simpl; [lia|].
  destruct (isSpace c); simpl; lia.
Qed.

Lemma parseQuotedString_consumes (stop : ascii) (n : nat) :
  forall (s str rest : string),
    (String.length s <= n)%nat ->
    parseQuotedString stop s = Done str rest ->
    (String.length rest < String.length s)%nat.
Proof.
  induction n as [|n IH]; intros s str rest Hn H.
  - destruct s; [discriminate H | simpl in Hn; lia].
  - destruct s as [|c r]; [discriminate H|].
    cbn [parseQuotedString] in H. cbn [String.length] in *.
    destruct (c =? stop)%char.
    + injection H as _ <-. lia.
    + destruct (c =? "000")%char; [discriminate H|].
      destruct (c =? backslash)%char.
      * destruct r as [|e r']; [discriminate H|].
        destruct (e =? "u")%char; [discriminate H|].
        destruct (unescapeChar e); [|discriminate H].
        destruct (parseQuotedString stop r') as [str' rest'|] eqn:Hrec;
          [|discriminate H].
        injection H as _ <-. cbn [String.length] in *.
        specialize (IH r' str' rest' ltac:(lia) Hrec). lia.
      * destruct (parseQuotedString stop r) as [str' rest'|] eqn:Hrec;
          [|discriminate H].
        injection H as _ <-.
        specialize (IH r str' rest' ltac:(lia) Hrec). lia.
Qed.

Lemma span_length (p : ascii -> bool) (s : string) :
  (String.length (fst (span p s)) + String.length (snd (span p s))
   = String.length s)%nat.
Proof.
  induction s as [|c r IH]; [reflexivity|].
  cbn [span]. destruct (p c); [|reflexivity].
  destruct (span p r) as [a b]. cbn [fst snd String.length] in *. lia.
Qed.

Lemma skipKeyword_consumes (keyword s rest : string) (u : unit) :
  skipKeyword keyword s = Done u rest ->
  (String.length rest + String.length keyword = String.length s)%nat.
Proof.
  revert s; induction keyword as [|k kw IH]; intros s H.
  - cbn in H. injection H as _ <-. simpl. lia.
  - destruct s as [|c r]; [discriminate H|]. cbn [skipKeyword] in H.
    destruct (c =? k)%char; [|discriminate H].
    specialize (IH _ H). cbn [String.length]. lia.
Qed.

Lemma parseKey_consumes (s key rest : string) :
  parseKey s = Done key rest ->
  (String.length rest < String.length s)%nat.
Proof.
  unfold parseKey. destruct s as [|c r]; [discriminate|].
  destruct (isQuote c).
  - intros H. cbn [String.length].
    pose proof (parseQuotedString_consumes c _ r key rest (le_n _) H). lia.
  - unfold parseNonQuotedString.
    pose proof (span_length canBeInNonQuotedString (String c r)) as Hl.
    destruct (span canBeInNonQuotedString (String c r)) as [a b].
    cbn [fst snd] in Hl. destruct a as [|a0 a']; [discriminate|].
    intros H; injection H as _ <-. cbn [String.length] in *. lia.
Qed.

Lemma parseNumericValue_consumes (s : string) (v : JsonVariant)
      (rest : string) :
  parseNumericValue s = Done v rest ->
  (String.length rest < String.length s)%nat.
Proof.
  unfold parseNumericValue.
  pose proof (span_length canBeInNumber s) as Hl.
  destruct (span canBeInNumber s) as [a b]. cbn [fst snd] in Hl.
  destruct a as [|a0 a'].
  - cbn. discriminate.
  - destruct (parseNumber (String a0 a')); [|discriminate].
    intros H; injection H as _ <-. cbn [String.length] in *. lia.
Qed.

Lemma parseLiteral_consumes (keyword : string) (v w : JsonVariant)
      (s rest : string) :
  keyword <> "" ->
  parseLiteral keyword v s = Done w rest ->
  (String.length rest < String.length s)%nat.
Proof.
  unfold parseLiteral. intros Hk.
  destruct (skipKeyword keyword s) as [u r|] eqn:Hs; [|discriminate].
  intros H; injection H as _ <-.
  pose proof (skipKeyword_consumes _ _ _ _ Hs).
  destruct keyword; [contradiction | cbn [String.length] in *; lia].
Qed.

Lemma parse_consumes (fuel : nat) :
  (forall n s v rest,
      parseVariant fuel n s = Done v rest ->
      (String.length rest < String.length s)%nat) /\
  (forall n acc s v rest,
      parseElements fuel n acc s = Done v rest ->
      (String.length rest < String.length s)%nat) /\
  (forall n acc s v rest,
      parseMembers fuel n acc s = Done v rest ->
      (String.length rest < String.length s)%nat).
Proof.
  induction fuel as [|f (IHv & IHe & IHm)].
  - repeat split; intros; discriminate.
  - split; [|split].
    + intros n s v rest H. cbn [parseVariant] in H.
      pose proof (skipSpaces_length s) as Hs.
      destruct (skipSpaces s) as [|c r]; [discriminate H|].
      cbn [String.length] in Hs.
      destruct (c =? "[")%char.
      { destruct n as [|n']; [discriminate H|].
        pose proof (skipSpaces_length r) as Hr.
        destruct (skipSpaces r) as [|c1 r1]; [discriminate H|].
        destruct (c1 =? "]")%char.
        - injection H as _ <-. cbn [String.length] in *. lia.
        - apply IHe in H. lia. }
      destruct (c =? "{")%char.
      { destruct n as [|n']; [discriminate H|].
        pose proof (skipSpaces_length r) as Hr.
        destruct (skipSpaces r) as [|c1 r1]; [discriminate H|].
        destruct (c1 =? "}")%char.
        - injection H as _ <-. cbn [String.length] in *. lia.
        - apply IHm in H. lia. }
      destruct (isQuote c).
      { destruct (parseQuotedString c r) as [str rest'|] eqn:Hq;
          [|discriminate H].
        injection H as _ <-.
        pose proof (parseQuotedString_consumes c _ r str rest' (le_n _) Hq).
        lia. }
      destruct (c =? "t")%char.
      { apply parseLiteral_consumes in H;
          [cbn [String.length] in H; lia | discriminate]. }
      destruct (c =? "f")%char.
      { apply parseLiteral_consumes in H;
          [cbn [String.length] in H; lia | discriminate]. }
      destruct (c =? "n")%char.
      { apply parseLiteral_consumes in H;
          [cbn [String.length] in H; lia | discriminate]. }
      apply parseNumericValue_consumes in H. cbn [String.length] in H. lia.
    + intros n acc s v rest H. cbn [parseElements] in H.
      destruct (parseVariant f n s) as [v1 rest1|] eqn:Hv; [|discriminate H].
      apply IHv in Hv.
      pose proof (skipSpaces_length rest1) as Hs.
      destruct (skipSpaces rest1) as [|c r]; [discriminate H|].
      cbn [String.length] in Hs.
      destruct (c =? "]")%char.
      * injection H as _ <-. lia.
      * destruct (c =? ",")%char; [|discriminate H].
        apply IHe in H. lia.
    + intros n acc s v rest H. cbn [parseMembers] in H.
      destruct (parseKey s) as [key rest1|] eqn:Hk; [|discriminate H].
      apply parseKey_consumes in Hk.
      pose proof (skipSpaces_length rest1) as Hs.
      destruct (skipSpaces rest1) as [|c r]; [discriminate H|].
      cbn [String.length] in Hs.
      destruct (c =? ":")%char; [|discriminate H].
      destruct (parseVariant f n r) as [v1 rest2|] eqn:Hv; [|discriminate H].
      apply IHv in Hv.
      pose proof (skipSpaces_length rest2) as Hs2.
      destruct (skipSpaces rest2) as [|c' r']; [discriminate H|].
      cbn [String.length] in Hs2.
      destruct (c' =? "}")%char.
      * injection H as _ <-. lia.
      * destruct (c' =? ",")%char; [|discriminate H].
        pose proof (skipSpaces_length r') as Hs3.
        destruct (skipSpaces r') as [|c'' r'']; [discriminate H|].
        apply IHm in H. lia.
Qed.

(** Beyond twice the length of the input, more fuel changes nothing. *)
Lemma parse_fuel (fuel : nat) :
  (forall fuel' n s,
      (2 * String.length s + 1 <= fuel)%nat ->
      (2 * String.length s + 1 <= fuel')%nat ->
      parseVariant fuel n s = parseVariant fuel' n s) /\
  (forall fuel' n acc s,
      (2 * String.length s + 2 <= fuel)%nat ->
      (2 * String.length s + 2 <= fuel')%nat ->
      parseElements fuel n acc s = parseElements fuel' n acc s) /\
  (forall fuel' n acc s,
      (2 * String.length s + 1 <= fuel)%nat ->
      (2 * String.length s + 1 <= fuel')%nat ->
      parseMembers fuel n acc s = parseMembers fuel' n acc s).
Proof.
  induction fuel as [|f (IHv & IHe & IHm)].
  - repeat split; intros; lia.
  - split; [|split].
    + intros [|f'] n s Hf Hf'; [lia|]. cbn [parseVariant].
      pose proof (skipSpaces_length s) as Hs.
      destruct (skipSpaces s) as [|c r]; [reflexivity|].
      cbn [String.length] in Hs.
      destruct (c =? "[")%char.
      { destruct n as [|n']; [reflexivity|].
        pose proof (skipSpaces_length r) as Hr.
        destruct (skipSpaces r) as [|c1 r1]; [reflexivity|].
        destruct (c1 =? "]")%char; [reflexivity|].
        apply IHe; lia. }
      destruct (c =? "{")%char.
      { destruct n as [|n']; [reflexivity|].
        pose proof (skipSpaces_length r) as Hr.
        destruct (skipSpaces r) as [|c1 r1]; [reflexivity|].
        destruct (c1 =? "}")%char; [reflexivity|].
        apply IHm; lia. }
      reflexivity.
    + intros [|f'] n acc s Hf Hf'; [lia|]. cbn [parseElements].
      rewrite (IHv f' n s) by lia.
      destruct (parseVariant f' n s) as [v1 rest1|] eqn:Hv; [|reflexivity].
      apply (proj1 (parse_consumes f')) in Hv.
      pose proof (skipSpaces_length rest1) as Hs.
      destruct (skipSpaces rest1) as [|c r]; [reflexivity|].
      cbn [String.length] in Hs.
      destruct (c =? "]")%char; [reflexivity|].
      destruct (c =? ",")%char; [|reflexivity].
      apply IHe; lia.
    + intros [|f'] n acc s Hf Hf'; [lia|]. cbn [parseMembers].
      destruct (parseKey s) as [key rest1|] eqn:Hk; [|reflexivity].
      apply parseKey_consumes in Hk.
      pose proof (skipSpaces_length rest1) as Hs.
      destruct (skipSpaces rest1) as [|c r]; [reflexivity|].
      cbn [String.length] in Hs.
      destruct (c =? ":")%char; [|reflexivity].
      rewrite (IHv f' n r) by lia.
      destruct (parseVariant f' n r) as [v1 rest2|] eqn:Hv; [|reflexivity].
      apply (proj1 (parse_consumes f')) in Hv.
      pose proof (skipSpaces_length rest2) as Hs2.
      destruct (skipSpaces rest2) as [|c' r']; [reflexivity|].
      cbn [String.length] in Hs2.
      destruct (c' =? "}")%char; [reflexivity|].
      destruct (c' =? ",")%char; [|reflexivity].
      pose proof (skipSpaces_length r') as Hs3.
      destruct (skipSpaces r') as [|c'' r'']; [reflexivity|].
      apply IHm; lia.
Qed.

(** The fuel [deserializeJson] grants is enough: with any larger amount
    the parser gives the same answer. *)
Lemma deserializeJson_fuel (input : string) (more : nat) :
  parseVariant (2 * String.length input + 2 + more) NESTING_LIMIT input =
  parseVariant (2 * String.length input + 2) NESTING_LIMIT input.
Proof. apply (proj1 (parse_fuel _)); lia. Qed.

End ParserFuel.

(* ================================================================== *)
(** * Node to gateway: the compact payload *)
(* ================================================================== *)

Lemma tenths_scaled (k : Z) :
  (Qabs (k # 10) == (Z.abs k * 10 ^ 8) # 1000000000)%Q.
Proof.
  unfold Qabs, Qeq. cbn [Qnum Qden]. change (10 ^ 8) with 100000000. lia.
Qed.

Lemma thousandths_scaled (m : Z) :
  (Qabs (m # 1000) == (Z.abs m * 10 ^ 6) # 1000000000)%Q.
Proof.
  unfold Qabs, Qeq. cbn [Qnum Qden]. change (10 ^ 6) with 1000000. lia.
Qed.

(** For samples of magnitude up to a million the [float] product stays
    within one unit of ten (a thousand) million. *)
Lemma tenths_bound (t : Q) :
  (Qabs t <= 1000000)%Q -> Z.abs (tenths t) <= 10000001.
Proof.
  intros Ht. unfold tenths. apply round_bound.
  change (inject_Z 10000001) with 10000001%Q.
  pose proof (binary32_error (t * 10)) as Hp.
  rewrite Qabs_Qmult in Hp. change (Qabs 10) with 10%Q in Hp.
  destruct (Qabs_bounds t) as (B1 & B2 & B3).
  apply Qabs_Qle_condition in Hp. apply Qabs_Qle_condition.
  generalize dependent (Float.binary32 (t * 10)).
  generalize dependent (Qabs t). intros. split; lra.
Qed.

Lemma thousandths_bound (v : Q) :
  (Qabs v <= 1000000)%Q -> Z.abs (thousandths v) <= 1000000060.
Proof.
  intros Hv. unfold thousandths. apply round_bound.
  change (inject_Z 1000000060) with 1000000060%Q.
  pose proof (binary32_error (v * 1000)) as Hp.
  rewrite Qabs_Qmult in Hp. change (Qabs 1000) with 1000%Q in Hp.
  destruct (Qabs_bounds v) as (B1 & B2 & B3).
  apply Qabs_Qle_condition in Hp. apply Qabs_Qle_condition.
  generalize dependent (Float.binary32 (v * 1000)).
  generalize dependent (Qabs v). intros. split; lra.
Qed.

Lemma Qabs_inject_Z (k : Z) : Qabs (inject_Z k) = inject_Z (Z.abs k).
Proof. reflexivity. Qed.

(** The [double] quotient the node stores is the decimal it stands for,
    up to the rounding of the quotient. *)
Lemma round1_near (t : Q) :
  (Qabs t <= 1000000)%Q ->
  (Qabs (Node.round1 t - (tenths t # 10)) <= 1 # 4000000000)%Q.
Proof.
  intros Ht. pose proof (tenths_bound t Ht) as Hb.
  unfold Node.round1. fold (tenths t).
  pose proof (binary64_error (inject_Z (tenths t) / 10)) as He.
  assert (Hq : (tenths t # 10 == inject_Z (tenths t) / 10)%Q).
  { rewrite Qmake_scaled. unfold Qdiv. change (/ 10)%Q with (1 # 10)%Q.
    reflexivity. }
  rewrite Hq.
  assert (Ha : (Qabs (inject_Z (tenths t) / 10) <= 10000001 # 10)%Q).
  { unfold Qdiv. rewrite Qabs_Qmult, Qabs_inject_Z.
    change (Qabs (/ 10)) with (1 # 10)%Q.
    assert (Hz : (inject_Z (Z.abs (tenths t)) <= 10000001)%Q)
      by (change 10000001%Q with (inject_Z 10000001);
          rewrite <- Zle_Qle; exact Hb).
    generalize dependent (inject_Z (Z.abs (tenths t))). intros. lra. }
  eapply Qle_trans; [exact He|].
  generalize dependent (Qabs (inject_Z (tenths t) / 10)). intros. lra.
Qed.

Lemma round3_near (v : Q) :
  (Qabs v <= 1000000)%Q ->
  (Qabs (Node.round3 v - (thousandths v # 1000)) <= 1 # 4000000000)%Q.
Proof.
  intros Hv. pose proof (thousandths_bound v Hv) as Hb.
  unfold Node.round3. fold (thousandths v).
  pose proof (binary64_error (inject_Z (thousandths v) / 1000)) as He.
  assert (Hq : (thousandths v # 1000 == inject_Z (thousandths v) / 1000)%Q).
  { rewrite Qmake_scaled. unfold Qdiv.
    change (/ 1000)%Q with (1 # 1000)%Q. reflexivity. }
  rewrite Hq.
  assert (Ha : (Qabs (inject_Z (thousandths v) / 1000)
                <= 1000000060 # 1000)%Q).
  { unfold Qdiv. rewrite Qabs_Qmult, Qabs_inject_Z.
    change (Qabs (/ 1000)) with (1 # 1000)%Q.
    assert (Hz : (inject_Z (Z.abs (thousandths v)) <= 1000000060)%Q)
      by (change 1000000060%Q with (inject_Z 1000000060);
          rewrite <- Zle_Qle; exact Hb).
    generalize dependent (inject_Z (Z.abs (thousandths v))). intros. lra. }
  eapply Qle_trans; [exact He|].
  generalize dependent (Qabs (inject_Z (thousandths v) / 1000)).
  intros. lra.
Qed.

Lemma strip_zero (s : string) :
  ArduinoJson.stripTrailingZeros (s ++ "0") = ArduinoJson.stripTrailingZeros s.
Proof.
  induction s as [|c r IH]; [reflexivity|].
  cbn [append ArduinoJson.stripTrailingZeros]. rewrite IH. reflexivity.
Qed.

Lemma strip_fixedDigits_scaled (b w : nat) (n : Z) :
  ArduinoJson.stripTrailingZeros
    (ArduinoJson.fixedDigits (b + w) (n * 10 ^ Z.of_nat b)) =
  ArduinoJson.stripTrailingZeros (ArduinoJson.fixedDigits w n).
Proof.
  induction b as [|b IH].
  - cbn [Nat.add Z.of_nat]. rewrite Z.pow_0_r, Z.mul_1_r. reflexivity.
  - cbn [Nat.add ArduinoJson.fixedDigits].
    rewrite Nat2Z.inj_succ, Z.pow_succ_r by lia.
    replace (n * (10 * 10 ^ Z.of_nat b)) with (n * 10 ^ Z.of_nat b * 10)
      by ring.
    rewrite Z.div_mul, Z.mod_mul by lia.
    change (digitChar 0) with "0"%char.
    change (String "0" "") with "0".
    rewrite strip_zero. exact IH.
Qed.

Lemma writeFloat_tenths (k : Z) :
  ArduinoJson.writeFloat (k # 10) = oneDecimal k.
Proof.
  unfold oneDecimal. rewrite writeFloat_text.
  rewrite (floatParts_scaled _ (Z.abs k * 10 ^ 8) ltac:(lia)
             (tenths_scaled k)).
  cbn [fst snd Qnum]. unfold magnitudeText.
  change (10 ^ 9) with (10 * 10 ^ 8).
  rewrite Z.div_mul_cancel_r, Z.mul_mod_distr_r by lia.
  pose proof (Z.mod_pos_bound (Z.abs k) 10 ltac:(lia)) as Hd.
  f_equal. f_equal.
  destruct (Z.abs k mod 10 =? 0) eqn:Hz.
  - apply Z.eqb_eq in Hz. rewrite Hz. reflexivity.
  - apply Z.eqb_neq in Hz.
    destruct (Z.abs k mod 10 * 10 ^ 8 =? 0) eqn:Hz';
      [apply Z.eqb_eq in Hz'; lia|].
    f_equal.
    pose proof (strip_fixedDigits_scaled 8 1 (Z.abs k mod 10)) as Hs.
    change (8 + 1)%nat with 9%nat in Hs. change (Z.of_nat 8) with 8 in Hs.
    rewrite Hs.
    cbn [ArduinoJson.fixedDigits append ArduinoJson.stripTrailingZeros].
    rewrite (Z.mod_small _ 10) by lia.
    assert (Hd9 : 0 <= Z.abs k mod 10 <= 9) by lia.
    destruct (digitChar_spec _ Hd9) as (_ & _ & He).
    rewrite He. apply Z.eqb_neq in Hz. rewrite Hz. reflexivity.
Qed.

Lemma writeFloat_thousandths (m : Z) :
  ArduinoJson.writeFloat (m # 1000) = threeDecimals m.
Proof.
  unfold threeDecimals. rewrite writeFloat_text.
  rewrite (floatParts_scaled _ (Z.abs m * 10 ^ 6) ltac:(lia)
             (thousandths_scaled m)).
  cbn [fst snd Qnum]. unfold magnitudeText.
  change (10 ^ 9) with (1000 * 10 ^ 6).
  rewrite Z.div_mul_cancel_r, Z.mul_mod_distr_r by lia.
  pose proof (Z.mod_pos_bound (Z.abs m) 1000 ltac:(lia)) as Hd.
  f_equal. f_equal.
  destruct (Z.abs m mod 1000 =? 0) eqn:Hz.
  - apply Z.eqb_eq in Hz. rewrite Hz. reflexivity.
  - apply Z.eqb_neq in Hz.
    destruct (Z.abs m mod 1000 * 10 ^ 6 =? 0) eqn:Hz';
      [apply Z.eqb_eq in Hz'; lia|].
    f_equal.
    exact (strip_fixedDigits_scaled 6 3 (Z.abs m mod 1000)).
Qed.

(** What the node writes for the temperature is the decimal text of the
    tenths it rounded to. *)
Lemma writeFloat_round1 (t : Q) :
  (Qabs t <= 1000000)%Q ->
  ArduinoJson.writeFloat (Node.round1 t)
  = ArduinoJson.writeFloat (tenths t # 10).
Proof.
  intros Ht. pose proof (round1_near t Ht) as Hn.
  destruct (Z.eq_dec (tenths t) 0) as [Hz|Hnz].
  - unfold Node.round1. fold (tenths t). rewrite Hz. reflexivity.
  - assert (Hy : (1 # 10 <= Qabs (tenths t # 10))%Q).
    { unfold Qabs, Qle. cbn [Qnum Qden]. lia. }
    apply (writeFloat_near _ _ (Z.abs (tenths t) * 10 ^ 8));
      [lia | apply tenths_scaled | |].
    + eapply Qle_lt_trans; [exact Hn|reflexivity].
    + apply sign_near. eapply Qle_lt_trans; [exact Hn|].
      eapply Qlt_le_trans; [|exact Hy]. reflexivity.
Qed.

Lemma writeFloat_round3 (v : Q) :
  (Qabs v <= 1000000)%Q ->
  ArduinoJson.writeFloat (Node.round3 v)
  = ArduinoJson.writeFloat (thousandths v # 1000).
Proof.
  intros Hv. pose proof (round3_near v Hv) as Hn.
  destruct (Z.eq_dec (thousandths v) 0) as [Hz|Hnz].
  - unfold Node.round3. fold (thousandths v). rewrite Hz. reflexivity.
  - assert (Hy : (1 # 1000 <= Qabs (thousandths v # 1000))%Q).
    { unfold Qabs, Qle. cbn [Qnum Qden]. lia. }
    apply (writeFloat_near _ _ (Z.abs (thousandths v) * 10 ^ 6));
      [lia | apply thousandths_scaled | |].
    + eapply Qle_lt_trans; [exact Hn|reflexivity].
    + apply sign_near. eapply Qle_lt_trans; [exact Hn|].
      eapply Qlt_le_trans; [|exact Hy]. reflexivity.
Qed.

(** The text of the compact document, for samples of magnitude up to a
    million. *)
Lemma serialize_compactText (id : string) (t v : Q) (rpm : Z) :
  (Qabs t <= 1000000)%Q -> (Qabs v <= 1000000)%Q ->
  ArduinoJson.serialize (Node.compactDoc id t v rpm)
  = compactText id (tenths t) (thousandths v) rpm.
Proof.
  intros Ht Hv. unfold compactText.
  rewrite serialize_compactDoc, (writeFloat_round1 t Ht),
    (writeFloat_round3 v Hv), writeFloat_tenths, writeFloat_thousandths.
  reflexivity.
Qed.

(** The compact payload, read by the gateway's parser. *)
Lemma parse_compact (fuel nesting : nat) (id : string) (t v : Q) (r : Z) :
  cstring id ->
  (Qabs t <= 1000000)%Q -> (Qabs v <= 1000000)%Q ->
  exists vt vv : ArduinoJson.JsonVariant,
    ArduinoJson.parseVariant (6 + fuel) (S nesting)
      (ArduinoJson.serialize (Node.compactDoc id t v r)) =
      ArduinoJson.Done
        (ArduinoJson.JObject
           [("id", ArduinoJson.JString id); ("t", vt); ("v", vv);
            ("r", ArduinoJson.JInteger r)]) "" /\
    (ArduinoJson.as_float vt == tenths t # 10)%Q /\
    (ArduinoJson.as_float vv == thousandths v # 1000)%Q.
Proof.
  intros Hid Ht Hv.
  destruct (parseNumber_writeFloat (tenths t # 10)
              (Z.abs (tenths t) * 10 ^ 8) ltac:(lia) (tenths_scaled _))
    as (vt & Pt & Vt & Ct & St).
  destruct (parseNumber_writeFloat (thousandths v # 1000)
              (Z.abs (thousandths v) * 10 ^ 6) ltac:(lia)
              (thousandths_scaled _))
    as (vv & Pv & Vv & Cv & Sv).
  destruct (parseNumber_writeInteger r) as (Pr & Cr & Sr).
  exists vt, vv. split; [|split; assumption].
  rewrite serialize_compactDoc, (writeFloat_round1 t Ht),
    (writeFloat_round3 v Hv).
  apply (parse_four_members fuel nesting "id" "t" "v" "r").
  - repeat split; discriminate.
  - repeat split; discriminate.
  - repeat split; discriminate.
  - repeat split; discriminate.
  - apply readsAs_string, Hid.
  - apply (readsAs_number _ _ Pt Ct St).
  - apply (readsAs_number _ _ Pv Cv Sv).
  - apply (readsAs_number _ _ Pr Cr Sr).
Qed.

(** What the gateway decodes from what the node encodes: the decimals of
    the payload, narrowed to [float]. *)
Lemma decode_encode (id : string) (t v : Q) (rpm : Z) :
  cstring id ->
  in_int_range rpm = true ->
  (Qabs t <= 1000000)%Q -> (Qabs v <= 1000000)%Q ->
  (String.length (ArduinoJson.serialize (Node.compactDoc id t v rpm))
   <= 127)%nat ->
  exists vt vv : ArduinoJson.JsonVariant,
    Gateway.decode (Node.encode id t v rpm) =
      Gateway.Reading
        (Gateway.mkReading id (Float.binary32 (ArduinoJson.as_float vt))
           (Float.binary32 (ArduinoJson.as_float vv)) rpm) /\
    (ArduinoJson.as_float vt == tenths t # 10)%Q /\
    (ArduinoJson.as_float vv == thousandths v # 1000)%Q.
Proof.
  intros Hid Hrpm Ht Hv Hfit.
  assert (Hlen : exists fuel : nat,
             (2 * String.length
                    (ArduinoJson.serialize (Node.compactDoc id t v rpm)) + 2
              = 6 + fuel)%nat).
  { rewrite serialize_compactDoc, writeString_app.
    cbn [String.length]. eexists.
    rewrite Nat.mul_succ_r, Nat.mul_succ_r.
    rewrite <- !Nat.add_assoc. cbn [Nat.add].
    rewrite (Nat.add_comm _ 6). reflexivity. }
  destruct Hlen as [fuel Hfuel].
  destruct (parse_compact fuel 9 id t v rpm Hid Ht Hv)
    as (vt & vv & Hparse & Hvt & Hvv).
  exists vt, vv. split; [|split; assumption].
  unfold Node.encode, ArduinoJson.serializeJson.
  change (128 - 1)%nat with 127%nat.
  rewrite (substring_whole _ _ Hfit).
  unfold Gateway.decode, ArduinoJson.deserializeJson.
  rewrite Hfuel. change ArduinoJson.NESTING_LIMIT with 10%nat.
  rewrite Hparse.
  rewrite serialize_compactDoc. cbn [ArduinoJson.skipSpaces].
  change (ArduinoJson.isSpace "{") with false. cbv iota.
  cbn [ArduinoJson.isEnclosed ArduinoJson.get ArduinoJson.lookup
       String.eqb Ascii.eqb Bool.eqb ArduinoJson.as_cstr
       ArduinoJson.as_int ArduinoJson.number_as_int].
  rewrite Hrpm. reflexivity.
Qed.

(** The [float] the gateway holds for the temperature is within half a
    tenth of the sample, up to three [float] roundings. *)
Lemma readback_tenths (t : Q) :
  (Qabs t <= 1000000)%Q ->
  (Qabs (Float.binary32 (tenths t # 10) - t)
   <= (1 # 20) + (Qabs t + 1) * (1 # 8388608))%Q.
Proof.
  intros Ht.
  pose proof (tenths_error t) as Hy.
  pose proof (binary32_error (tenths t # 10)) as Hr.
  destruct (Qabs_bounds t) as (B1 & B2 & B3).
  assert (Hay : (Qabs (tenths t # 10)
                 <= Qabs t + (1 # 20) + Qabs t * (1 # 16777216)
                    + (1 # 1000000000000000000000000000000))%Q).
  { apply Qabs_Qle_condition in Hy. apply Qabs_Qle_condition.
    generalize dependent (tenths t # 10). generalize dependent (Qabs t).
    intros. split; lra. }
  apply Qabs_Qle_condition in Hy, Hr. apply Qabs_Qle_condition.
  generalize dependent (Float.binary32 (tenths t # 10)).
  generalize dependent (Qabs (tenths t # 10)).
  generalize dependent (tenths t # 10). generalize dependent (Qabs t).
  intros. split; lra.
Qed.

Lemma readback_thousandths (v : Q) :
  (Qabs v <= 1000000)%Q ->
  (Qabs (Float.binary32 (thousandths v # 1000) - v)
   <= (1 # 2000) + (Qabs v + 1) * (1 # 8388608))%Q.
Proof.
  intros Hv.
  pose proof (thousandths_error v) as Hy.
  pose proof (binary32_error (thousandths v # 1000)) as Hr.
  destruct (Qabs_bounds v) as (B1 & B2 & B3).
  assert (Hay : (Qabs (thousandths v # 1000)
                 <= Qabs v + (1 # 2000) + Qabs v * (1 # 16777216)
                    + (1 # 1000000000000000000000000000000))%Q).
  { apply Qabs_Qle_condition in Hy. apply Qabs_Qle_condition.
    generalize dependent (thousandths v # 1000).
    generalize dependent (Qabs v). intros. split; lra. }
  apply Qabs_Qle_condition in Hy, Hr. apply Qabs_Qle_condition.
  generalize dependent (Float.binary32 (thousandths v # 1000)).
  generalize dependent (Qabs (thousandths v # 1000)).
  generalize dependent (thousandths v # 1000). generalize dependent (Qabs v).
  intros. split; lra.
Qed.

(* ================================================================== *)
(** * Node: the size of the payload *)
(* ================================================================== *)

Lemma escapeString_length (s : string) :
  (String.length (ArduinoJson.escapeString s) <= 2 * String.length s)%nat.
Proof.
  induction s as [|c r IH]; [simpl; lia|].
  cbn [ArduinoJson.escapeString].
  destruct (ArduinoJson.escapeChar c); cbn [String.length]; lia.
Qed.

Lemma writeDigits_length (fuel : nat) :
  forall (n : Z) (k : nat),
    0 <= n < 10 ^ Z.of_nat (S k) ->
    (String.length (ArduinoJson.writeDigits fuel n "") <= S k)%nat.
Proof.
  induction fuel as [|f IH]; intros n k Hn; [simpl; lia|].
  cbn [ArduinoJson.writeDigits].
  destruct (n / 10 =? 0) eqn:Hq; [cbn [String.length]; lia|].
  apply Z.eqb_neq in Hq.
  rewrite writeDigits_acc, append_length. cbn [String.length].
  destruct k as [|k'].
  - change (10 ^ Z.of_nat 1) with 10 in Hn.
    assert (n / 10 = 0) by (apply Z.div_small; lia). contradiction.
  - assert (Hn' : 0 <= n / 10 < 10 ^ Z.of_nat (S k')).
    { split; [apply Z.div_pos; lia|].
      apply Z.div_lt_upper_bound; [lia|].
      rewrite (Nat2Z.inj_succ (S k')), Z.pow_succ_r in Hn by lia. lia. }
    specialize (IH _ _ Hn'). lia.
Qed.

Lemma writeUnsigned_length (n : Z) (k : nat) :
  0 <= n < 10 ^ Z.of_nat (S k) ->
  (String.length (ArduinoJson.writeUnsigned n) <= S k)%nat.
Proof. apply writeDigits_length. Qed.

Lemma stripTrailingZeros_length (s : string) :
  (String.length (ArduinoJson.stripTrailingZeros s) <= String.length s)%nat.
Proof.
  induction s as [|c r IH]; [simpl; lia|].
  cbn [ArduinoJson.stripTrailingZeros].
  destruct (ArduinoJson.stripTrailingZeros r).
  - destruct (c =? "0")%char; cbn [String.length]; lia.
  - cbn [String.length] in *. lia.
Qed.

Lemma writeInteger_length (n : Z) :
  in_int_range n = true ->
  (String.length (ArduinoJson.writeInteger n) <= 11)%nat.
Proof.
  unfold in_int_range, INT_MIN, INT_MAX. intros H.
  apply andb_true_iff in H as [Hlo Hhi].
  apply Z.leb_le in Hlo, Hhi.
  unfold ArduinoJson.writeInteger. destruct (n <? 0) eqn:Hn.
  - apply Z.ltb_lt in Hn. cbn [String.length].
    pose proof (writeUnsigned_length (- n) 9). 
    change (10 ^ Z.of_nat 10) with 10000000000 in H. 
    change (2 ^ 31) with 2147483648 in *. lia.
  - apply Z.ltb_ge in Hn.
    pose proof (writeUnsigned_length n 9).
    change (10 ^ Z.of_nat 10) with 10000000000 in H.
    change (2 ^ 31) with 2147483648 in *. lia.
Qed.

Lemma writeString_length (s : string) :
  String.length (ArduinoJson.writeString s) =
  (String.length (ArduinoJson.escapeString s) + 2)%nat.
Proof.
  unfold ArduinoJson.writeString. cbn [String.length].
  rewrite append_length. cbn [String.length]. lia.
Qed.

Lemma sign_length (b : bool) :
  (String.length (if b then "-" else "") <= 1)%nat.
Proof. destruct b; simpl; lia. Qed.

Lemma scaled_round_bound (x : Q) (scale b : Z) :
  0 < scale ->
  (Qabs x <= inject_Z b)%Q ->
  Z.abs (Node.round (x * inject_Z scale)) <= b * scale.
Proof.
  intros Hs Hx. apply round_bound. rewrite inject_Z_mult.
  apply Qabs_Qle_condition in Hx as [Hlo Hhi].
  apply Qabs_Qle_condition.
  assert (Hq : (0 < inject_Z scale)%Q)
    by (change 0%Q with (inject_Z 0); rewrite <- Zlt_Qlt; exact Hs).
  generalize dependent (inject_Z scale). intros s Hq.
  generalize dependent (inject_Z b). intros B Hlo Hhi.
  split; nra.
Qed.

(** A reading of the data model, with an identity of at most 32 bytes and
    magnitudes up to a million, fits the node's payload buffer. *)
Lemma payload_fits_buffer (id : string) (t v : Q) (rpm : Z) :
  (String.length id <= 32)%nat ->
  (Qabs t <= 1000000)%Q -> (Qabs v <= 1000000)%Q ->
  in_int_range rpm = true ->
  (String.length (ArduinoJson.serialize (Node.compactDoc id t v rpm))
   <= 127)%nat.
Proof.
  intros Hid Ht Hv Hrpm.
  rewrite (serialize_compactText id t v rpm Ht Hv).
  unfold compactText, oneDecimal, threeDecimals.
  pose proof (tenths_bound t Ht) as Hk.
  pose proof (thousandths_bound v Hv) as Hm.
  set (k := tenths t) in *.
  set (m := thousandths v) in *.
  assert (Lk : (String.length
                  (ArduinoJson.writeUnsigned (Z.abs k / 10)%Z) <= 7)%nat).
  { apply (writeUnsigned_length _ 6). split; [apply Z.div_pos; lia|].
    apply Z.div_lt_upper_bound; [lia|].
    change (10 ^ Z.of_nat 7) with 10000000. lia. }
  assert (Lm : (String.length
                  (ArduinoJson.writeUnsigned (Z.abs m / 1000)%Z) <= 7)%nat).
  { apply (writeUnsigned_length _ 6). split; [apply Z.div_pos; lia|].
    apply Z.div_lt_upper_bound; [lia|].
    change (10 ^ Z.of_nat 7) with 10000000. lia. }
  assert (Fk : (String.length
                  (if (Z.abs k mod 10 =? 0)%Z then ""
                   else String "."
                          (String (digitChar (Z.abs k mod 10)%Z) ""))
                <= 2)%nat)
    by (destruct (Z.abs k mod 10 =? 0); simpl; lia).
  assert (Fm : (String.length
                  (if (Z.abs m mod 1000 =? 0)%Z then ""
                   else String "."
                          (ArduinoJson.stripTrailingZeros
                             (ArduinoJson.fixedDigits
                                3 (Z.abs m mod 1000)%Z)))
                <= 4)%nat).
  { destruct (Z.abs m mod 1000 =? 0); [simpl; lia|].
    cbn [String.length].
    pose proof (stripTrailingZeros_length
                  (ArduinoJson.fixedDigits 3 (Z.abs m mod 1000))) as Hs.
    pose proof (Z.mod_pos_bound (Z.abs m) 1000 ltac:(lia)) as Hb.
    destruct (fixedDigits_spec 3 (Z.abs m mod 1000) (proj1 Hb))
      as (_ & Hl & _).
    lia. }
  pose proof (writeInteger_length rpm Hrpm) as Lr.
  pose proof (escapeString_length id) as Le.
  pose proof (sign_length (k <? 0)) as Sk.
  pose proof (sign_length (m <? 0)) as Sm.
  cbn [String.length].
  repeat (rewrite append_length; cbn [String.length]).
  rewrite !writeString_length.
  change (String.length (ArduinoJson.escapeString "id")) with 2%nat.
  change (String.length (ArduinoJson.escapeString "t")) with 1%nat.
  change (String.length (ArduinoJson.escapeString "v")) with 1%nat.
  change (String.length (ArduinoJson.escapeString "r")) with 1%nat.
  lia.
Qed.

(* ================================================================== *)
(** * Node: what the payload carries *)
(* ================================================================== *)

(** C7, as the sketch has it.  For samples of magnitude up to a million,
    the payload is the compact text, cut to the 127 characters the buffer
    holds (whole for an identity of at most 32 characters), in which the
    temperature stands as a number of tenths, with at most one decimal,
    and the vibration as a number of thousandths, with at most three.
    The number of tenths is [round] of the [float] product of the sample
    and 10 (of thousandths: and 1000): what is sent is within half a
    tenth (half a thousandth) of the sample up to the rounding of that
    product, a relative 2^-24, and depends on nothing but the sample. *)
Theorem node_rounds_before_encoding :
  forall (id : string) (t v : Q) (rpm : Z),
    (Qabs t <= 1000000)%Q -> (Qabs v <= 1000000)%Q ->
    let k := tenths t in
    let m := thousandths v in
    Node.encode id t v rpm = substring 0 127 (compactText id k m rpm) /\
    ((String.length id <= 32)%nat -> in_int_range rpm = true ->
     Node.encode id t v rpm = compactText id k m rpm) /\
    (Qabs ((k # 10) - t)
     <= (1 # 20) + Qabs t * (1 # 16777216)
        + (1 # 1000000000000000000000000000000))%Q /\
    (Qabs ((m # 1000) - v)
     <= (1 # 2000) + Qabs v * (1 # 16777216)
        + (1 # 1000000000000000000000000000000))%Q.
Proof.
  intros id t v rpm Ht Hv k m.
  assert (He : Node.encode id t v rpm
               = substring 0 127 (compactText id k m rpm)).
  { unfold Node.encode, ArduinoJson.serializeJson.
    rewrite (serialize_compactText id t v rpm Ht Hv). reflexivity. }
  split; [exact He|]. split; [|split].
  - intros Hid Hrpm. rewrite He. apply substring_whole. subst k m.
    rewrite <- (serialize_compactText id t v rpm Ht Hv).
    apply payload_fits_buffer; assumption.
  - apply tenths_error.
  - apply thousandths_error.
Qed.

(** The node's own identity with a sample of 67.34 degrees, 0.01249 g and
    3200 rpm: the payload carries 67.3 and 0.012. *)
Lemma node_rounds_before_encoding_witness :
  compactText Node.MACHINE_ID (tenths (6734 # 100))
    (thousandths (1249 # 100000)) 3200 = Samples.lathePayload /\
  Node.encode Node.MACHINE_ID (6734 # 100) (1249 # 100000) 3200
    = compactText Node.MACHINE_ID (tenths (6734 # 100))
        (thousandths (1249 # 100000)) 3200.
Proof.
  split; [vm_compute; reflexivity|].
  refine (proj1 (proj2 (node_rounds_before_encoding Node.MACHINE_ID
                          (6734 # 100) (1249 # 100000) 3200 _ _)) _ _).
  - apply Qle_bool_iff. reflexivity.
  - apply Qle_bool_iff. reflexivity.
  - apply Nat.leb_le. reflexivity.
  - reflexivity.
Defined.

(** C7, as stated, fails: close to a rounding boundary the [float]
    product lands on the other side of it.  The [float] 67.35 is a little
    below 67.35, so to one decimal it is 67.3; the node sends 67.4.  The
    vibration the simulated sensor returns when [random] gives 5 is a
    little below 0.0055, so to three decimals it is 0.005; the node
    sends 0.006. *)
Lemma near_boundary_samples_round_the_other_way :
  (Qabs ((673 # 10) - Samples.sample6735) < 1 # 20)%Q /\
  (1 # 20 < Qabs ((674 # 10) - Samples.sample6735))%Q /\
  (Qabs ((5 # 1000) - Node.readVibration 5) < 1 # 2000)%Q /\
  (1 # 2000 < Qabs ((6 # 1000) - Node.readVibration 5))%Q /\
  Node.encode "lathe_01" Samples.sample6735 (Node.readVibration 5) 3200
    = Samples.nearTiePayload.
Proof.
  split; [apply Qlt_alt; vm_compute; reflexivity|].
  split; [apply Qlt_alt; vm_compute; reflexivity|].
  split; [apply Qlt_alt; vm_compute; reflexivity|].
  split; [apply Qlt_alt; vm_compute; reflexivity|].
  vm_compute. reflexivity.
Qed.

(* ================================================================== *)
(** * Node to gateway: round trip *)
(* ================================================================== *)

(** C1, as the sketches have it.  Round trip from the node to the
    gateway.  For an identity that is a C string, an rpm that is an
    [int], samples of magnitude up to a million and a reading whose
    compact text fits the node's payload buffer of 128 bytes (the size
    budget the sketch reserves; an identity of at most 32 bytes fits,
    [payload_fits_buffer]), the gateway decodes what the node encodes to
    a reading with the same identity and rpm.  Its temperature is the
    [float] nearest to the tenths the node sent and its vibration the
    [float] nearest to the thousandths: they differ from the samples by
    at most 0.05 and 0.0005 plus the [float] roundings on the way, at
    most [(|x| + 1) / 2^23]. *)
Theorem compact_round_trip :
  forall (id : string) (t v : Q) (rpm : Z),
    cstring id ->
    in_int_range rpm = true ->
    (Qabs t <= 1000000)%Q -> (Qabs v <= 1000000)%Q ->
    (String.length (ArduinoJson.serialize (Node.compactDoc id t v rpm))
     <= 127)%nat ->
    exists r : Gateway.CompactReading,
      Gateway.decode (Node.encode id t v rpm) = Gateway.Reading r /\
      Gateway.machineId r = id /\
      Gateway.rpm r = rpm /\
      (Gateway.temperature r == Float.binary32 (tenths t # 10))%Q /\
      (Gateway.vibration r == Float.binary32 (thousandths v # 1000))%Q /\
      (Qabs (Gateway.temperature r - t)
       <= (1 # 20) + (Qabs t + 1) * (1 # 8388608))%Q /\
      (Qabs (Gateway.vibration r - v)
       <= (1 # 2000) + (Qabs v + 1) * (1 # 8388608))%Q.
Proof.
  intros id t v rpm Hid Hrpm Ht Hv Hfit.
  destruct (decode_encode id t v rpm Hid Hrpm Ht Hv Hfit)
    as (vt & vv & Hdec & Hvt & Hvv).
  eexists. split; [exact Hdec|]. cbn [Gateway.machineId Gateway.rpm
    Gateway.temperature Gateway.vibration].
  split; [reflexivity|]. split; [reflexivity|].
  pose proof (binary32_comp _ _ Hvt) as Et.
  pose proof (binary32_comp _ _ Hvv) as Ev.
  split; [exact Et|]. split; [exact Ev|].
  split.
  - rewrite Et. apply readback_tenths, Ht.
  - rewrite Ev. apply readback_thousandths, Hv.
Qed.

(** The node's own identity with a sample of 67.34 degrees, 0.01249 g and
    3200 rpm: the gateway reads the [float]s nearest to 67.3 and 0.012,
    and 3200. *)
Lemma compact_round_trip_witness :
  Node.encode Node.MACHINE_ID (6734 # 100) (1249 # 100000) 3200
    = Samples.lathePayload /\
  exists r : Gateway.CompactReading,
    Gateway.decode
      (Node.encode Node.MACHINE_ID (6734 # 100) (1249 # 100000) 3200)
      = Gateway.Reading r /\
    Gateway.machineId r = Node.MACHINE_ID /\
    Gateway.rpm r = 3200 /\
    (Gateway.temperature r
     == Float.binary32 (tenths (6734 # 100) # 10))%Q /\
    (Gateway.vibration r
     == Float.binary32 (thousandths (1249 # 100000) # 1000))%Q /\
    (Qabs (Gateway.temperature r - (6734 # 100))
     <= (1 # 20) + (Qabs (6734 # 100) + 1) * (1 # 8388608))%Q /\
    (Qabs (Gateway.vibration r - (1249 # 100000))
     <= (1 # 2000) + (Qabs (1249 # 100000) + 1) * (1 # 8388608))%Q.
Proof.
  split; [vm_compute; reflexivity|].
  apply (compact_round_trip Node.MACHINE_ID (6734 # 100) (1249 # 100000)
           3200).
  - repeat split; discriminate.
  - reflexivity.
  - apply Qle_bool_iff. reflexivity.
  - apply Qle_bool_iff. reflexivity.
  - apply Nat.leb_le. vm_compute. reflexivity.
Defined.

(** C1, as stated, fails: the [float] 67.35 is 67.3 to one decimal, the
    node sends 67.4 for it, and the temperature the gateway decodes, the
    [float] nearest to 67.4, is more than half a tenth away from the
    sample. *)
Lemma round_trip_exceeds_half_a_tenth :
  (Qabs ((673 # 10) - Samples.sample6735) < 1 # 20)%Q /\
  exists r : Gateway.CompactReading,
    Gateway.decode
      (Node.encode "lathe_01" Samples.sample6735
         (Float.binary32 (12 # 1000)) 3200) = Gateway.Reading r /\
    Gateway.machineId r = "lathe_01" /\
    (Gateway.temperature r == Float.binary32 (674 # 10))%Q /\
    (1 # 20 < Qabs (Gateway.temperature r - Samples.sample6735))%Q.
Proof.
  split; [apply Qlt_alt; vm_compute; reflexivity|].
  eexists. split; [vm_compute; reflexivity|].
  split; [reflexivity|].
  split; [apply Qeq_bool_iff; vm_compute; reflexivity|].
  apply Qlt_alt. vm_compute. reflexivity.
Qed.

(* ================================================================== *)
(** * Node: the simulated sensors *)
(* ================================================================== *)

Lemma randomValues_complete (low high rnd : Z) :
  random_range low high rnd -> In rnd (randomValues low high).
Proof.
  intros [Hlo Hhi]. unfold randomValues. apply in_map_iff.
  exists (Z.to_nat (rnd - low)). split; [lia|].
  apply in_seq. lia.
Qed.

(** A property that can be computed holds of every value [random] can
    return when it holds of each value of the list. *)
Lemma random_cases (low high : Z) (check : Z -> bool) :
  forallb check (randomValues low high) = true ->
  forall rnd, random_range low high rnd -> check rnd = true.
Proof.
  intros H rnd Hr. apply (proj1 (forallb_forall _ _) H).
  apply randomValues_complete, Hr.
Qed.

Lemma readTemperature_cases :
  forallb (fun rnd =>
             let T := Node.readTemperature rnd in
             Qle_bool 60 T && Qle_bool T (69900002 # 1000000)
             && Qle_bool (Qabs (T - ((600 + rnd) # 10))) (1 # 200000)
             && (tenths T =? 600 + rnd))
          (randomValues 0 100) = true.
Proof. vm_compute. reflexivity. Qed.

(** X1.  The simulated temperature is a [float]: it lies between 60 and
    69.900002 degrees, within 0.000005 of the whole number of tenths
    [60.0 + rnd / 10], and the rounding before encoding sends exactly
    that number of tenths. *)
Theorem readTemperature_range :
  forall rnd : Z,
    random_range 0 100 rnd ->
    (60 <= Node.readTemperature rnd)%Q /\
    (Node.readTemperature rnd <= 69900002 # 1000000)%Q /\
    (Qabs (Node.readTemperature rnd - ((600 + rnd) # 10))
     <= 1 # 200000)%Q /\
    tenths (Node.readTemperature rnd) = 600 + rnd.
Proof.
  intros rnd Hr.
  pose proof (random_cases _ _ _ readTemperature_cases rnd Hr) as H.
  cbv beta zeta in H.
  apply andb_true_iff in H. destruct H as [H H4].
  apply andb_true_iff in H. destruct H as [H H3].
  apply andb_true_iff in H. destruct H as [H1 H2].
  split; [apply Qle_bool_iff, H1|]. split; [apply Qle_bool_iff, H2|].
  split; [apply Qle_bool_iff, H3|]. apply Z.eqb_eq, H4.
Qed.

Lemma readTemperature_range_witness :
  random_range 0 100 99 /\
  (60 <= Node.readTemperature 99)%Q /\
  (Node.readTemperature 99 <= 69900002 # 1000000)%Q /\
  (Qabs (Node.readTemperature 99 - ((600 + 99) # 10)) <= 1 # 200000)%Q /\
  tenths (Node.readTemperature 99) = 600 + 99.
Proof.
  split; [unfold random_range; lia|].
  apply (readTemperature_range 99). unfold random_range. lia.
Defined.

Lemma readVibration_cases :
  forallb (fun rnd =>
             let V := Node.readVibration rnd in
             Qle_bool (Qabs (V - ((rnd + 50) # 10000))) (1 # 500000000)
             && negb (Qle_bool V 0)
             && Qle_bool (4999 # 1000000) V
             && Qle_bool V (14901 # 1000000))
          (randomValues 0 100) = true.
Proof. vm_compute. reflexivity. Qed.

(** X2.  The simulated vibration is never negative, whatever [random]
    returns; for the values [random(0, 100)] can return it is a [float]
    within 0.000000002 of [0.005 + rnd / 10000] g, between 0.004999 and
    0.014901 g, and the clamp at zero does not act. *)
Theorem readVibration_range :
  forall rnd : Z,
    (0 <= Node.readVibration rnd)%Q /\
    (random_range 0 100 rnd ->
       (Qabs (Node.readVibration rnd - ((rnd + 50) # 10000))
        <= 1 # 500000000)%Q /\
       (0 < Node.readVibration rnd)%Q /\
       (4999 # 1000000 <= Node.readVibration rnd)%Q /\
       (Node.readVibration rnd <= 14901 # 1000000)%Q).
Proof.
  intros rnd. split.
  - unfold Node.readVibration. cbv zeta.
    destruct (Qle_bool 0 _) eqn:Hs; [apply Qle_bool_iff; exact Hs|].
    apply Qle_refl.
  - intros Hr.
    pose proof (random_cases _ _ _ readVibration_cases rnd Hr) as H.
    cbv beta zeta in H.
    apply andb_true_iff in H. destruct H as [H H4].
    apply andb_true_iff in H. destruct H as [H H3].
    apply andb_true_iff in H. destruct H as [H1 H2].
    split; [apply Qle_bool_iff, H1|].
    split; [|split; [apply Qle_bool_iff, H3|apply Qle_bool_iff, H4]].
    apply Qnot_le_lt. intros Hle. apply Qle_bool_iff in Hle.
    rewrite Hle in H2. discriminate H2.
Qed.

Lemma readVibration_range_witness :
  random_range 0 100 0 /\
  (Qabs (Node.readVibration 0 - ((0 + 50) # 10000)) <= 1 # 500000000)%Q /\
  (0 < Node.readVibration 0)%Q /\
  (4999 # 1000000 <= Node.readVibration 0)%Q /\
  (Node.readVibration 0 <= 14901 # 1000000)%Q /\
  (Node.readVibration 0 < 5 # 1000)%Q /\
  (Node.readVibration (-80) == 0)%Q.
Proof.
  split; [unfold random_range; lia|].
  destruct (proj2 (readVibration_range 0)) as (H1 & H2 & H3 & H4);
    [unfold random_range; lia|].
  split; [exact H1|]. split; [exact H2|]. split; [exact H3|].
  split; [exact H4|].
  split; [apply Qlt_alt; vm_compute; reflexivity|].
  apply Qeq_bool_iff. vm_compute. reflexivity.
Defined.

(** X3.  The simulated speed is never negative; for the values
    [random(-100, 100)] can return it is 3200 plus that value, between
    3100 and 3299 rpm, and an [int]. *)
Theorem readRPM_range :
  forall rnd : Z,
    0 <= Node.readRPM rnd /\
    (random_range (-100) 100 rnd ->
       Node.readRPM rnd = 3200 + rnd /\
       3100 <= Node.readRPM rnd <= 3299 /\
       in_int_range (Node.readRPM rnd) = true).
Proof.
  intros rnd. unfold Node.readRPM. split; [lia|].
  intros [Hlo Hhi].
  assert (He : Z.max 0 (3200 + rnd) = 3200 + rnd) by lia.
  rewrite He. split; [reflexivity|]. split; [lia|].
  unfold in_int_range, INT_MIN, INT_MAX.
  apply andb_true_iff. split; apply Z.leb_le;
    change (2 ^ 31) with 2147483648; lia.
Qed.

Lemma readRPM_range_witness :
  random_range (-100) 100 (-100) /\
  Node.readRPM (-100) = 3100 /\
  3100 <= Node.readRPM (-100) <= 3299 /\
  in_int_range (Node.readRPM (-100)) = true.
Proof.
  split; [unfold random_range; lia|].
  apply (proj2 (readRPM_range (-100))). unfold random_range. lia.
Defined.

(* ================================================================== *)
(** * Node: one boot and the wake cycle *)
(* ================================================================== *)

(** X4.  One boot of the node either hands exactly one packet to the
    radio and then sleeps for thirty seconds, after 1.2 s awake and
    whether or not the radio accepted the packet, or, when the radio does
    not answer, sends nothing and restarts after 6 s without sleeping. *)
Theorem boot_sends_once_then_sleeps :
  forall (id : string) (bootCount : Z) (env : Node.Environment),
    let events := snd (Node.setup id bootCount env) in
    if Node.radio_responds env then
      transmissions events = 1%nat /\
      awake events = 1200 /\
      asleep events = Node.SLEEP_SECONDS /\
      last events Node.Restart = Node.DeepSleep 30 /\
      ~ In Node.Restart events
    else
      transmissions events = 0%nat /\
      awake events = 6000 /\
      asleep events = 0 /\
      last events (Node.DeepSleep 30) = Node.Restart.
Proof.
  intros id bootCount env. unfold Node.setup, Node.setupLoRa.
  destruct (Node.radio_responds env).
  - cbv [snd Node.readAndTransmit Node.enterDeepSleep app transmissions
         awake asleep last Node.SLEEP_SECONDS].
    repeat split; try reflexivity.
    intros H. cbn [In] in H.
    repeat (destruct H as [H|H]; [discriminate H|]). exact H.
  - repeat split; reflexivity.
Qed.

Lemma transmissions_app (a b : list Node.Event) :
  transmissions (a ++ b) = (transmissions a + transmissions b)%nat.
Proof.
  induction a as [|e a IH]; [reflexivity|].
  destruct e; cbn [app transmissions]; rewrite IH; reflexivity.
Qed.

Lemma awake_app (a b : list Node.Event) :
  awake (a ++ b) = awake a + awake b.
Proof.
  induction a as [|e a IH]; [reflexivity|].
  destruct e; cbn [app awake]; rewrite IH; lia.
Qed.

Lemma asleep_app (a b : list Node.Event) :
  asleep (a ++ b) = asleep a + asleep b.
Proof.
  induction a as [|e a IH]; [reflexivity|].
  destruct e; cbn [app asleep]; rewrite IH; lia.
Qed.

Lemma setup_radio_ready (id : string) (bootCount : Z)
      (env : Node.Environment) :
  Node.radio_responds env = true ->
  exists events,
    Node.setup id bootCount env = (bootCount + 1, events) /\
    transmissions events = 1%nat /\ awake events = 1200 /\
    asleep events = 30.
Proof.
  intros H. unfold Node.setup, Node.setupLoRa. rewrite H.
  eexists. split; [reflexivity|]. repeat split; reflexivity.
Qed.

(** X5.  While the radio answers at every wake-up, [n] wake-ups send [n]
    packets, spend [30 n] seconds asleep and [1.2 n] seconds awake, and
    leave the boot counter kept in RTC memory [n] higher (the counter is
    an [int]; the statement is for counts within its range). *)
Theorem wake_cycles_send_one_packet_each :
  forall (id : string) (envs : list Node.Environment) (bootCount : Z),
    in_int_range bootCount = true ->
    in_int_range (bootCount + Z.of_nat (length envs)) = true ->
    forallb Node.radio_responds envs = true ->
    exists boots,
      NodeLife.cycles id bootCount envs
        = (bootCount + Z.of_nat (length envs), boots) /\
      length boots = length envs /\
      transmissions (concat boots) = length envs /\
      asleep (concat boots) = Node.SLEEP_SECONDS * Z.of_nat (length envs) /\
      awake (concat boots) = 1200 * Z.of_nat (length envs).
Proof.
  intros id envs bootCount _ _. revert bootCount.
  induction envs as [|env later IH]; intros bootCount H.
  - exists []. cbn [NodeLife.cycles length Z.of_nat]. rewrite Z.add_0_r.
    repeat split; reflexivity.
  - cbn [forallb] in H. apply andb_true_iff in H. destruct H as [Hr Hl].
    destruct (setup_radio_ready id bootCount env Hr)
      as (events & He & Ht & Ha & Hs).
    destruct (IH (bootCount + 1) Hl) as (boots & Hc & Hn & Htx & Hsl & Haw).
    exists (events :: boots). cbn [NodeLife.cycles].
    rewrite He, Hr, Hc. cbn [length concat].
    rewrite transmissions_app, asleep_app, awake_app, Ht, Ha, Hs, Htx, Hsl,
      Haw, Hn.
    unfold Node.SLEEP_SECONDS.
    repeat split; try reflexivity; try (f_equal; lia); lia.
Qed.

Lemma wake_cycles_send_one_packet_each_witness :
  exists boots,
    NodeLife.cycles "lathe_01" 0
      [Node.mkEnv true 10 20 30 true; Node.mkEnv true 40 50 (-60) false]
    = (0 + Z.of_nat 2, boots) /\
    length boots = 2%nat /\
    transmissions (concat boots) = 2%nat /\
    asleep (concat boots) = Node.SLEEP_SECONDS * Z.of_nat 2 /\
    awake (concat boots) = 1200 * Z.of_nat 2.
Proof.
  exact (wake_cycles_send_one_packet_each "lathe_01"
           [Node.mkEnv true 10 20 30 true; Node.mkEnv true 40 50 (-60) false]
           0 eq_refl eq_refl eq_refl).
Defined.

(* ================================================================== *)
(** * Gateway: start-up *)
(* ================================================================== *)

Lemma awaitWiFi_status (answers : list bool) :
  fst (GatewaySetup.awaitWiFi answers) = Gateway.Returned <->
  In true answers.
Proof.
  induction answers as [|b later IH]; cbn [GatewaySetup.awaitWiFi In].
  - split; [discriminate|intros []].
  - destruct b.
    + split; [left; reflexivity|reflexivity].
    + destruct (GatewaySetup.awaitWiFi later) as [s ev]. cbn [fst] in *.
      rewrite IH. split; [right; assumption|].
      intros [H|H]; [discriminate H|exact H].
Qed.

Lemma awaitWiFi_quiet (answers : list bool) :
  reachesLoop (snd (GatewaySetup.awaitWiFi answers)) = false.
Proof.
  induction answers as [|b later IH]; [reflexivity|].
  cbn [GatewaySetup.awaitWiFi]. destruct b; [reflexivity|].
  destruct (GatewaySetup.awaitWiFi later) as [s ev]. exact IH.
Qed.

Lemma reachesLoop_app (a b : list GatewaySetup.Event) :
  reachesLoop (a ++ b) = reachesLoop a || reachesLoop b.
Proof. unfold reachesLoop. apply existsb_app. Qed.

Lemma setup_quiet (env : GatewaySetup.Environment) :
  reachesLoop (snd (GatewaySetup.setup env)) = false.
Proof.
  unfold GatewaySetup.setup, GatewaySetup.setupWiFi, GatewaySetup.setupLoRa.
  pose proof (awaitWiFi_quiet (GatewaySetup.wifi env)) as Hq.
  destruct (GatewaySetup.awaitWiFi (GatewaySetup.wifi env)) as [s ev].
  cbn [snd] in Hq. unfold reachesLoop in *. destruct s.
  - destruct (GatewaySetup.radio_responds env);
      cbn [snd app existsb orb]; rewrite existsb_app, Hq; reflexivity.
  - cbn [snd existsb orb]. exact Hq.
Qed.

(** X6.  The gateway gets from [setup] to [loop] exactly when the network
    reports a connection at some poll and the radio answers.  Otherwise
    it stays in [setup] for ever: no pass of [loop] runs and the MQTT
    session is never touched; a radio that does not answer is not
    retried. *)
Theorem gateway_setup_reaches_loop :
  forall (env : GatewaySetup.Environment)
         (passes : list Gateway.Environment) (c : PubSubClient.t),
    (fst (GatewaySetup.setup env) = Gateway.Returned <->
     In true (GatewaySetup.wifi env) /\
     GatewaySetup.radio_responds env = true) /\
    (fst (GatewaySetup.setup env) = Gateway.Blocked ->
     GatewaySetup.main env passes c
       = (Gateway.Blocked, c, snd (GatewaySetup.setup env)) /\
     reachesLoop (snd (GatewaySetup.setup env)) = false).
Proof.
  intros env passes c. split.
  - unfold GatewaySetup.setup, GatewaySetup.setupWiFi,
      GatewaySetup.setupLoRa.
    pose proof (awaitWiFi_status (GatewaySetup.wifi env)) as Hw.
    destruct (GatewaySetup.awaitWiFi (GatewaySetup.wifi env)) as [s ev].
    cbn [fst] in Hw. destruct s.
    + destruct (GatewaySetup.radio_responds env); cbn [fst].
      * split; [intros _; split; [apply Hw|]; reflexivity|reflexivity].
      * split; [discriminate|intros [_ H]; discriminate H].
    + cbn [fst]. split; [discriminate|].
      intros [H _]. apply Hw in H. discriminate H.
  - intros Hb. split; [|apply setup_quiet].
    unfold GatewaySetup.main.
    destruct (GatewaySetup.setup env) as [s ev]. cbn [fst snd] in *.
    rewrite Hb. reflexivity.
Qed.

Lemma gateway_setup_reaches_loop_witness :
  GatewaySetup.main (GatewaySetup.mkEnv [false; true] false)
    Samples.reconnectScenario Samples.connectedClient
  = (Gateway.Blocked, Samples.connectedClient,
     snd (GatewaySetup.setup (GatewaySetup.mkEnv [false; true] false))) /\
  reachesLoop
    (snd (GatewaySetup.setup (GatewaySetup.mkEnv [false; true] false)))
  = false.
Proof.
  exact (proj2 (gateway_setup_reaches_loop
                  (GatewaySetup.mkEnv [false; true] false)
                  Samples.reconnectScenario Samples.connectedClient)
               eq_refl).
Defined.

Lemma awaitWiFi_waits (k : nat) (later : list bool) :
  GatewaySetup.awaitWiFi (repeat false k ++ true :: later) =
    (Gateway.Returned, (waits k ++ [GatewaySetup.WiFiStatus true])%list).
Proof.
  induction k as [|k IH]; [reflexivity|].
  cbn [repeat app GatewaySetup.awaitWiFi waits]. rewrite IH. reflexivity.
Qed.

Lemma startupDelay_app (a b : list GatewaySetup.Event) :
  startupDelay (a ++ b) = startupDelay a + startupDelay b.
Proof.
  induction a as [|e a IH]; [reflexivity|].
  destruct e; cbn [app startupDelay]; rewrite IH; lia.
Qed.

Lemma startupDelay_waits (k : nat) :
  startupDelay (waits k) = 500 * Z.of_nat k.
Proof.
  induction k as [|k IH]; [reflexivity|].
  cbn [waits startupDelay]. rewrite IH. lia.
Qed.

(** X7.  When the network is up at the poll after [k] refused ones, the
    start-up of the gateway polls [k + 1] times with half a second between
    polls, then sets the broker address and starts the radio once; it
    has waited [1000 + 500 k] ms.  With a radio that answers it configures
    the radio and returns; with one that does not it stops there. *)
Theorem gateway_setup_trace :
  forall (k : nat) (later : list bool) (radio : bool),
    let '(status, events) :=
      GatewaySetup.setup
        (GatewaySetup.mkEnv (repeat false k ++ true :: later) radio) in
    status = (if radio then Gateway.Returned else Gateway.Blocked) /\
    events =
      ([GatewaySetup.Delay 1000; GatewaySetup.WiFiBegin] ++ waits k ++
       [GatewaySetup.WiFiStatus true;
        GatewaySetup.SetServer "192.168.1.100" 1883;
        GatewaySetup.LoRaBegin 915000000 radio] ++
       (if radio
        then [GatewaySetup.LoRaConfigure
                (GatewaySetup.mkRadio 125000 7 5 20 18)]
        else []))%list /\
    startupDelay events = 1000 + 500 * Z.of_nat k.
Proof.
  intros k later radio.
  unfold GatewaySetup.setup, GatewaySetup.setupWiFi, GatewaySetup.setupLoRa.
  cbn [GatewaySetup.wifi GatewaySetup.radio_responds].
  rewrite awaitWiFi_waits.
  destruct radio; (split; [reflexivity|]); split.
  - cbn [app]. rewrite <- app_assoc. reflexivity.
  - cbn [app startupDelay]. rewrite <- app_assoc, startupDelay_app,
      startupDelay_waits. cbn [app startupDelay]. lia.
  - cbn [app]. rewrite <- app_assoc. reflexivity.
  - cbn [app startupDelay]. rewrite <- app_assoc, startupDelay_app,
      startupDelay_waits. cbn [app startupDelay]. lia.
Qed.

(* ================================================================== *)
(** * Gateway: reconnecting and running *)
(* ================================================================== *)

Lemma delayed_app (a b : list Gateway.Event) :
  delayed (a ++ b) = delayed a + delayed b.
Proof.
  induction a as [|e a IH]; [reflexivity|].
  destruct e; cbn [app delayed]; rewrite IH; lia.
Qed.

(** X8.  With the session down, [reconnectMQTT] tries the broker until the
    first acceptance and no further: it returns exactly when some attempt
    is accepted, after one refusal and a five-second pause for each
    attempt before it, with the session up and the broker's log as it
    was.  When every attempt is refused it never returns. *)
Theorem reconnect_until_first_acceptance :
  forall (attempts : list bool) (c : PubSubClient.t),
    PubSubClient.connected c = false ->
    Gateway.reconnectMQTT attempts c =
      if existsb (fun accepted => accepted) attempts
      then (Gateway.Returned,
            PubSubClient.mkClient true (PubSubClient.delivered c),
            (refusals (leadingRefusals attempts)
               ++ [Gateway.Connect true])%list)
      else (Gateway.Blocked, c, refusals (length attempts)).
Proof.
  intros attempts [up log] Hc. cbn [PubSubClient.connected
    PubSubClient.is_connected PubSubClient.delivered] in *. subst up.
  induction attempts as [|a later IH].
  - reflexivity.
  - cbn [Gateway.reconnectMQTT PubSubClient.connected
         PubSubClient.is_connected PubSubClient.connect
         PubSubClient.delivered existsb leadingRefusals length].
    destruct a.
    + rewrite reconnect_connected by reflexivity.
      cbn [orb refusals app]. reflexivity.
    + rewrite IH. cbn [orb].
      destruct (existsb (fun accepted => accepted) later); reflexivity.
Qed.

Lemma reconnect_until_first_acceptance_witness :
  Gateway.reconnectMQTT [false; false; true; false]
    Samples.disconnectedClient =
  (Gateway.Returned,
   PubSubClient.mkClient true
     (PubSubClient.delivered Samples.disconnectedClient),
   [Gateway.Connect false; Gateway.Delay 5000;
    Gateway.Connect false; Gateway.Delay 5000; Gateway.Connect true]).
Proof.
  exact (reconnect_until_first_acceptance [false; false; true; false]
           Samples.disconnectedClient eq_refl).
Defined.

Lemma loop_healthy (env : Gateway.Environment) (log : list (string * string)) :
  Gateway.link_alive env = true ->
  exists events,
    Gateway.loop env (PubSubClient.mkClient true log) =
      (Gateway.Returned,
       PubSubClient.mkClient true (log ++ forwarded env)%list, events) /\
    attemptsConnect events = false /\ delayed events = 10.
Proof.
  intros Ha. unfold Gateway.loop, forwarded.
  cbn [PubSubClient.connected PubSubClient.is_connected negb
       PubSubClient.loop PubSubClient.delivered andb].
  rewrite Ha. unfold Gateway.packetSize.
  destruct (Gateway.radio env) as [pkt|].
  - destruct (0 <? String.length (Gateway.payload pkt))%nat.
    + unfold Gateway.handleLoRaPacket.
      destruct (Gateway.decode (Gateway.payload pkt)) as [e| |r].
      * eexists. rewrite app_nil_r.
        split; [reflexivity|]. split; reflexivity.
      * eexists. rewrite app_nil_r.
        split; [reflexivity|]. split; reflexivity.
      * cbn [PubSubClient.publish PubSubClient.is_connected
             PubSubClient.delivered].
        eexists. split; [reflexivity|]. split; reflexivity.
    + eexists. rewrite app_nil_r. split; [reflexivity|]. split; reflexivity.
  - eexists. rewrite app_nil_r. split; [reflexivity|]. split; reflexivity.
Qed.

(** X9.  While the link to the broker stays alive, a gateway that starts
    with its session up never blocks and never reconnects: every pass
    takes its 10 ms pause, and the broker receives the message of every
    readable packet, in the order the packets arrived. *)
Theorem healthy_link_forwards_every_reading :
  forall (envs : list Gateway.Environment) (log : list (string * string)),
    forallb Gateway.link_alive envs = true ->
    exists events,
      Gateway.run envs (PubSubClient.mkClient true log) =
        (Gateway.Returned,
         PubSubClient.mkClient true (log ++ flat_map forwarded envs)%list,
         events) /\
      attemptsConnect events = false /\
      delayed events = 10 * Z.of_nat (length envs).
Proof.
  intros envs. induction envs as [|env later IH]; intros log H.
  - exists []. cbn [Gateway.run flat_map]. rewrite app_nil_r.
    repeat split; reflexivity.
  - cbn [forallb] in H. apply andb_true_iff in H. destruct H as [Ha Hl].
    destruct (loop_healthy env log Ha) as (ev & He & Hq & Hd).
    destruct (IH (log ++ forwarded env)%list Hl) as (ev' & He' & Hq' & Hd').
    exists (ev ++ ev')%list. cbn [Gateway.run flat_map].
    rewrite He, He', <- app_assoc.
    split; [reflexivity|].
    rewrite attemptsConnect_app, delayed_app, Hq, Hq', Hd, Hd'.
    split; [reflexivity|]. cbn [length]. lia.
Qed.

Lemma healthy_link_forwards_every_reading_witness :
  exists events,
    Gateway.run
      [Gateway.mkEnv [] true (Some Samples.lathePacket) 123456;
       Gateway.mkEnv [] true None 123466]
      (PubSubClient.mkClient true []) =
      (Gateway.Returned,
       PubSubClient.mkClient true
         ([] ++ flat_map forwarded
            [Gateway.mkEnv [] true (Some Samples.lathePacket) 123456;
             Gateway.mkEnv [] true None 123466])%list,
       events) /\
    attemptsConnect events = false /\
    delayed events = 10 * Z.of_nat 2.
Proof.
  exact (healthy_link_forwards_every_reading
           [Gateway.mkEnv [] true (Some Samples.lathePacket) 123456;
            Gateway.mkEnv [] true None 123466] [] eq_refl).
Defined.

(* ================================================================== *)
(** * Gateway: what reaches the broker *)
(* ================================================================== *)

Lemma substring_prefix (a b : string) (n : nat) :
  (String.length a <= n)%nat ->
  prefix a (substring 0 n (a ++ b)) = true.
Proof.
  revert n. induction a as [|c a IH]; intros n H.
  - destruct (substring 0 n ("" ++ b)); reflexivity.
  - destruct n as [|n]; [cbn [String.length] in H; lia|].
    cbn [append substring prefix]. cbn [String.length] in H.
    destruct (ascii_dec c c) as [_|Hn]; [|congruence].
    apply IH. lia.
Qed.

Lemma forwarded_shape (env : Gateway.Environment) :
  (length (forwarded env) <= 1)%nat /\
  Forall (fun m : string * string =>
            prefix Gateway.MQTT_TOPIC_PREFIX (fst m) = true /\
            (String.length (fst m) <= 63)%nat /\
            (String.length (snd m) <= 511)%nat) (forwarded env).
Proof.
  unfold forwarded. destruct (Gateway.radio env) as [pkt|];
    [|split; [cbn; lia|constructor]].
  destruct (0 <? _)%nat; [|split; [cbn; lia|constructor]].
  destruct (Gateway.decode _) as [e| |r];
    [split; [cbn; lia|constructor]|split; [cbn; lia|constructor]|].
  split; [cbn [length]; lia|]. constructor; [|constructor].
  cbn [fst snd]. split; [|split].
  - unfold Gateway.topicFor, snprintf_ss.
    apply substring_prefix. unfold Gateway.MQTT_TOPIC_PREFIX.
    cbn [String.length Nat.sub]. lia.
  - apply topicFor_length.
  - unfold canonicalMessage, ArduinoJson.serializeJson.
    apply substring_length_le.
Qed.

Lemma published_shape (envs : list Gateway.Environment) :
  (length (flat_map published envs) <= length envs)%nat /\
  Forall (fun m : string * string =>
            prefix Gateway.MQTT_TOPIC_PREFIX (fst m) = true /\
            (String.length (fst m) <= 63)%nat /\
            (String.length (snd m) <= 511)%nat) (flat_map published envs).
Proof.
  induction envs as [|env later [IHn IHf]]; [split; [cbn; lia|constructor]|].
  cbn [flat_map length]. rewrite length_app.
  assert (Hp : (length (published env) <= 1)%nat /\
               Forall (fun m : string * string =>
                 prefix Gateway.MQTT_TOPIC_PREFIX (fst m) = true /\
                 (String.length (fst m) <= 63)%nat /\
                 (String.length (snd m) <= 511)%nat) (published env)).
  { unfold published. destruct (Gateway.link_alive env);
      [apply forwarded_shape|split; [cbn; lia|constructor]]. }
  destruct Hp as [Hn Hf]. split; [lia|].
  apply Forall_app. split; assumption.
Qed.

(** X10.  Whatever the radio and the broker do, a run of the gateway only
    ever appends to what the broker has received: at most one message for
    each pass of [loop], each on a topic that starts with the prefix and
    fits the 64-byte topic buffer, each message fitting the 512-byte
    payload buffer. *)
Theorem broker_log_only_grows :
  forall (envs : list Gateway.Environment) (c c' : PubSubClient.t)
         (status : Gateway.Status) (events : list Gateway.Event),
    Gateway.run envs c = (status, c', events) ->
    exists new : list (string * string),
      PubSubClient.delivered c' = (PubSubClient.delivered c ++ new)%list /\
      (length new <= length envs)%nat /\
      Forall (fun m : string * string =>
                prefix Gateway.MQTT_TOPIC_PREFIX (fst m) = true /\
                (String.length (fst m) <= 63)%nat /\
                (String.length (snd m) <= 511)%nat) new.
Proof.
  intros envs c c' status events H.
  destruct (run_delivers envs c status c' events H)
    as (completed & pending & Hsplit & _ & _ & Hlog).
  exists (flat_map published completed). split; [exact Hlog|].
  destruct (published_shape completed) as [Hn Hf].
  split; [|exact Hf].
  rewrite Hsplit, length_app. lia.
Qed.

Lemma broker_log_only_grows_witness :
  exists new : list (string * string),
    PubSubClient.delivered
      (snd (fst (Gateway.run Samples.reconnectScenario
                   Samples.disconnectedClient))) =
      (PubSubClient.delivered Samples.disconnectedClient ++ new)%list /\
    (length new <= length Samples.reconnectScenario)%nat /\
    Forall (fun m : string * string =>
              prefix Gateway.MQTT_TOPIC_PREFIX (fst m) = true /\
              (String.length (fst m) <= 63)%nat /\
              (String.length (snd m) <= 511)%nat) new.
Proof.
  destruct (Gateway.run Samples.reconnectScenario Samples.disconnectedClient)
    as [[status c'] events] eqn:H.
  exact (broker_log_only_grows Samples.reconnectScenario
           Samples.disconnectedClient c' status events H).
Defined.

(* ================================================================== *)
(** * Gateway: from power-up to the broker *)
(* ================================================================== *)

Lemma run_link_alive (envs : list Gateway.Environment) :
  forall log : list (string * string),
    forallb Gateway.link_alive envs = true ->
    exists events,
      Gateway.run envs (PubSubClient.mkClient true log) =
        (Gateway.Returned,
         PubSubClient.mkClient true (log ++ flat_map forwarded envs)%list,
         events).
Proof.
  induction envs as [|env later IH]; intros log H.
  - exists []. cbn [Gateway.run flat_map]. rewrite app_nil_r. reflexivity.
  - cbn [forallb] in H. apply andb_true_iff in H. destruct H as [Ha Hl].
    destruct (loop_healthy env log Ha) as (ev & He & _).
    destruct (IH (log ++ forwarded env)%list Hl) as (ev' & He').
    exists (ev ++ ev')%list. cbn [Gateway.run flat_map].
    rewrite He, He', <- app_assoc. reflexivity.
Qed.

Lemma setup_returns (env : GatewaySetup.Environment) :
  In true (GatewaySetup.wifi env) ->
  GatewaySetup.radio_responds env = true ->
  exists events, GatewaySetup.setup env = (Gateway.Returned, events).
Proof.
  intros Hw Hr.
  unfold GatewaySetup.setup, GatewaySetup.setupWiFi, GatewaySetup.setupLoRa.
  apply awaitWiFi_status in Hw.
  destruct (GatewaySetup.awaitWiFi (GatewaySetup.wifi env)) as [s ev].
  cbn [fst] in Hw. subst s. rewrite Hr. eexists. reflexivity.
Qed.

(** X11.  From power-up to the broker: when the network comes up at some
    poll, the radio answers, the broker accepts one of the connection
    attempts of the first pass and the link then stays alive, the gateway
    leaves [setup], never blocks, and the broker receives the message of
    every readable packet, in the order of arrival. *)
Theorem gateway_from_power_up :
  forall (env : GatewaySetup.Environment) (first : Gateway.Environment)
         (passes : list Gateway.Environment) (log : list (string * string)),
    In true (GatewaySetup.wifi env) ->
    GatewaySetup.radio_responds env = true ->
    In true (Gateway.attempts first) ->
    forallb Gateway.link_alive (first :: passes) = true ->
    exists events,
      GatewaySetup.main env (first :: passes)
        (PubSubClient.mkClient false log) =
        (Gateway.Returned,
         PubSubClient.mkClient true
           (log ++ flat_map forwarded (first :: passes))%list,
         events) /\
      reachesLoop events = true.
Proof.
  intros env first passes log Hw Hr Hacc Hlink.
  cbn [forallb] in Hlink. apply andb_true_iff in Hlink.
  destruct Hlink as [Ha Hl].
  destruct (setup_returns env Hw Hr) as (sev & Hs).
  destruct (loop_after_reconnect first log Hacc Ha) as (ev & He & Hc).
  destruct (run_link_alive passes (log ++ forwarded first)%list Hl)
    as (ev' & He').
  unfold GatewaySetup.main. rewrite Hs. cbn [Gateway.run flat_map].
  rewrite He, He', <- app_assoc.
  eexists. split; [reflexivity|].
  rewrite reachesLoop_app. apply orb_true_iff. right.
  destruct ev as [|e ev]; [discriminate Hc|]. reflexivity.
Qed.

Lemma gateway_from_power_up_witness :
  exists events,
    GatewaySetup.main (GatewaySetup.mkEnv [false; false; true] true)
      [Gateway.mkEnv [false; true] true (Some Samples.lathePacket) 12345678;
       Gateway.mkEnv [] true None 12345688]
      (PubSubClient.mkClient false []) =
      (Gateway.Returned,
       PubSubClient.mkClient true
         ([] ++ flat_map forwarded
            [Gateway.mkEnv [false; true] true (Some Samples.lathePacket)
               12345678;
             Gateway.mkEnv [] true None 12345688])%list,
       events) /\
    reachesLoop events = true.
Proof.
  apply (gateway_from_power_up (GatewaySetup.mkEnv [false; false; true] true)
           (Gateway.mkEnv [false; true] true (Some Samples.lathePacket)
              12345678)
           [Gateway.mkEnv [] true None 12345688] []).
  - right. right. left. reflexivity.
  - reflexivity.
  - right. left. reflexivity.
  - reflexivity.
Defined.

(* ================================================================== *)
(** * Node to gateway: from the sensors to the broker *)
(* ================================================================== *)

Lemma canonicalDoc_comp (id : string) (t t' v v' : Q) (rpm millis rssi : Z)
      (snr : Q) :
  (t == t')%Q -> (v == v')%Q ->
  ArduinoJson.serialize
    (Gateway.canonicalDoc (Gateway.mkReading id t v rpm) millis rssi snr) =
  ArduinoJson.serialize
    (Gateway.canonicalDoc (Gateway.mkReading id t' v' rpm) millis rssi snr).
Proof.
  intros Ht Hv. rewrite !canonicalDoc_members.
  cbn [Gateway.machineId Gateway.temperature Gateway.vibration Gateway.rpm
       ArduinoJson.serialize].
  rewrite (writeFloat_comp _ _ Ht), (writeFloat_comp _ _ Hv). reflexivity.
Qed.

(** X12.  From the node's encoder to the broker: a reading encoded by the
    node, received while the session is up, is published once, on the
    topic made of the prefix and the node's identity, and the message is
    exactly the canonical document of the reading the gateway holds (the
    [float]s nearest to the tenths and the thousandths the node sent),
    the gateway's clock in seconds and the link quality of the packet. *)
Theorem node_reading_reaches_broker :
  forall (id : string) (t v : Q) (rpm millis rssi : Z) (snr : Q)
         (log : list (string * string)),
    cstring id ->
    (String.length id <= 32)%nat ->
    (Qabs t <= 1000000)%Q -> (Qabs v <= 1000000)%Q ->
    in_int_range rpm = true ->
    let message :=
      ArduinoJson.serializeJson
        (Gateway.canonicalDoc
           (Gateway.mkReading id
              (Float.binary32 (tenths t # 10))
              (Float.binary32 (thousandths v # 1000)) rpm)
           millis rssi snr) 512 in
    Gateway.handleLoRaPacket millis
      (Gateway.mkPacket (Node.encode id t v rpm) rssi snr)
      (PubSubClient.mkClient true log) =
    (PubSubClient.mkClient true (log ++ [(("factory/" ++ id)%string, message)])%list,
     Gateway.Published ("factory/" ++ id) message).
Proof.
  intros id t v rpm millis rssi snr log Hid Hlen Ht Hv Hrpm message.
  pose proof (payload_fits_buffer id t v rpm Hlen Ht Hv Hrpm) as Hfit.
  destruct (decode_encode id t v rpm Hid Hrpm Ht Hv Hfit)
    as (vt & vv & Hdec & Hvt & Hvv).
  rewrite (handle_reading_connected millis
             (Gateway.mkPacket (Node.encode id t v rpm) rssi snr)
             (PubSubClient.mkClient true log) _ Hdec eq_refl).
  cbn [Gateway.machineId PubSubClient.delivered].
  assert (Hm : canonicalMessage millis
                 (Gateway.mkPacket (Node.encode id t v rpm) rssi snr)
                 (Gateway.mkReading id
                    (Float.binary32 (ArduinoJson.as_float vt))
                    (Float.binary32 (ArduinoJson.as_float vv)) rpm)
               = message).
  { unfold canonicalMessage, message, ArduinoJson.serializeJson.
    cbn [Gateway.packetRssi Gateway.packetSnr].
    rewrite (canonicalDoc_comp id _ _ _ _ rpm millis rssi snr
               (binary32_comp _ _ Hvt) (binary32_comp _ _ Hvv)).
    reflexivity. }
  rewrite Hm.
  assert (Htopic : Gateway.topicFor id = "factory/" ++ id).
  { rewrite topicFor_short by lia. reflexivity. }
  rewrite Htopic. reflexivity.
Qed.

Lemma node_reading_reaches_broker_witness :
  Gateway.handleLoRaPacket 123456
    (Gateway.mkPacket
       (Node.encode "mill_07" (- (125 # 100)) (31 # 10000) 0) (-91) (-3))
    (PubSubClient.mkClient true []) =
  (PubSubClient.mkClient true
     ([] ++ [(("factory/" ++ "mill_07")%string,
              ArduinoJson.serializeJson
                (Gateway.canonicalDoc
                   (Gateway.mkReading "mill_07"
                      (Float.binary32 (tenths (- (125 # 100)) # 10))
                      (Float.binary32 (thousandths (31 # 10000) # 1000)) 0)
                   123456 (-91) (-3)) 512)])%list,
   Gateway.Published ("factory/" ++ "mill_07")
     (ArduinoJson.serializeJson
        (Gateway.canonicalDoc
           (Gateway.mkReading "mill_07"
              (Float.binary32 (tenths (- (125 # 100)) # 10))
              (Float.binary32 (thousandths (31 # 10000) # 1000)) 0)
           123456 (-91) (-3)) 512)).
Proof.
  apply (node_reading_reaches_broker "mill_07" (- (125 # 100)) (31 # 10000)
           0 123456 (-91) (-3) []).
  - repeat split; discriminate.
  - apply Nat.leb_le. reflexivity.
  - apply Qle_bool_iff. reflexivity.
  - apply Qle_bool_iff. reflexivity.
  - reflexivity.
Defined.

(** X13.  The node's 128-byte payload buffer is large enough: for an
    identity of at most 32 characters, readings of magnitude up to a
    million and a speed that is an [int], the compact text has at most
    127 characters and goes on the air whole. *)
Theorem payload_buffer_is_large_enough :
  forall (id : string) (t v : Q) (rpm : Z),
    (String.length id <= 32)%nat ->
    (Qabs t <= 1000000)%Q -> (Qabs v <= 1000000)%Q ->
    in_int_range rpm = true ->
    (String.length (Node.encode id t v rpm) <= 127)%nat /\
    Node.encode id t v rpm =
      ArduinoJson.serialize (Node.compactDoc id t v rpm).
Proof.
  intros id t v rpm Hid Ht Hv Hrpm.
  pose proof (payload_fits_buffer id t v rpm Hid Ht Hv Hrpm) as Hfit.
  unfold Node.encode, ArduinoJson.serializeJson.
  change (128 - 1)%nat with 127%nat.
  rewrite (substring_whole _ _ Hfit). split; [exact Hfit|reflexivity].
Qed.

Lemma payload_buffer_is_large_enough_witness :
  (String.length
     (Node.encode "press_line_0123456789_0123456789"
        (- (999999 # 1)) (999999999 # 1000) (-2147483648)) <= 127)%nat /\
  Node.encode "press_line_0123456789_0123456789"
    (- (999999 # 1)) (999999999 # 1000) (-2147483648) =
  ArduinoJson.serialize
    (Node.compactDoc "press_line_0123456789_0123456789"
       (- (999999 # 1)) (999999999 # 1000) (-2147483648)).
Proof.
  apply (payload_buffer_is_large_enough "press_line_0123456789_0123456789"
           (- (999999 # 1)) (999999999 # 1000) (-2147483648)).
  - apply Nat.leb_le. reflexivity.
  - apply Qle_bool_iff. reflexivity.
  - apply Qle_bool_iff. reflexivity.
  - reflexivity.
Defined.

(** The packet of a boot whose radio answers. *)
Lemma setup_transmits (id : string) (bootCount : Z)
      (env : Node.Environment) :
  Node.radio_responds env = true ->
  In (Node.Transmit
        (Node.encode id
           (Node.readTemperature (Node.random_temperature env))
           (Node.readVibration (Node.random_vibration env))
           (Node.readRPM (Node.random_rpm env)))
        (Node.send_accepted env))
     (snd (Node.setup id bootCount env)).
Proof.
  intros Hradio. unfold Node.setup, Node.setupLoRa. rewrite Hradio.
  unfold Node.readAndTransmit. cbn [snd app In].
  right. right. right. left. reflexivity.
Qed.

(** A sample in the range of the simulated sensors, encoded by the node
    and decoded by the gateway. *)
Lemma sensor_sample_is_read (id : string) (T V c : Q) (R k : Z) :
  cstring id -> (String.length id <= 32)%nat -> in_int_range R = true ->
  (60 <= T)%Q -> (T <= 69900002 # 1000000)%Q -> tenths T = k ->
  (Qabs (V - c) <= 1 # 500000000)%Q ->
  (4999 # 1000000 <= V)%Q -> (V <= 14901 # 1000000)%Q ->
  exists r : Gateway.CompactReading,
    Gateway.decode (Node.encode id T V R) = Gateway.Reading r /\
    Gateway.machineId r = id /\
    (Gateway.temperature r == Float.binary32 (k # 10))%Q /\
    (Qabs (Gateway.vibration r - c) <= (1 # 2000) + (1 # 1000000))%Q /\
    Gateway.rpm r = R.
Proof.
  intros Hid Hlen HRb HT1 HT2 HT4 HV1 HV3 HV4.
  assert (HTb : (Qabs T <= 1000000)%Q) by (apply Qabs_Qle_condition; lra).
  assert (HVa : (Qabs V <= 14901 # 1000000)%Q)
    by (apply Qabs_Qle_condition; lra).
  assert (HVb : (Qabs V <= 1000000)%Q) by lra.
  pose proof (payload_fits_buffer id T V R Hlen HTb HVb HRb) as Hfit.
  destruct (decode_encode id T V R Hid HRb HTb HVb Hfit)
    as (vt & vv & Hdec & Hvt & Hvv).
  eexists. split; [exact Hdec|].
  cbn [Gateway.machineId Gateway.temperature Gateway.vibration Gateway.rpm].
  split; [reflexivity|]. split; [|split; [|reflexivity]].
  - rewrite (binary32_comp _ _ Hvt), HT4. reflexivity.
  - rewrite (binary32_comp _ _ Hvv).
    pose proof (readback_thousandths V HVb) as Hb.
    set (g := Float.binary32 (thousandths V # 1000)) in *. clearbody g.
    assert (Hs : (Qabs (g - c) <= Qabs (g - V) + Qabs (V - c))%Q).
    { assert (He : (g - c == (g - V) + (V - c))%Q) by ring.
      rewrite He. apply Qabs_triangle. }
    generalize dependent (Qabs (g - V)).
    generalize dependent (Qabs (V - c)).
    generalize dependent (Qabs (g - c)).
    generalize dependent (Qabs V).
    intros. lra.
Qed.

(** X14.  A boot of the node with its simulated sensors, seen from the
    gateway: the one packet it sends fits the node's buffer and decodes
    to a reading with the node's identity, as temperature the [float]
    nearest to the number of tenths [60.0 + random / 10], a vibration
    within 0.000501 g of [0.005 + random / 10000], and the speed as
    read. *)
Theorem simulated_boot_is_read_by_gateway :
  forall (id : string) (bootCount : Z) (env : Node.Environment),
    cstring id ->
    (String.length id <= 32)%nat ->
    Node.radio_responds env = true ->
    random_range 0 100 (Node.random_temperature env) ->
    random_range 0 100 (Node.random_vibration env) ->
    random_range (-100) 100 (Node.random_rpm env) ->
    exists (payload : string) (r : Gateway.CompactReading),
      In (Node.Transmit payload (Node.send_accepted env))
         (snd (Node.setup id bootCount env)) /\
      (String.length payload <= 127)%nat /\
      Gateway.decode payload = Gateway.Reading r /\
      Gateway.machineId r = id /\
      (Gateway.temperature r
       == Float.binary32 ((600 + Node.random_temperature env) # 10))%Q /\
      (Qabs (Gateway.vibration r
             - ((Node.random_vibration env + 50) # 10000))
       <= (1 # 2000) + (1 # 1000000))%Q /\
      Gateway.rpm r = 3200 + Node.random_rpm env.
Proof.
  intros id bootCount env Hid Hlen Hradio Ht Hv [Hr0 Hr1].
  pose proof (random_cases _ _ _ readTemperature_cases _ Ht) as HT.
  pose proof (random_cases _ _ _ readVibration_cases _ Hv) as HV.
  cbv beta zeta in HT, HV.
  apply andb_true_iff in HT. destruct HT as [HT HT4].
  apply andb_true_iff in HT. destruct HT as [HT _].
  apply andb_true_iff in HT. destruct HT as [HT1 HT2].
  apply Qle_bool_iff in HT1. apply Qle_bool_iff in HT2.
  apply Z.eqb_eq in HT4.
  apply andb_true_iff in HV. destruct HV as [HV HV4].
  apply andb_true_iff in HV. destruct HV as [HV HV3].
  apply andb_true_iff in HV. destruct HV as [HV1 _].
  apply Qle_bool_iff in HV1. apply Qle_bool_iff in HV3.
  apply Qle_bool_iff in HV4.
  assert (HR : Node.readRPM (Node.random_rpm env)
               = 3200 + Node.random_rpm env)
    by (unfold Node.readRPM; lia).
  assert (HRb : in_int_range (Node.readRPM (Node.random_rpm env)) = true).
  { rewrite HR. unfold in_int_range, INT_MIN, INT_MAX.
    apply andb_true_iff. split; apply Z.leb_le;
      change (2 ^ 31) with 2147483648; lia. }
  destruct (sensor_sample_is_read id _ _ _ _ _ Hid Hlen HRb HT1 HT2 HT4
              HV1 HV3 HV4) as (r & Hdec & Hm & Htemp & Hvib & Hrpm).
  eexists. exists r.
  split; [exact (setup_transmits id bootCount env Hradio)|].
  split; [unfold Node.encode, ArduinoJson.serializeJson;
          apply substring_length_le|].
  split; [exact Hdec|]. split; [exact Hm|]. split; [exact Htemp|].
  split; [exact Hvib|]. rewrite Hrpm. exact HR.
Qed.

Lemma simulated_boot_is_read_by_gateway_witness :
  exists (payload : string) (r : Gateway.CompactReading),
    In (Node.Transmit payload true)
       (snd (Node.setup Node.MACHINE_ID 0
               (Node.mkEnv true 23 99 (-100) true))) /\
    (String.length payload <= 127)%nat /\
    Gateway.decode payload = Gateway.Reading r /\
    Gateway.machineId r = Node.MACHINE_ID /\
    (Gateway.temperature r == Float.binary32 ((600 + 23) # 10))%Q /\
    (Qabs (Gateway.vibration r - ((99 + 50) # 10000))
     <= (1 # 2000) + (1 # 1000000))%Q /\
    Gateway.rpm r = 3200 + (-100).
Proof.
  apply (simulated_boot_is_read_by_gateway Node.MACHINE_ID 0
           (Node.mkEnv true 23 99 (-100) true)).
  - repeat split; discriminate.
  - apply Nat.leb_le. reflexivity.
  - reflexivity.
  - unfold random_range. cbn [Node.random_temperature]. lia.
  - unfold random_range. cbn [Node.random_vibration]. lia.
  - unfold random_range. cbn [Node.random_rpm]. lia.
Defined.

(* ================================================================== *)
(** * ArduinoJson: any number written and read back *)
(* ================================================================== *)

(** The parts [writeFloat] prints are within half a unit of the ninth
    decimal of the value. *)
Lemma floatParts_bounds (a : Q) :
  (0 <= a)%Q ->
  0 <= fst (ArduinoJson.floatParts a) /\
  0 <= snd (ArduinoJson.floatParts a) < 10 ^ 9 /\
  (Qabs (inject_Z (fst (ArduinoJson.floatParts a))
         + (snd (ArduinoJson.floatParts a) # 1000000000) - a)
   <= 1 # 2000000000)%Q.
Proof.
  intros Ha. unfold ArduinoJson.floatParts. cbv zeta.
  pose proof (Qfloor_le a) as Hi1. pose proof (Qlt_floor a) as Hi2.
  assert (Hi0 : 0 <= Qfloor a).
  { change 0 with (Qfloor 0). apply Qfloor_resp_le. exact Ha. }
  set (i := Qfloor a) in *. clearbody i.
  rewrite inject_Z_plus in Hi2. change (inject_Z 1) with 1%Q in Hi2.
  change (inject_Z (10 ^ 9)) with 1000000000%Q.
  set (rem := ((a - inject_Z i) * 1000000000)%Q).
  assert (Hrem : (0 <= rem /\ rem < 1000000000)%Q).
  { unfold rem. generalize dependent (inject_Z i). intros k H1 H2.
    split; lra. }
  pose proof (Qfloor_le (rem + (1 # 2))) as Hd1.
  pose proof (Qlt_floor (rem + (1 # 2))) as Hd2.
  assert (Hd0 : 0 <= Qfloor (rem + (1 # 2))).
  { change 0 with (Qfloor 0). apply Qfloor_resp_le. lra. }
  set (d := Qfloor (rem + (1 # 2))) in *. clearbody d.
  rewrite inject_Z_plus in Hd2. change (inject_Z 1) with 1%Q in Hd2.
  assert (Hd9 : d < 10 ^ 9 + 1).
  { rewrite Zlt_Qlt. change (inject_Z (10 ^ 9 + 1)) with 1000000001%Q. lra. }
  destruct (10 ^ 9 <=? d) eqn:Hc;
    [apply Z.leb_le in Hc | apply Z.leb_gt in Hc]; cbn [fst snd].
  - assert (Hd : d = 1000000000) by lia.
    rewrite Hd in Hd1. change (inject_Z 1000000000) with 1000000000%Q in Hd1.
    split; [lia|]. split; [lia|].
    rewrite inject_Z_plus. change (inject_Z 1) with 1%Q.
    unfold rem in *. generalize dependent (inject_Z i). intros k.
    intros. apply Qabs_Qle_condition. split; lra.
  - split; [lia|]. split; [lia|].
    rewrite (Qmake_scaled d). 
    unfold rem in *. generalize dependent (inject_Z i).
    generalize dependent (inject_Z d). intros.
    apply Qabs_Qle_condition. split; lra.
Qed.

Lemma Qabs_signed_diff (neg : bool) (a b : Q) :
  (Qabs (signed neg a - signed neg b) == Qabs (a - b))%Q.
Proof.
  destruct neg; cbn [signed]; [|reflexivity].
  assert (H : (- a - - b == - (a - b))%Q) by lra.
  rewrite H. apply Qabs_opp.
Qed.

(** Any value written by [writeFloat] is read back by [parseNumber]
    within half a unit of the ninth decimal. *)
Lemma parseNumber_writeFloat_any (x : Q) :
  exists v : ArduinoJson.JsonVariant,
    ArduinoJson.parseNumber (ArduinoJson.writeFloat x) = Some v /\
    (Qabs (ArduinoJson.as_float v - x) <= 1 # 2000000000)%Q /\
    allChars ArduinoJson.canBeInNumber (ArduinoJson.writeFloat x) = true /\
    startsWith (fun c => isDigit c || (c =? "-")%char)
               (ArduinoJson.writeFloat x) = true.
Proof.
  rewrite writeFloat_text.
  destruct (floatParts_bounds (Qabs x) (Qabs_nonneg x)) as (Hi & Hf & Hb).
  destruct (ArduinoJson.floatParts (Qabs x)) as [i f]. cbn [fst snd] in *.
  destruct (magnitudeText_chars _ _ Hi (proj1 Hf)) as [Hstart Hchars].
  destruct (parseMagnitude_text (Qnum x <? 0) _ _ Hi Hf)
    as (v & Hv & Hval & Hasf & _).
  exists v. split; [|split; [|split]].
  - unfold ArduinoJson.parseNumber.
    destruct (Qnum x <? 0).
    + cbn [append ArduinoJson.readSign Ascii.eqb Bool.eqb]. exact Hv.
    + cbn [append]. rewrite (readSign_digit _ Hstart). exact Hv.
  - rewrite Hasf, Hval. rewrite (Qabs_signed x) at 2.
    rewrite Qabs_signed_diff. exact Hb.
  - destruct (Qnum x <? 0); cbn [append allChars]; [|exact Hchars].
    rewrite Hchars. reflexivity.
  - destruct (Qnum x <? 0); cbn [append startsWith]; [reflexivity|].
    destruct (magnitudeText _ _) as [|c r]; [discriminate|].
    cbn [startsWith] in *. rewrite Hstart. reflexivity.
Qed.

(* ================================================================== *)
(** * Gateway: the canonical message, read by a subscriber *)
(* ================================================================== *)

Lemma readsAs_float (x : Q) :
  exists v : ArduinoJson.JsonVariant,
    readsAs (ArduinoJson.writeFloat x) v /\
    (Qabs (ArduinoJson.as_float v - x) <= 1 # 2000000000)%Q.
Proof.
  destruct (parseNumber_writeFloat_any x) as (v & Hp & Hv & Hc & Hs).
  exists v. split; [apply (readsAs_number _ _ Hp Hc Hs)|exact Hv].
Qed.

Lemma readsAs_integer (n : Z) :
  readsAs (ArduinoJson.writeInteger n) (ArduinoJson.JInteger n).
Proof.
  destruct (parseNumber_writeInteger n) as (Hp & Hc & Hs).
  apply (readsAs_number _ _ Hp Hc Hs).
Qed.

(** An object of seven members, each value one that is read back. *)
Lemma parse_seven_members (fuel nesting : nat)
      (k1 k2 k3 k4 k5 k6 k7 t1 t2 t3 t4 t5 t6 t7 : string)
      (v1 v2 v3 v4 v5 v6 v7 : ArduinoJson.JsonVariant) :
  cstring k1 -> cstring k2 -> cstring k3 -> cstring k4 ->
  cstring k5 -> cstring k6 -> cstring k7 ->
  readsAs t1 v1 -> readsAs t2 v2 -> readsAs t3 v3 -> readsAs t4 v4 ->
  readsAs t5 v5 -> readsAs t6 v6 -> readsAs t7 v7 ->
  ArduinoJson.parseVariant (9 + fuel) (S nesting)
    (String "{"
      (ArduinoJson.writeString k1 ++ String ":" (t1 ++ String ","
      (ArduinoJson.writeString k2 ++ String ":" (t2 ++ String ","
      (ArduinoJson.writeString k3 ++ String ":" (t3 ++ String ","
      (ArduinoJson.writeString k4 ++ String ":" (t4 ++ String ","
      (ArduinoJson.writeString k5 ++ String ":" (t5 ++ String ","
      (ArduinoJson.writeString k6 ++ String ":" (t6 ++ String ","
      (ArduinoJson.writeString k7 ++ String ":" (t7 ++ String "}" "")
      ))))))))))))))
  = ArduinoJson.Done
      (ArduinoJson.JObject
         (ArduinoJson.replace k7 v7
         (ArduinoJson.replace k6 v6
         (ArduinoJson.replace k5 v5
         (ArduinoJson.replace k4 v4
            (ArduinoJson.replace k3 v3
               (ArduinoJson.replace k2 v2
                  (ArduinoJson.replace k1 v1 [])))))))) "".
Proof.
  intros K1 K2 K3 K4 K5 K6 K7 R1 R2 R3 R4 R5 R6 R7.
  change (9 + fuel)%nat
    with (S (S (S (S (S (S (S (S (S fuel))))))))).
  rewrite parseVariant_object.
  rewrite (parseMembers_next _ _ _ k1 t1 v1 k2 _ K1 R1).
  rewrite (parseMembers_next _ _ _ k2 t2 v2 k3 _ K2 R2).
  rewrite (parseMembers_next _ _ _ k3 t3 v3 k4 _ K3 R3).
  rewrite (parseMembers_next _ _ _ k4 t4 v4 k5 _ K4 R4).
  rewrite (parseMembers_next _ _ _ k5 t5 v5 k6 _ K5 R5).
  rewrite (parseMembers_next _ _ _ k6 t6 v6 k7 _ K6 R6).
  apply (parseMembers_last _ _ _ k7 t7 v7 "" K7 R7).
Qed.

Lemma serialize_canonicalDoc (r : Gateway.CompactReading) (millis rssi : Z)
      (snr : Q) :
  ArduinoJson.serialize (Gateway.canonicalDoc r millis rssi snr) =
    String "{"
      (ArduinoJson.writeString "machine_id" ++ String ":"
      (ArduinoJson.writeString (Gateway.machineId r) ++ String ","
      (ArduinoJson.writeString "timestamp" ++ String ":"
      (ArduinoJson.writeInteger (millis / 1000) ++ String ","
      (ArduinoJson.writeString "temperature" ++ String ":"
      (ArduinoJson.writeFloat (Gateway.temperature r) ++ String ","
      (ArduinoJson.writeString "vibration" ++ String ":"
      (ArduinoJson.writeFloat (Gateway.vibration r) ++ String ","
      (ArduinoJson.writeString "rpm" ++ String ":"
      (ArduinoJson.writeInteger (Gateway.rpm r) ++ String ","
      (ArduinoJson.writeString "rssi" ++ String ":"
      (ArduinoJson.writeInteger rssi ++ String ","
      (ArduinoJson.writeString "snr" ++ String ":"
      (ArduinoJson.writeFloat snr ++ String "}" "")))))))))))))).
Proof.
  rewrite canonicalDoc_members. cbn [ArduinoJson.serialize].
  repeat first [ rewrite string_app_assoc | rewrite string_app_nil
               | progress cbn [append] ].
  reflexivity.
Qed.

Lemma writeFloat_length (x : Q) :
  (Qabs x <= 1000000)%Q ->
  (String.length (ArduinoJson.writeFloat x) <= 18)%nat.
Proof.
  intros Hx. rewrite writeFloat_text.
  destruct (floatParts_bounds (Qabs x) (Qabs_nonneg x)) as (Hi & Hf & Hb).
  destruct (ArduinoJson.floatParts (Qabs x)) as [i f]. cbn [fst snd] in *.
  assert (Hi7 : i < 1000001).
  { rewrite Zlt_Qlt. change (inject_Z 1000001) with 1000001%Q.
    apply Qabs_Qle_condition in Hb. destruct Hb as [Hb1 Hb2].
    rewrite (Qmake_scaled f) in Hb2.
    assert (Hf0 : (0 <= inject_Z f)%Q)
      by (change 0%Q with (inject_Z 0); rewrite <- Zle_Qle; lia).
    generalize dependent (inject_Z f). generalize dependent (inject_Z i).
    generalize dependent (Qabs x). intros. lra. }
  rewrite append_length. unfold magnitudeText. rewrite append_length.
  pose proof (sign_length (Qnum x <? 0)) as Hs.
  assert (Hu : (String.length (ArduinoJson.writeUnsigned i) <= 7)%nat).
  { apply (writeUnsigned_length _ 6).
    change (10 ^ Z.of_nat 7) with 10000000. lia. }
  assert (Hd : (String.length
                  (if (f =? 0)%Z then ""
                   else String "." (ArduinoJson.stripTrailingZeros
                                      (ArduinoJson.fixedDigits 9 f)))
                <= 10)%nat).
  { destruct (f =? 0); [cbn [String.length]; lia|]. cbn [String.length].
    pose proof (stripTrailingZeros_length (ArduinoJson.fixedDigits 9 f)) as H.
    destruct (fixedDigits_spec 9 f (proj1 Hf)) as (_ & Hl & _). lia. }
  lia.
Qed.

Lemma canonical_message_fits (r : Gateway.CompactReading) (millis rssi : Z)
      (snr : Q) :
  (String.length (Gateway.machineId r) <= 120)%nat ->
  in_int_range (millis / 1000) = true ->
  (Qabs (Gateway.temperature r) <= 1000000)%Q ->
  (Qabs (Gateway.vibration r) <= 1000000)%Q ->
  in_int_range (Gateway.rpm r) = true ->
  in_int_range rssi = true ->
  (Qabs snr <= 1000000)%Q ->
  (String.length
     (ArduinoJson.serialize (Gateway.canonicalDoc r millis rssi snr))
   <= 511)%nat.
Proof.
  intros Hid Hts Ht Hv Hrpm Hrssi Hsnr. rewrite serialize_canonicalDoc.
  pose proof (writeInteger_length _ Hts) as L1.
  pose proof (writeInteger_length _ Hrpm) as L2.
  pose proof (writeInteger_length _ Hrssi) as L3.
  pose proof (writeFloat_length _ Ht) as F1.
  pose proof (writeFloat_length _ Hv) as F2.
  pose proof (writeFloat_length _ Hsnr) as F3.
  pose proof (escapeString_length (Gateway.machineId r)) as Le.
  cbn [String.length].
  repeat (rewrite append_length; cbn [String.length]).
  rewrite !writeString_length.
  change (String.length (ArduinoJson.escapeString "machine_id")) with 10%nat.
  change (String.length (ArduinoJson.escapeString "timestamp")) with 9%nat.
  change (String.length (ArduinoJson.escapeString "temperature")) with 11%nat.
  change (String.length (ArduinoJson.escapeString "vibration")) with 9%nat.
  change (String.length (ArduinoJson.escapeString "rpm")) with 3%nat.
  change (String.length (ArduinoJson.escapeString "rssi")) with 4%nat.
  change (String.length (ArduinoJson.escapeString "snr")) with 3%nat.
  lia.
Qed.

(** X15.  What the gateway publishes can be read back: when the identity is
    a C string of at most 120 characters, the readings and the
    signal-to-noise ratio are at most a million in size and the integers
    are [int]s, the message fits the 512-byte buffer whole and parses as
    a JSON object whose members give back the identity, the clock in
    seconds, the speed and the signal strength exactly, and the
    temperature, the vibration and the signal-to-noise ratio within half
    a unit of the ninth decimal. *)
Theorem canonical_message_reads_back :
  forall (r : Gateway.CompactReading) (millis rssi : Z) (snr : Q),
    cstring (Gateway.machineId r) ->
    (String.length (Gateway.machineId r) <= 120)%nat ->
    in_int_range (millis / 1000) = true ->
    (Qabs (Gateway.temperature r) <= 1000000)%Q ->
    (Qabs (Gateway.vibration r) <= 1000000)%Q ->
    in_int_range (Gateway.rpm r) = true ->
    in_int_range rssi = true ->
    (Qabs snr <= 1000000)%Q ->
    exists doc : ArduinoJson.JsonVariant,
      ArduinoJson.deserializeJson
        (ArduinoJson.serializeJson
           (Gateway.canonicalDoc r millis rssi snr) 512)
        = (ArduinoJson.Ok, doc) /\
      ArduinoJson.get doc "machine_id"
        = ArduinoJson.JString (Gateway.machineId r) /\
      ArduinoJson.get doc "timestamp" = ArduinoJson.JInteger (millis / 1000) /\
      ArduinoJson.get doc "rpm" = ArduinoJson.JInteger (Gateway.rpm r) /\
      ArduinoJson.get doc "rssi" = ArduinoJson.JInteger rssi /\
      (Qabs (ArduinoJson.as_float (ArduinoJson.get doc "temperature")
             - Gateway.temperature r) <= 1 # 2000000000)%Q /\
      (Qabs (ArduinoJson.as_float (ArduinoJson.get doc "vibration")
             - Gateway.vibration r) <= 1 # 2000000000)%Q /\
      (Qabs (ArduinoJson.as_float (ArduinoJson.get doc "snr") - snr)
       <= 1 # 2000000000)%Q.
Proof.
  intros r millis rssi snr Hid Hlen Hts Ht Hv Hrpm Hrssi Hsnr.
  pose proof (canonical_message_fits r millis rssi snr Hlen Hts Ht Hv Hrpm
                Hrssi Hsnr) as Hfit.
  destruct (readsAs_float (Gateway.temperature r)) as (vt & Rt & Et).
  destruct (readsAs_float (Gateway.vibration r)) as (vv & Rv & Ev).
  destruct (readsAs_float snr) as (vs & Rs & Es).
  assert (Hfuel : exists fuel : nat,
             (2 * String.length
                    (ArduinoJson.serialize
                       (Gateway.canonicalDoc r millis rssi snr)) + 2
              = 9 + fuel)%nat).
  { assert (H4 : (4 <= String.length
                          (ArduinoJson.serialize
                             (Gateway.canonicalDoc r millis rssi snr)))%nat).
    { rewrite serialize_canonicalDoc, writeString_app.
      change (ArduinoJson.escapeString "machine_id") with "machine_id".
      cbn [String.length append]. lia. }
    exists (2 * String.length
                  (ArduinoJson.serialize
                     (Gateway.canonicalDoc r millis rssi snr)) + 2 - 9)%nat.
    lia. }
  destruct Hfuel as [fuel Hfuel].
  pose proof (parse_seven_members fuel 9
                "machine_id" "timestamp" "temperature" "vibration" "rpm"
                "rssi" "snr" _ _ _ _ _ _ _ _ _ _ _ _ _ _
                ltac:(repeat split; discriminate)
                ltac:(repeat split; discriminate)
                ltac:(repeat split; discriminate)
                ltac:(repeat split; discriminate)
                ltac:(repeat split; discriminate)
                ltac:(repeat split; discriminate)
                ltac:(repeat split; discriminate)
                (readsAs_string _ Hid) (readsAs_integer (millis / 1000))
                Rt Rv (readsAs_integer (Gateway.rpm r))
                (readsAs_integer rssi) Rs) as Hparse.
  rewrite <- serialize_canonicalDoc in Hparse.
  eexists. split.
  - unfold ArduinoJson.serializeJson. change (512 - 1)%nat with 511%nat.
    rewrite (substring_whole _ _ Hfit).
    unfold ArduinoJson.deserializeJson.
    rewrite Hfuel. change ArduinoJson.NESTING_LIMIT with 10%nat.
    rewrite Hparse.
    rewrite serialize_canonicalDoc. cbn [ArduinoJson.skipSpaces].
    change (ArduinoJson.isSpace "{") with false. cbv iota.
    cbn [ArduinoJson.isEnclosed]. reflexivity.
  - cbn [ArduinoJson.replace String.eqb Ascii.eqb Bool.eqb
         ArduinoJson.get ArduinoJson.lookup].
    repeat split; try reflexivity; assumption.
Qed.

Lemma canonical_message_reads_back_witness :
  exists doc : ArduinoJson.JsonVariant,
    ArduinoJson.deserializeJson
      (ArduinoJson.serializeJson
         (Gateway.canonicalDoc
            (Gateway.mkReading "lathe_01" (673 # 10) (- (12 # 1000)) 3200)
            12345678 (-45) (95 # 10)) 512)
      = (ArduinoJson.Ok, doc) /\
    ArduinoJson.get doc "machine_id" = ArduinoJson.JString "lathe_01" /\
    ArduinoJson.get doc "timestamp"
      = ArduinoJson.JInteger (12345678 / 1000) /\
    ArduinoJson.get doc "rpm" = ArduinoJson.JInteger 3200 /\
    ArduinoJson.get doc "rssi" = ArduinoJson.JInteger (-45) /\
    (Qabs (ArduinoJson.as_float (ArduinoJson.get doc "temperature")
           - (673 # 10)) <= 1 # 2000000000)%Q /\
    (Qabs (ArduinoJson.as_float (ArduinoJson.get doc "vibration")
           - (- (12 # 1000))) <= 1 # 2000000000)%Q /\
    (Qabs (ArduinoJson.as_float (ArduinoJson.get doc "snr") - (95 # 10))
     <= 1 # 2000000000)%Q.
Proof.
  apply (canonical_message_reads_back
           (Gateway.mkReading "lathe_01" (673 # 10) (- (12 # 1000)) 3200)
           12345678 (-45) (95 # 10)).
  - repeat split; discriminate.
  - apply Nat.leb_le. reflexivity.
  - reflexivity.
  - apply Qle_bool_iff. reflexivity.
  - apply Qle_bool_iff. reflexivity.
  - reflexivity.
  - reflexivity.
  - apply Qle_bool_iff. reflexivity.
Defined.

(* ================================================================== *)
(** * Node to gateway: a payload cut by the node's buffer *)
(* ================================================================== *)

Lemma substring_nil (j : nat) : substring 0 j "" = "".
Proof. destruct j; reflexivity. Qed.

Lemma substring_app_short (a b : string) (j : nat) :
  (j <= String.length a)%nat -> substring 0 j (a ++ b) = substring 0 j a.
Proof.
  revert j. induction a as [|c a IH]; intros j H.
  - cbn [String.length] in H. assert (j = 0%nat) by lia. subst j.
    cbn [append]. destruct b; reflexivity.
  - destruct j as [|j]; [reflexivity|]. cbn [append substring].
    cbn [String.length] in H. rewrite IH by lia. reflexivity.
Qed.

Lemma substring_app_long (a b : string) (j : nat) :
  (String.length a <= j)%nat ->
  substring 0 j (a ++ b) = a ++ substring 0 (j - String.length a) b.
Proof.
  intros H.
  replace j with (String.length a + (j - String.length a))%nat at 1 by lia.
  apply substring_append.
Qed.

Lemma escape_cases (c : ascii) :
  c <> "000"%char ->
  (exists e, ArduinoJson.escapeChar c = Some e /\
             (e =? "u")%char = false /\
             ArduinoJson.unescapeChar e = Some c) \/
  (ArduinoJson.escapeChar c = None /\
   (c =? dquote)%char = false /\ (c =? "000")%char = false /\
   (c =? backslash)%char = false).
Proof.
  intros Hc. ascii_cases c;
    try (exfalso; apply Hc; reflexivity);
    first [ right; repeat split; reflexivity
          | left; eexists; repeat split; reflexivity ].
Qed.

Lemma quoted_cut (s : string) :
  cstring s ->
  forall j : nat,
    endsInput
      (ArduinoJson.parseQuotedString dquote
         (substring 0 j (ArduinoJson.escapeString s ++ String dquote ""))).
Proof.
  induction s as [|c s IH]; intros Hs j.
  - cbn [ArduinoJson.escapeString append].
    destruct j as [|j]; cbn [substring ArduinoJson.parseQuotedString].
    + discriminate.
    + change (dquote =? dquote)%char with true. cbv iota.
      cbn [endsInput]. apply substring_nil.
  - destruct Hs as [Hc Hs]. specialize (IH Hs).
    cbn [ArduinoJson.escapeString].
    destruct (escape_cases c Hc) as [(e & He & Hu & Hun)|(He & Hq & Hz & Hb)];
      rewrite He.
    + destruct j as [|[|j]];
        cbn [append substring ArduinoJson.parseQuotedString].
      * discriminate.
      * change (backslash =? dquote)%char with false.
        change (backslash =? "000")%char with false.
        change (backslash =? backslash)%char with true. cbv iota.
        cbn [endsInput]. discriminate.
      * change (backslash =? dquote)%char with false.
        change (backslash =? "000")%char with false.
        change (backslash =? backslash)%char with true. cbv iota.
        rewrite Hu, Hun. specialize (IH j).
        destruct (ArduinoJson.parseQuotedString dquote _); exact IH.
    + destruct j as [|j];
        cbn [append substring ArduinoJson.parseQuotedString].
      * discriminate.
      * rewrite Hq, Hz, Hb. specialize (IH j).
        destruct (ArduinoJson.parseQuotedString dquote _); exact IH.
Qed.

Lemma cutSafe_string (s : string) :
  cstring s -> cutSafe (ArduinoJson.writeString s).
Proof.
  intros Hs j fuel nesting. unfold ArduinoJson.writeString.
  destruct fuel as [|fuel]; [cbn; discriminate|].
  destruct j as [|j]; [cbn; discriminate|].
  cbn [substring ArduinoJson.parseVariant ArduinoJson.skipSpaces].
  change (ArduinoJson.isSpace dquote) with false. cbv iota.
  change (dquote =? "[")%char with false.
  change (dquote =? "{")%char with false.
  change (ArduinoJson.isQuote dquote) with true. cbv iota.
  pose proof (quoted_cut s Hs j) as H.
  destruct (ArduinoJson.parseQuotedString dquote _); exact H.
Qed.

Lemma allChars_substring (p : ascii -> bool) (s : string) (j : nat) :
  allChars p s = true -> allChars p (substring 0 j s) = true.
Proof.
  revert j. induction s as [|c s IH]; intros j H.
  - rewrite substring_nil. reflexivity.
  - destruct j as [|j]; [reflexivity|]. cbn [substring allChars] in *.
    apply andb_true_iff in H. destruct H as [Hc H].
    rewrite Hc, (IH j H). reflexivity.
Qed.

Lemma span_all (p : ascii -> bool) (s : string) :
  allChars p s = true -> ArduinoJson.span p s = (s, "").
Proof.
  induction s as [|c s IH]; intros H; [reflexivity|].
  cbn [allChars] in H. apply andb_true_iff in H. destruct H as [Hc H].
  cbn [ArduinoJson.span]. rewrite Hc, (IH H). reflexivity.
Qed.

Lemma cutSafe_number (text : string) :
  allChars ArduinoJson.canBeInNumber text = true ->
  startsWith (fun c => isDigit c || (c =? "-")%char) text = true ->
  cutSafe text.
Proof.
  intros Hchars Hstart j fuel nesting.
  destruct fuel as [|fuel]; [cbn; discriminate|].
  destruct text as [|c text]; [discriminate Hstart|].
  destruct j as [|j]; [cbn; discriminate|].
  cbn [startsWith] in Hstart.
  destruct (number_start_is_plain c Hstart)
    as (Hsp & Hb & Hc & Hq & Ht & Hf & Hn).
  pose proof (allChars_substring _ _ (S j) Hchars) as Hsub.
  cbn [substring] in *.
  cbn [ArduinoJson.parseVariant ArduinoJson.skipSpaces].
  rewrite Hsp, Hb, Hc, Hq, Ht, Hf, Hn.
  unfold ArduinoJson.parseNumericValue. rewrite (span_all _ _ Hsub).
  destruct (ArduinoJson.parseNumber _); cbn [endsInput];
    [reflexivity|discriminate].
Qed.

Lemma cutSafe_float (x : Q) : cutSafe (ArduinoJson.writeFloat x).
Proof.
  destruct (parseNumber_writeFloat_any x) as (v & _ & _ & Hc & Hs).
  apply cutSafe_number; assumption.
Qed.

Lemma cutSafe_integer (n : Z) : cutSafe (ArduinoJson.writeInteger n).
Proof.
  destruct (parseNumber_writeInteger n) as (_ & Hc & Hs).
  apply cutSafe_number; assumption.
Qed.

(** A member cut in its key or in its value. *)
Lemma member_cut (key text rest : string) :
  cstring key -> cutSafe text ->
  forall (j fuel nesting : nat) (acc : list (string * ArduinoJson.JsonVariant)),
    (j <= String.length (ArduinoJson.writeString key) + 1
          + String.length text)%nat ->
    rejected
      (ArduinoJson.parseMembers fuel nesting acc
         (substring 0 j
            (ArduinoJson.writeString key ++ String ":" (text ++ rest)))).
Proof.
  intros Hk Ht j fuel nesting acc Hj.
  destruct fuel as [|fuel]; [cbn; discriminate|].
  destruct (Nat.le_gt_cases j (String.length (ArduinoJson.writeString key)))
    as [Hkey|Hval].
  - rewrite substring_app_short by exact Hkey.
    cbn [ArduinoJson.parseMembers].
    unfold ArduinoJson.writeString.
    destruct j as [|j]; [cbn; discriminate|].
    cbn [substring ArduinoJson.parseKey].
    change (ArduinoJson.isQuote dquote) with true. cbv iota.
    pose proof (quoted_cut key Hk j) as H.
    destruct (ArduinoJson.parseQuotedString dquote _) as [k r|e];
      cbn [endsInput] in H; [|exact H].
    subst r. cbn. discriminate.
  - rewrite substring_app_long by lia.
    set (m := (j - String.length (ArduinoJson.writeString key))%nat).
    assert (Hm : exists m', m = S m' /\ (m' <= String.length text)%nat).
    { exists (m - 1)%nat. unfold m. lia. }
    destruct Hm as (m' & -> & Hm').
    cbn [substring]. rewrite substring_app_short by exact Hm'.
    cbn [ArduinoJson.parseMembers].
    rewrite (parseKey_writeString key _ Hk).
    cbn [ArduinoJson.skipSpaces].
    change (ArduinoJson.isSpace ":") with false. cbv iota.
    change (":" =? ":")%char with true. cbv iota.
    pose proof (Ht m' fuel nesting) as H.
    destruct (ArduinoJson.parseVariant fuel nesting _) as [v r|e];
      cbn [endsInput] in H; [|exact H].
    subst r. cbn. discriminate.
Qed.

(** The last member of an object, cut before the closing brace. *)
Lemma members_cut_last (key text : string) :
  cstring key -> cutSafe text ->
  forall (j fuel nesting : nat) (acc : list (string * ArduinoJson.JsonVariant)),
    (j <= String.length (ArduinoJson.writeString key) + 1
          + String.length text)%nat ->
    rejected
      (ArduinoJson.parseMembers fuel nesting acc
         (substring 0 j
            (ArduinoJson.writeString key ++
               String ":" (text ++ String "}" "")))).
Proof. intros Hk Ht j fuel nesting acc. apply member_cut; assumption. Qed.

(** A member followed by others: the cut falls in it, or in what
    follows. *)
Lemma members_cut_next (key text : string) (v : ArduinoJson.JsonVariant)
      (later : string) (bound : nat) :
  cstring key -> cutSafe text -> readsAs text v ->
  startsWith (fun c => negb (ArduinoJson.isSpace c)) later = true ->
  (forall (j fuel nesting : nat)
          (acc : list (string * ArduinoJson.JsonVariant)),
      (j <= bound)%nat -> (0 < j)%nat ->
      rejected
        (ArduinoJson.parseMembers fuel nesting acc (substring 0 j later))) ->
  forall (j fuel nesting : nat) (acc : list (string * ArduinoJson.JsonVariant)),
    (j <= String.length (ArduinoJson.writeString key) + 1
          + String.length text + 1 + bound)%nat ->
    rejected
      (ArduinoJson.parseMembers fuel nesting acc
         (substring 0 j
            (ArduinoJson.writeString key ++
               String ":" (text ++ String "," later)))).
Proof.
  intros Hk Ht Hv Hstart Hlater j fuel nesting acc Hj.
  destruct (Nat.le_gt_cases j
              (String.length (ArduinoJson.writeString key) + 1
               + String.length text)) as [Hin|Hout].
  - apply member_cut; assumption.
  - destruct fuel as [|[|fuel]].
    + cbn. discriminate.
    + rewrite substring_app_long by lia.
      cbn [ArduinoJson.parseMembers].
      rewrite (parseKey_writeString key _ Hk).
      destruct (j - String.length (ArduinoJson.writeString key))%nat
        as [|m] eqn:Hm; [lia|].
      cbn [substring ArduinoJson.skipSpaces].
      change (ArduinoJson.isSpace ":") with false. cbv iota.
      change (":" =? ":")%char with true. cbv iota.
      cbn [ArduinoJson.parseVariant rejected]. discriminate.
    + assert (Hsplit :
        substring 0 j
          (ArduinoJson.writeString key ++
             String ":" (text ++ String "," later)) =
        ArduinoJson.writeString key ++
          String ":" (text ++ String ","
            (substring 0
               (j - (String.length (ArduinoJson.writeString key) + 1
                     + String.length text + 1)) later))).
      { rewrite substring_app_long by lia.
        destruct (j - String.length (ArduinoJson.writeString key))%nat
          as [|m] eqn:Hm; [lia|].
        cbn [substring]. rewrite substring_app_long by lia.
        destruct (m - String.length text)%nat as [|m'] eqn:Hm'; [lia|].
        cbn [substring].
        replace (j - (String.length (ArduinoJson.writeString key) + 1
                      + String.length text + 1))%nat with m' by lia.
        reflexivity. }
      rewrite Hsplit.
      rewrite (parseMembers_member (S fuel) nesting acc key text v ","%char
                 _ Hk (Hv fuel nesting ","%char _ (or_introl eq_refl))
                 eq_refl).
      change ("," =? "}")%char with false. change ("," =? ",")%char with true.
      cbv iota.
      set (j' := (j - (String.length (ArduinoJson.writeString key) + 1
                       + String.length text + 1))%nat).
      destruct j' as [|j''] eqn:Hj'.
      * destruct later; cbn; discriminate.
      * assert (Hb : (S j'' <= bound)%nat) by (unfold j' in Hj'; lia).
        pose proof (Hlater (S j'') (S fuel) nesting
                      (ArduinoJson.replace key v acc) Hb ltac:(lia)) as H.
        destruct later as [|c later']; [discriminate Hstart|].
        cbn [startsWith] in Hstart. apply negb_true_iff in Hstart.
        cbn [substring ArduinoJson.skipSpaces] in *. rewrite Hstart.
        exact H.
Qed.

Lemma writeString_starts (key rest : string) :
  startsWith (fun c => negb (ArduinoJson.isSpace c))
             (ArduinoJson.writeString key ++ rest) = true.
Proof. rewrite writeString_app. reflexivity. Qed.

(** The compact document cut anywhere before its closing brace is not
    read as a value. *)
Lemma compactDoc_cut (id : string) (t v : Q) (r : Z) :
  cstring id ->
  forall (j fuel nesting : nat),
    (j < String.length (ArduinoJson.serialize (Node.compactDoc id t v r)))%nat ->
    rejected
      (ArduinoJson.parseVariant fuel nesting
         (substring 0 j (ArduinoJson.serialize (Node.compactDoc id t v r)))).
Proof.
  intros Hid j fuel nesting. rewrite serialize_compactDoc.
  set (F1 := ArduinoJson.writeFloat (Node.round1 t)).
  set (F2 := ArduinoJson.writeFloat (Node.round3 v)).
  set (I := ArduinoJson.writeInteger r).
  assert (K1 : cstring "id") by (repeat split; discriminate).
  assert (K2 : cstring "t") by (repeat split; discriminate).
  assert (K3 : cstring "v") by (repeat split; discriminate).
  assert (K4 : cstring "r") by (repeat split; discriminate).
  pose proof (cutSafe_string id Hid) as S1.
  pose proof (cutSafe_float (Node.round1 t)) as S2. fold F1 in S2.
  pose proof (cutSafe_float (Node.round3 v)) as S3. fold F2 in S3.
  pose proof (cutSafe_integer r) as S4. fold I in S4.
  pose proof (readsAs_string id Hid) as R1.
  destruct (readsAs_float (Node.round1 t)) as (v2 & R2 & _). fold F1 in R2.
  destruct (readsAs_float (Node.round3 v)) as (v3 & R3 & _). fold F2 in R3.
  pose proof (members_cut_last "r" I K4 S4) as M4.
  pose proof (members_cut_next "v" F2 v3 _ _ K3 S3 R3
                (writeString_starts "r" _)
                (fun j fuel nesting acc H _ => M4 j fuel nesting acc H))
    as M3.
  pose proof (members_cut_next "t" F1 v2 _ _ K2 S2 R2
                (writeString_starts "v" _)
                (fun j fuel nesting acc H _ => M3 j fuel nesting acc H))
    as M2.
  pose proof (members_cut_next "id" (ArduinoJson.writeString id)
                (ArduinoJson.JString id) _ _ K1 S1 R1
                (writeString_starts "t" _)
                (fun j fuel nesting acc H _ => M2 j fuel nesting acc H))
    as M1.
  clear M2 M3 M4.
  cbn [String.length]. repeat (rewrite append_length; cbn [String.length]).
  intros Hj.
  destruct fuel as [|fuel]; [cbn; discriminate|].
  destruct j as [|j]; [cbn; discriminate|].
  cbn [substring ArduinoJson.parseVariant ArduinoJson.skipSpaces].
  change (ArduinoJson.isSpace "{") with false. cbv iota.
  change ("{" =? "[")%char with false. change ("{" =? "{")%char with true.
  cbv iota.
  destruct nesting as [|nesting]; [cbn; discriminate|].
  destruct j as [|j].
  - rewrite writeString_app. cbn. discriminate.
  - specialize (M1 (S j) fuel nesting [] ltac:(lia)).
    rewrite writeString_app in M1 |- *.
    cbn [substring ArduinoJson.skipSpaces] in M1 |- *.
    change (ArduinoJson.isSpace dquote) with false. cbv iota.
    change (dquote =? "}")%char with false. cbv iota.
    exact M1.
Qed.

(** X16.  A compact text too long for the node's 128-byte buffer goes on
    the air cut to 127 characters; the gateway's parser rejects what
    arrives, so the packet is dropped with a parse error and nothing is
    published, whatever the state of the session. *)
Theorem oversized_payload_is_discarded :
  forall (id : string) (t v : Q) (rpm millis rssi : Z) (snr : Q)
         (c : PubSubClient.t),
    cstring id ->
    (127 < String.length
             (ArduinoJson.serialize (Node.compactDoc id t v rpm)))%nat ->
    String.length (Node.encode id t v rpm) = 127%nat /\
    exists e : ArduinoJson.DeserializationError,
      Gateway.decode (Node.encode id t v rpm) = Gateway.JsonParseError e /\
      Gateway.handleLoRaPacket millis
        (Gateway.mkPacket (Node.encode id t v rpm) rssi snr) c
      = (c, Gateway.ParseFailed e).
Proof.
  intros id t v rpm millis rssi snr c Hid Hlong.
  unfold Node.encode, ArduinoJson.serializeJson.
  change (128 - 1)%nat with 127%nat.
  split; [apply substring_short_length; lia|].
  pose proof (compactDoc_cut id t v rpm Hid 127
                (2 * String.length
                       (substring 0 127
                          (ArduinoJson.serialize
                             (Node.compactDoc id t v rpm))) + 2)
                ArduinoJson.NESTING_LIMIT Hlong) as Hcut.
  assert (Hdec : exists e,
             ArduinoJson.deserializeJson
               (substring 0 127
                  (ArduinoJson.serialize (Node.compactDoc id t v rpm)))
             = (e, ArduinoJson.JNull) /\ e <> ArduinoJson.Ok).
  { unfold ArduinoJson.deserializeJson.
    destruct (ArduinoJson.parseVariant _ _ _) as [doc rest|e];
      [destruct Hcut|].
    destruct (ArduinoJson.skipSpaces _).
    - exists ArduinoJson.EmptyInput. split; [reflexivity|discriminate].
    - exists e. split; [reflexivity|exact Hcut]. }
  destruct Hdec as (e & Hdes & He).
  exists e.
  pose proof (decode_error _ e _ Hdes He) as Hd.
  split; [exact Hd|].
  apply (handle_parse_error millis
           (Gateway.mkPacket
              (substring 0 127
                 (ArduinoJson.serialize (Node.compactDoc id t v rpm)))
              rssi snr) c e).
  exact Hd.
Qed.

(** An identity of 120 characters: the closing quote of the identity is
    the first character that does not fit. *)
Lemma oversized_payload_is_discarded_witness :
  String.length
    (Node.encode (Samples.longId ++ Samples.longId) (673 # 10) (12 # 1000)
       3200) = 127%nat /\
  exists e : ArduinoJson.DeserializationError,
    Gateway.decode
      (Node.encode (Samples.longId ++ Samples.longId) (673 # 10)
         (12 # 1000) 3200) = Gateway.JsonParseError e /\
    Gateway.handleLoRaPacket 12345678
      (Gateway.mkPacket
         (Node.encode (Samples.longId ++ Samples.longId) (673 # 10)
            (12 # 1000) 3200) (-45) (95 # 10))
      Samples.connectedClient
    = (Samples.connectedClient, Gateway.ParseFailed e).
Proof.
  apply (oversized_payload_is_discarded (Samples.longId ++ Samples.longId)
           (673 # 10) (12 # 1000) 3200 12345678 (-45) (95 # 10)
           Samples.connectedClient).
  - repeat split; discriminate.
  - apply Nat.ltb_lt. vm_compute. reflexivity.
Defined.
